(** * Ledgerly: import normalisation, stock-adjusting sales, stock upsert
      and the sales forecast

    A shallow embedding of the logic of
      - [dashboard.py]: [Dashboard._clean_cols], [_rename_with_synonyms],
        [_normalize_sales_df], [_normalize_inventory_df],
        [_normalize_expenses_df] and the Sales branch of
        [process_csv_upload];
      - [ledgerly/services/billing_service.py]: [add_sale],
        [add_stock_safe];
      - [ledgerly/services/stock_service.py]: both definitions of
        [StockService.update_stock];
      - [ledgerly/services/analytics_service.py]: [get_sales_forecast].

    Conventions.
      - SQL [Float] columns and Python floats are rationals ([Q]); the
        missing value (pandas NaN) is the separate cell [CNaN].
      - Python [None] is [None]; a raised exception is [inl e].
      - Text is [string], read as a sequence of ASCII characters.
      - Calendar dates are day numbers ([Z]); [date - timedelta(days=7)]
        is [d - 7].
      - pandas itself is not part of the repository: the two element-wise
        conversions whose result depends on number syntax
        ([pd.to_numeric] on text, [str] of a number) are parameters. *)

From stdpp Require Import gmap strings list fin_maps pretty.
From Stdlib Require Import Ascii QArith.

Local Close Scope Q_scope.

(** ** Python text operations used by [_clean_cols] and [.str.strip()] *)

Module PyStr.

(** [str.isspace] on ASCII: TAB, LF, VT, FF, CR, FS, GS, RS, US, SPACE. *)
Definition is_space (a : ascii) : bool :=
  let n := nat_of_ascii a in
  ((9 <=? n) && (n <=? 13)) || ((28 <=? n) && (n <=? 32)).

(** [str.lower] on one ASCII character. *)
Definition lower_char (a : ascii) : ascii :=
  let n := nat_of_ascii a in
  if (65 <=? n) && (n <=? 90) then ascii_of_nat (n + 32) else a.

Fixpoint map_string (f : ascii -> ascii) (s : string) : string :=
  match s with
  | EmptyString => EmptyString
  | String a s' => String (f a) (map_string f s')
  end.

Fixpoint lstrip (s : string) : string :=
  match s with
  | EmptyString => EmptyString
  | String a s' => if is_space a then lstrip s' else s
  end.

Fixpoint rstrip (s : string) : string :=
  match s with
  | EmptyString => EmptyString
  | String a s' =>
      match rstrip s' with
      | EmptyString => if is_space a then EmptyString else String a EmptyString
      | t => String a t
      end
  end.

(** [s.strip()] *)
Definition strip (s : string) : string := rstrip (lstrip s).

(** [s.lower()] *)
Definition lower (s : string) : string := map_string lower_char s.

(** [s.replace(old, new)] for one-character [old] and [new]. *)
Definition replace (old new : ascii) (s : string) : string :=
  map_string (fun a => if Ascii.eqb a old then new else a) s.

End PyStr.

(** ** Exceptions and results *)

Inductive exn : Type :=
| KeyError
| AttributeError
| TypeError
| ValueError
| IntegrityError
| OperationalError.

Definition result (A : Type) : Type := (exn + A)%type.

Definition ok {A} (a : A) : result A := inr a.
Definition raise {A} (e : exn) : result A := inl e.

Definition rbind {A B} (r : result A) (k : A -> result B) : result B :=
  match r with
  | inl e => inl e
  | inr a => k a
  end.

Declare Scope result_scope.
Delimit Scope result_scope with result.
Notation "x <-? r ; k" := (rbind r (fun x => k))
  (at level 100, r at next level, right associativity) : result_scope.

(** ** Data frames *)

(** A cell of a frame read from a file: text, a number, or missing. *)
Inductive cell : Type :=
| CStr (s : string)
| CNum (q : Q)
| CNaN.

(** Column labels in order (duplicates allowed, as in pandas) and the rows;
    the cell of column [i] in row [r] is [nth i r CNaN]. *)
Record DataFrame : Type := mkDF {
  columns : list string;
  rows : list (list cell)
}.

Definition get_cell (i : nat) (r : list cell) : cell := nth i r CNaN.

(** Write position [i] of a row, padding a short row with missing cells. *)
Fixpoint set_cell (i : nat) (v : cell) (r : list cell) : list cell :=
  match i, r with
  | O, [] => [v]
  | O, _ :: r' => v :: r'
  | S i', [] => CNaN :: set_cell i' v []
  | S i', c :: r' => c :: set_cell i' v r'
  end.

(** Positions of the columns labelled [col], counted from [i]. *)
Fixpoint positions (col : string) (cols : list string) (i : nat) : list nat :=
  match cols with
  | [] => []
  | c :: cols' =>
      if String.eqb c col then i :: positions col cols' (S i)
      else positions col cols' (S i)
  end.

(** [df[col]]: a Series when one column carries the label, a DataFrame
    when several do, [KeyError] when none does. *)
Inductive selection : Type :=
| SelSeries (i : nat)
| SelFrame (js : list nat).

Definition getitem (df : DataFrame) (col : string) : result selection :=
  match positions col (columns df) 0 with
  | [] => raise KeyError
  | [i] => ok (SelSeries i)
  | js => ok (SelFrame js)
  end.

(** [df[col].<...>.str]: a DataFrame has no [.str] accessor. *)
Definition str_accessor (sel : selection) : result nat :=
  match sel with
  | SelSeries i => ok i
  | SelFrame _ => raise AttributeError
  end.

(** [pd.to_numeric(df[col], ...)] refuses a DataFrame argument. *)
Definition numeric_arg (sel : selection) : result nat :=
  match sel with
  | SelSeries i => ok i
  | SelFrame _ => raise TypeError
  end.

(** [df[col] = f(df[col])] element-wise, for the column at position [i]. *)
Definition map_col (i : nat) (f : cell -> cell) (df : DataFrame) : DataFrame :=
  mkDF (columns df) (map (fun r => set_cell i (f (get_cell i r)) r) (rows df)).

(** [df[mask]] for a mask computed element-wise from column [i]. *)
Definition filter_rows (i : nat) (p : cell -> bool) (df : DataFrame) : DataFrame :=
  mkDF (columns df) (List.filter (fun r => p (get_cell i r)) (rows df)).

(** [df[[l1, ..., ln]]]: the listed labels in that order. *)
Definition select (df : DataFrame) (labels : list string) : result DataFrame :=
  if forallb (fun l => negb (Nat.eqb (length (positions l (columns df) 0)) 0)) labels
  then
    ok (mkDF
          (flat_map (fun l => map (fun _ => l) (positions l (columns df) 0)) labels)
          (map (fun r =>
                  flat_map (fun l => map (fun i => get_cell i r)
                                         (positions l (columns df) 0)) labels)
               (rows df)))
  else raise KeyError.

(** ** [Dashboard._clean_cols] and [_rename_with_synonyms] *)

Definition clean_col (c : string) : string :=
  PyStr.replace "-" "_" (PyStr.replace " " "_" (PyStr.lower (PyStr.strip c)))%char.

Definition _clean_cols (cols : list string) : list string := map clean_col cols.

(** [c == target or c in syns] *)
Definition header_matches (target : string) (syns : list string) (c : string) : bool :=
  String.eqb c target || existsb (String.eqb c) syns.

(** The inner loop [for c in df.columns]. *)
Definition rename_step (cols : list string) (rm : gmap string string)
    (entry : string * list string) : gmap string string :=
  fold_left
    (fun rm c => if header_matches (fst entry) (snd entry) c
                 then <[c := fst entry]> rm else rm)
    cols rm.

(** The outer loop [for target, syns in mapping.items()]. *)
Definition build_rename_map (mapping : list (string * list string))
    (cols : list string) : gmap string string :=
  fold_left (rename_step cols) mapping ∅.

(** [df.rename(columns=rename_map)] on the labels. *)
Definition rename_columns (rm : gmap string string) (cols : list string) : list string :=
  map (fun c => default c (rm !! c)) cols.

Definition _rename_with_synonyms (df : DataFrame)
    (mapping : list (string * list string)) : DataFrame :=
  let cols := _clean_cols (columns df) in
  let rename_map := build_rename_map mapping cols in
  if bool_decide (rename_map = ∅) then mkDF cols (rows df)
  else mkDF (rename_columns rename_map cols) (rows df).

(** ** Element-wise conversions and the three normalisers *)

Section Normalizer.

(** [pd.to_numeric] on a text cell; [None] when the text is not a number. *)
Variable parse_numeric : string -> option Q.
(** [str] of a number. *)
Variable str_of_num : Q -> string.

(** [.astype(str)]: the missing value becomes the text [nan]. *)
Definition astype_str (c : cell) : cell :=
  match c with
  | CStr s => CStr s
  | CNum q => CStr (str_of_num q)
  | CNaN => CStr "nan"
  end.

(** [.fillna(v)] *)
Definition fillna (v : cell) (c : cell) : cell :=
  match c with
  | CNaN => v
  | _ => c
  end.

(** [.str.strip()]: cells that are not text become missing. *)
Definition str_strip (c : cell) : cell :=
  match c with
  | CStr s => CStr (PyStr.strip s)
  | _ => CNaN
  end.

(** [pd.to_numeric(..., errors="coerce")] *)
Definition to_numeric (c : cell) : cell :=
  match c with
  | CStr s => match parse_numeric s with Some q => CNum q | None => CNaN end
  | CNum q => CNum q
  | CNaN => CNaN
  end.

(** [.str.len() > 0]; the length of a cell that is not text is missing,
    and a missing value compares false. *)
Definition str_len_gt0 (c : cell) : bool :=
  match c with
  | CStr s => negb (Nat.eqb (String.length s) 0)
  | _ => false
  end.

(** [> 0] on a numeric column. *)
Definition num_gt0 (c : cell) : bool :=
  match c with
  | CNum q => negb (Qle_bool q 0)
  | _ => false
  end.

(** [df[col] = df[col].<text conversions>.str.strip()] *)
Definition str_col (df : DataFrame) (col : string) (f : cell -> cell)
    : result DataFrame :=
  (sel <-? getitem df col;
   i <-? str_accessor sel;
   ok (map_col i f df))%result.

(** [df[col] = pd.to_numeric(df[col], errors="coerce").fillna(fill)] *)
Definition num_col (df : DataFrame) (col : string) (fill : Q) : result DataFrame :=
  (sel <-? getitem df col;
   i <-? numeric_arg sel;
   ok (map_col i (fun c => fillna (CNum fill) (to_numeric c)) df))%result.

(** [df = df[df[col].str.len() > 0]] *)
Definition keep_nonblank (df : DataFrame) (col : string) : result DataFrame :=
  (sel <-? getitem df col;
   i <-? str_accessor sel;
   ok (filter_rows i str_len_gt0 df))%result.

(** [df = df[df[col] > 0]]; with a DataFrame selection this line is not
    reached, [pd.to_numeric] on the same label has raised before. *)
Definition keep_positive (df : DataFrame) (col : string) : result DataFrame :=
  (sel <-? getitem df col;
   i <-? numeric_arg sel;
   ok (filter_rows i num_gt0 df))%result.

(** [if col not in df.columns: df[col] = default] *)
Definition ensure_col (dflt : string -> cell) (df : DataFrame) (col : string)
    : DataFrame :=
  if existsb (String.eqb col) (columns df) then df
  else mkDF (columns df ++ [col])
            (map (set_cell (length (columns df)) (dflt col)) (rows df)).

Definition sales_mapping : list (string * list string) :=
  [ ("item", ["product"; "product_name"; "item_name"; "name"; "sku"; "title"]);
    ("qty", ["quantity"; "units"; "count"; "qnty"; "qnt"; "qty_sold"]);
    ("unit_price", ["price"; "rate"; "unitprice"; "selling_price"; "mrp"; "unit_cost"]);
    ("customer", ["customer_name"; "client"; "buyer"; "member"; "party"]) ]%string.

Definition inventory_mapping : list (string * list string) :=
  [ ("item", ["item_name"; "product"; "name"; "sku"; "title"]);
    ("qty", ["quantity"; "stock"; "on_hand"; "units"]);
    ("threshold", ["reorder_level"; "reorder_point"; "min_qty"; "min_stock"]);
    ("unit_cost", ["cost"; "purchase_price"; "unitprice"; "base_cost"]) ]%string.

Definition expenses_mapping : list (string * list string) :=
  [ ("category", ["type"; "head"; "expense_category"]);
    ("vendor", ["supplier"; "party"; "payee"; "seller"]);
    ("amount", ["amt"; "value"; "cost"; "price"; "total"; "expense"]);
    ("notes", ["note"; "remark"; "remarks"; "description"]) ]%string.

(** [""] if col in ("item", "customer") else 0 *)
Definition sales_default (col : string) : cell :=
  if existsb (String.eqb col) ["item"; "customer"]%string
  then CStr "" else CNum 0.

(** [""] if col == "item" else 0 *)
Definition inventory_default (col : string) : cell :=
  if String.eqb col "item" then CStr "" else CNum 0.

(** [""] if col in ("category", "vendor", "notes") else 0 *)
Definition expenses_default (col : string) : cell :=
  if existsb (String.eqb col) ["category"; "vendor"; "notes"]%string
  then CStr "" else CNum 0.

Definition sales_fields : list string := ["item"; "qty"; "unit_price"; "customer"]%string.
Definition inventory_fields : list string := ["item"; "qty"; "threshold"; "unit_cost"]%string.
Definition expenses_fields : list string := ["category"; "vendor"; "amount"; "notes"]%string.

Definition _normalize_sales_df (df : DataFrame) : result DataFrame :=
  let df := _rename_with_synonyms df sales_mapping in
  let df := fold_left (ensure_col sales_default) sales_fields df in
  (df <-? str_col df "item" (fun c => str_strip (astype_str c));
   df <-? str_col df "customer"
            (fun c => str_strip (fillna (CStr "") (astype_str c)));
   df <-? num_col df "qty" 1;
   df <-? num_col df "unit_price" 0;
   df <-? keep_nonblank df "item";
   df <-? keep_positive df "qty";
   select df sales_fields)%result.

Definition _normalize_inventory_df (df : DataFrame) : result DataFrame :=
  let df := _rename_with_synonyms df inventory_mapping in
  let df := fold_left (ensure_col inventory_default) inventory_fields df in
  (df <-? str_col df "item" (fun c => str_strip (astype_str c));
   df <-? num_col df "qty" 0;
   df <-? num_col df "threshold" 0;
   df <-? num_col df "unit_cost" 0;
   df <-? keep_nonblank df "item";
   select df inventory_fields)%result.

Definition _normalize_expenses_df (df : DataFrame) : result DataFrame :=
  let df := _rename_with_synonyms df expenses_mapping in
  let df := fold_left (ensure_col expenses_default) expenses_fields df in
  (df <-? str_col df "category" (fun c => str_strip (astype_str c));
   df <-? str_col df "vendor"
            (fun c => str_strip (fillna (CStr "") (astype_str c)));
   df <-? str_col df "notes"
            (fun c => str_strip (fillna (CStr "") (astype_str c)));
   df <-? num_col df "amount" 0;
   df <-? keep_nonblank df "category";
   df <-? keep_positive df "amount";
   select df expenses_fields)%result.

End Normalizer.

(** A number reader and printer for whole numbers written in decimal
    digits, used to run the normalisers on concrete tables. *)
Fixpoint digits_value (s : string) (acc : Z) : option Z :=
  match s with
  | EmptyString => Some acc
  | String a s' =>
      let n := nat_of_ascii a in
      if ((48 <=? n) && (n <=? 57))%nat
      then digits_value s' (10 * acc + Z.of_nat (n - 48))
      else None
  end.

Definition parse_digits (s : string) : option Q :=
  match PyStr.strip s with
  | EmptyString => None
  | t => match digits_value t 0 with
         | Some z => Some (inject_Z z)
         | None => None
         end
  end.

(** [str] of a whole number held as an integer, as [astype(str)] prints
    the cells of an integer column; the tables the normalisers are run on
    below hold whole numbers only. *)
Definition show_num (q : Q) : string := pretty (Qnum q `div` Z.pos (Qden q))%Z.

(** ** The ledger store *)

(** [sales] table; [customer] is the only nullable column. *)
Record Sale : Type := mkSale {
  sale_id : Z;
  sale_item : string;
  sale_qty : Q;
  sale_unit_price : Q;
  sale_total : Q;
  sale_customer : option string;
  sale_date : Z
}.

(** [stock] table; [item] is declared [unique=True]. *)
Record Stock : Type := mkStock {
  stock_id : Z;
  stock_item : string;
  stock_qty : Q;
  stock_threshold : Q;
  stock_unit_cost : Q;
  stock_last_updated : Z
}.

Record Store : Type := mkStore {
  sales : list Sale;
  stock : list Stock
}.

(** The integer primary key given to a new row: one more than the
    largest key in use. *)
Definition next_id (ids : list Z) : Z := (1 + fold_right Z.max 0 ids)%Z.

(** The primary key and the [unique] constraint of the [stock] table. *)
Definition stock_keys_ok (tbl : list Stock) : Prop :=
  List.NoDup (map stock_id tbl) /\ List.NoDup (map stock_item tbl).

(** ** Sessions: a unit of work over the store

    [committed] is what the database file holds, [working] is the state
    seen inside the open transaction.  Statements raise on a constraint
    violation, and wherever the fault oracle says the persistence layer
    fails. *)

Record Session : Type := mkSession {
  committed : Store;
  working : Store
}.

Inductive db_op : Type :=
| OpInsertSale
| OpQueryStock
| OpUpdateStock
| OpInsertStock
| OpCommit.

Definition M (A : Type) : Type := Session -> Session * result A.

Definition mret {A} (a : A) : M A := fun s => (s, ok a).

Definition mthrow {A} (e : exn) : M A := fun s => (s, raise e).

Definition mbind {A B} (m : M A) (k : A -> M B) : M B :=
  fun s =>
    match m s with
    | (s', inr a) => k a s'
    | (s', inl e) => (s', inl e)
    end.

Declare Scope session_scope.
Delimit Scope session_scope with session.
Notation "x <- m ;; k" := (mbind m (fun x => k))
  (at level 100, m at next level, right associativity) : session_scope.
Notation "m ;; k" := (mbind m (fun _ => k))
  (at level 100, right associativity) : session_scope.

(** [session = self.Session()] *)
Definition open_session (db : Store) : Session := mkSession db db.

(** [session.rollback()] *)
Definition rollback (s : Session) : Session := mkSession (committed s) (committed s).

(** What the database holds once the session is closed. *)
Definition close (s : Session) : Store := committed s.

Definition item_is (i : string) (r : Stock) : bool := String.eqb (stock_item r) i.

Section Services.

(** Where the persistence layer fails on its own (I/O, locking). *)
Variable fault : db_op -> bool.
(** [parse_date("today")] *)
Variable today : Z.

(** [session.add(Sale(...))], flushed by the next query or the commit;
    item, qty, unit_price and total are [nullable=False]. *)
Definition insert_sale (item : option string) (qty unit_price total : option Q)
    (customer : option string) : M Z :=
  fun s =>
    if fault OpInsertSale then (s, raise OperationalError)
    else
      match item, qty, unit_price, total with
      | Some i, Some q, Some p, Some t =>
          let id := next_id (map sale_id (sales (working s))) in
          let w := working s in
          (mkSession (committed s)
             (mkStore (sales w ++ [mkSale id i q p t customer today]) (stock w)),
           ok id)
      | _, _, _, _ => (s, raise IntegrityError)
      end.

(** [session.query(Stock).filter_by(item=item).first()]; no row has a
    NULL item, so [item=None] finds nothing. *)
Definition query_stock (item : option string) : M (option Stock) :=
  fun s =>
    if fault OpQueryStock then (s, raise OperationalError)
    else
      match item with
      | Some i => (s, ok (find (item_is i) (stock (working s))))
      | None => (s, ok None)
      end.

(** The UPDATE of one loaded row, addressed by its primary key. *)
Definition update_stock_row (id : Z) (f : Stock -> Stock) : M unit :=
  fun s =>
    if fault OpUpdateStock then (s, raise OperationalError)
    else
      let w := working s in
      (mkSession (committed s)
         (mkStore (sales w)
            (map (fun r => if Z.eqb (stock_id r) id then f r else r) (stock w))),
       ok tt).

(** [stock.qty -= qty; stock.last_updated = parse_date("today")];
    subtracting [None] from a number raises [TypeError]. *)
Definition decrement_stock (st : Stock) (qty : option Q) : M unit :=
  match qty with
  | Some q =>
      update_stock_row (stock_id st)
        (fun r => mkStock (stock_id r) (stock_item r) (stock_qty r - q)%Q
                          (stock_threshold r) (stock_unit_cost r) today)
  | None => mthrow TypeError
  end.

(** [stock.qty = qty; stock.threshold = threshold;
     stock.unit_cost = unit_cost; stock.last_updated = parse_date("today")];
    the three columns are [nullable=False], so the UPDATE of a [None]
    value raises [IntegrityError]. *)
Definition overwrite_stock (st : Stock) (qty threshold unit_cost : option Q) : M unit :=
  match qty, threshold, unit_cost with
  | Some q, Some t, Some c =>
      update_stock_row (stock_id st)
        (fun r => mkStock (stock_id r) (stock_item r) q t c today)
  | _, _, _ =>
      fun s => if fault OpUpdateStock then (s, raise OperationalError)
               else (s, raise IntegrityError)
  end.

(** [session.add(Stock(...))]; all columns are [nullable=False] and
    [item] is [unique=True]. *)
Definition insert_stock (item : option string) (qty threshold unit_cost : option Q)
    : M Z :=
  fun s =>
    if fault OpInsertStock then (s, raise OperationalError)
    else
      match item, qty, threshold, unit_cost with
      | Some i, Some q, Some t, Some c =>
          let w := working s in
          if existsb (item_is i) (stock w) then (s, raise IntegrityError)
          else
            let id := next_id (map stock_id (stock w)) in
            (mkSession (committed s)
               (mkStore (sales w) (stock w ++ [mkStock id i q t c today])),
             ok id)
      | _, _, _, _ => (s, raise IntegrityError)
      end.

(** [session.commit()] *)
Definition commit : M unit :=
  fun s =>
    if fault OpCommit then (s, raise OperationalError)
    else (mkSession (working s) (working s), ok tt).

(** [try: ... except Exception as e: session.rollback(); raise e
     finally: session.close()] *)
Definition run_session {A} (body : M A) (db : Store) : Store * result A :=
  match body (open_session db) with
  | (s, inr a) => (close s, ok a)
  | (s, inl e) => (close (rollback s), raise e)
  end.

(** [BillingService.add_sale] *)
Definition add_sale (item : option string) (qty unit_price total : option Q)
    (customer : option string) (db : Store) : Store * result Z :=
  run_session
    (id <- insert_sale item qty unit_price total customer ;;
     found <- query_stock item ;;
     match found with
     | Some st => decrement_stock st qty
     | None => mret tt
     end ;;
     commit ;;
     mret id)%session
    db.

(** [BillingService.add_stock_safe] *)
Definition add_stock_safe (item : option string) (qty threshold unit_cost : option Q)
    (db : Store) : Store * result (Z * bool) :=
  run_session
    (existing_stock <- query_stock item ;;
     match existing_stock with
     | Some st =>
         overwrite_stock st qty threshold unit_cost ;;
         commit ;;
         mret (stock_id st, false)
     | None =>
         id <- insert_stock item qty threshold unit_cost ;;
         commit ;;
         mret (id, true)
     end)%session
    db.

(** The first [StockService.update_stock] of [stock_service.py]. *)
Definition update_stock_first (item : option string) (qty threshold unit_cost : option Q)
    (db : Store) : Store * result unit :=
  run_session
    (existing_stock <- query_stock item ;;
     match existing_stock with
     | Some st => overwrite_stock st qty threshold unit_cost
     | None => _ <- insert_stock item qty threshold unit_cost ;; mret tt
     end ;;
     commit)%session
    db.

(** The second [StockService.update_stock], which shadows the first. *)
Definition update_stock (item : option string) (qty threshold unit_cost : option Q)
    (db : Store) : Store * result unit :=
  run_session
    (found <- query_stock item ;;
     match found with
     | Some st => overwrite_stock st qty threshold unit_cost
     | None => _ <- insert_stock item qty threshold unit_cost ;; mret tt
     end ;;
     commit)%session
    db.

End Services.

(** ** [AnalyticsService.get_sales_forecast] *)

Definition Qsum (l : list Q) : Q := fold_right Qplus 0%Q l.

(** SQL [avg]: NULL over no rows. *)
Definition sql_avg (l : list Q) : option Q :=
  match l with
  | [] => None
  | _ => Some (Qsum l / inject_Z (Z.of_nat (length l)))%Q
  end.

(** [result or 0.0]: [None] and a zero result are both falsy. *)
Definition py_or (r : option Q) (d : Q) : Q :=
  match r with
  | Some x => if Qeq_bool x 0 then d else x
  | None => d
  end.

(** Rows selected by [.filter(Sale.date >= seven_days_ago)]. *)
Definition forecast_window (today : Z) (db : Store) : list Sale :=
  let seven_days_ago := (today - 7)%Z in
  List.filter (fun s => (seven_days_ago <=? sale_date s)%Z) (sales db).

Definition get_sales_forecast (today : Z) (db : Store) : Q :=
  let result := sql_avg (map sale_total (forecast_window today db)) in
  (py_or result 0 * 7)%Q.

(** The forecast read as an average of per-day totals, for comparison
    with the code:
    the sale totals of the window are first added up per day, and the
    per-day totals are averaged.  [forecast_per_day] averages over the
    days that have a sale, [forecast_per_calendar_day] over seven days. *)
Definition day_total (rs : list Sale) (d : Z) : Q :=
  Qsum (map sale_total (List.filter (fun s => (sale_date s =? d)%Z) rs)).

Fixpoint distinct_days (rs : list Sale) : list Z :=
  match rs with
  | [] => []
  | r :: rs' =>
      if existsb (Z.eqb (sale_date r)) (distinct_days rs') then distinct_days rs'
      else sale_date r :: distinct_days rs'
  end.

Definition forecast_per_day (today : Z) (db : Store) : Q :=
  let w := forecast_window today db in
  (py_or (sql_avg (map (day_total w) (distinct_days w))) 0 * 7)%Q.

Definition forecast_per_calendar_day (today : Z) (db : Store) : Q :=
  let w := forecast_window today db in
  (Qsum (map sale_total w) / 7 * 7)%Q.

(** ** The upsert contract as the specification words it

    Look the row up by item; if present overwrite quantity, threshold and
    unit cost and refresh the date, answering (existing id, false); if
    absent append a new row, answering (new id, true). *)
Definition upsert_stock_contract (today : Z) (item : string) (qty threshold unit_cost : Q)
    (tbl : list Stock) : list Stock * (Z * bool) :=
  match find (item_is item) tbl with
  | Some st =>
      (map (fun r => if item_is item r
                     then mkStock (stock_id r) item qty threshold unit_cost today
                     else r) tbl,
       (stock_id st, false))
  | None =>
      let id := next_id (map stock_id tbl) in
      (tbl ++ [mkStock id item qty threshold unit_cost today], (id, true))
  end.

(** ** The Sales branch of [Dashboard.process_csv_upload] *)

(** [for _, row in norm.iterrows(): try: ...; success += 1 except: toast],
    on the state and the success count.  Every row is handled by a call
    of a service method, which opens a session of its own: [body k] is
    the call made for the [k]-th row. *)
Fixpoint import_loop {T A : Type} (body : nat -> list cell -> T -> T * result A)
    (k : nat) (norm : list (list cell)) (acc : T * nat) : T * nat :=
  match norm with
  | [] => acc
  | row :: norm' =>
      import_loop body (S k) norm'
        (match body k row (fst acc) with
         | (st', inr _) => (st', S (snd acc))
         | (st', inl _) => (st', snd acc)
         end)
  end.

(** The body of the [try] for one row of the normalised frame, whose
    columns are item, qty, unit_price, customer in this order:
    [str(row["item"])], [float(row["qty"])], [float(row["unit_price"])],
    [total = qty * price], [str(row.get("customer", "") or "")].
    A cell of another shape raises and the row is skipped. *)
Definition import_sales_row (fault : db_op -> bool) (today : Z)
    (row : list cell) (db : Store) : Store * result Z :=
  match get_cell 0 row, get_cell 1 row, get_cell 2 row, get_cell 3 row with
  | CStr item, CNum qty, CNum price, CStr customer =>
      add_sale fault today (Some item) (Some qty) (Some price)
               (Some (qty * price)%Q) (Some customer) db
  | _, _, _, _ => (db, raise TypeError)
  end.

Section SalesImport.

Variable parse_numeric : string -> option Q.
Variable str_of_num : Q -> string.
(** Where the persistence layer fails during the call made for the
    [k]-th row: the calls fail independently of each other. *)
Variable fault : nat -> db_op -> bool.
Variable today : Z.

Definition import_sales_rows (norm : list (list cell)) (db : Store) : Store * nat :=
  import_loop (fun k => import_sales_row (fault k) today) 0 norm (db, 0%nat).

(** The outer [try]: a failure of the normaliser aborts the import. *)
Definition process_csv_upload_sales (df : DataFrame) (db : Store)
    : Store * result nat :=
  match _normalize_sales_df parse_numeric str_of_num df with
  | inl e => (db, raise e)
  | inr norm =>
      let '(db', success) := import_sales_rows (rows norm) db in
      (db', ok success)
  end.

End SalesImport.

(** ** Header variants: casing, surrounding whitespace, spaces, hyphens *)

(** [h] may stand for the canonical character [c]: the same letter in
    either case, or a space or hyphen for an underscore. *)
Definition char_variant (c h : ascii) : Prop :=
  PyStr.lower_char h = c \/ (c = "_" /\ (h = " " \/ h = "-"))%char.

Fixpoint body_variant (s h : string) : Prop :=
  match s, h with
  | EmptyString, EmptyString => True
  | String c s', String x h' => char_variant c x /\ body_variant s' h'
  | _, _ => False
  end.

Fixpoint all_space (s : string) : bool :=
  match s with
  | EmptyString => true
  | String a s' => PyStr.is_space a && all_space s'
  end.

(** [h] is the canonical header [s] up to casing, spaces or hyphens for
    underscores, and whitespace around it. *)
Definition header_variant (s h : string) : Prop :=
  exists l b r : string,
    h = String.append l (String.append b r) /\
    all_space l = true /\ all_space r = true /\ body_variant s b.

(** The headers a mapping accepts for [target]. *)
Definition accepted_headers (entry : string * list string) : list string :=
  fst entry :: snd entry.

(** A canonical header is left alone by [_clean_cols]: no capital, space,
    hyphen or whitespace in it, and no underscore at either end. *)
Definition plain_char (a : ascii) : bool :=
  negb (PyStr.is_space a) && Ascii.eqb (PyStr.lower_char a) a
  && negb (Ascii.eqb a "-").

Fixpoint all_plain (s : string) : bool :=
  match s with
  | EmptyString => true
  | String a s' => plain_char a && all_plain s'
  end.

Fixpoint last_char (s : string) (d : ascii) : ascii :=
  match s with
  | EmptyString => d
  | String a s' => last_char s' a
  end.

Definition canonical_header (s : string) : bool :=
  match s with
  | EmptyString => false
  | String a _ =>
      all_plain s && negb (Ascii.eqb a "_") && negb (Ascii.eqb (last_char s a) "_")
  end.

(** The last entry of the mapping whose target or synonym list holds
    [c]: the value the loops of [_rename_with_synonyms] leave under [c]. *)
Definition last_match (mapping : list (string * list string)) (c : string)
    : option string :=
  fold_left
    (fun acc entry => if header_matches (fst entry) (snd entry) c
                      then Some (fst entry) else acc)
    mapping None.

Definition the_mappings : list (list (string * list string)) :=
  [sales_mapping; inventory_mapping; expenses_mapping].

(** ** Auxiliary notions for the rename map *)

Definition in_cols (c : string) (cols : list string) : bool :=
  existsb (String.eqb c) cols.

Definition match_step (c : string) (acc : option string)
    (entry : string * list string) : option string :=
  if header_matches (fst entry) (snd entry) c then Some (fst entry) else acc.

(** The label a cleaned header ends up with. *)
Definition resolve (mapping : list (string * list string)) (c : string) : string :=
  default c (last_match mapping c).

(** Every accepted header of the three mappings is canonical and
    resolves to the field that lists it. *)
Definition mapping_sound (mapping : list (string * list string)) : bool :=
  forallb
    (fun entry =>
       forallb
         (fun s => canonical_header s
                   && match last_match mapping s with
                      | Some t => String.eqb t (fst entry)
                      | None => false
                      end)
         (accepted_headers entry))
    mapping.

(** ** Auxiliary notions for the normalisers *)

(** The frame after the renaming and the [if col not in df.columns]
    loop, before any coercion. *)
Definition prepare (dflt : string -> cell) (fields : list string)
    (mapping : list (string * list string)) (df : DataFrame) : DataFrame :=
  fold_left (ensure_col dflt) fields (_rename_with_synonyms df mapping).

Section Views.

Variable parse_numeric : string -> option Q.
Variable str_of_num : Q -> string.

(** The four output cells of a Sales row, read from the prepared row [r]
    at the positions of item, qty, unit_price and customer. *)
Definition sales_row (i j k l : nat) (r : list cell) : list cell :=
  [ str_strip (astype_str str_of_num (get_cell i r));
    fillna (CNum 1) (to_numeric parse_numeric (get_cell j r));
    fillna (CNum 0) (to_numeric parse_numeric (get_cell k r));
    str_strip (fillna (CStr "") (astype_str str_of_num (get_cell l r))) ].

(** The Sales filters, on an output row. *)
Definition sales_keep (o : list cell) : bool :=
  str_len_gt0 (get_cell 0 o) && num_gt0 (get_cell 1 o).

(** The four output cells of an Expenses row, read at the positions of
    category, vendor, amount and notes. *)
Definition expenses_row (i j k l : nat) (r : list cell) : list cell :=
  [ str_strip (astype_str str_of_num (get_cell i r));
    str_strip (fillna (CStr "") (astype_str str_of_num (get_cell j r)));
    fillna (CNum 0) (to_numeric parse_numeric (get_cell k r));
    str_strip (fillna (CStr "") (astype_str str_of_num (get_cell l r))) ].

(** The Expenses filters, on an output row. *)
Definition expenses_keep (o : list cell) : bool :=
  str_len_gt0 (get_cell 0 o) && num_gt0 (get_cell 2 o).

(** What the Sales stages return on a prepared frame [P] whose item,
    qty, unit_price and customer columns are at [i], [j], [k], [l]. *)
Definition sales_out (i j k l : nat) (P : DataFrame) : DataFrame :=
  mkDF sales_fields
       (map (sales_row i j k l)
            (List.filter (fun r => sales_keep (sales_row i j k l r)) (rows P))).

(** What the Expenses stages return on a prepared frame [P] whose
    category, vendor, amount and notes columns are at [i], [j], [k], [l]. *)
Definition expenses_out (i j k l : nat) (P : DataFrame) : DataFrame :=
  mkDF expenses_fields
       (map (expenses_row i j k l)
            (List.filter (fun r => expenses_keep (expenses_row i j k l r)) (rows P))).

(** The stages of [_normalize_sales_df] after the frame is prepared. *)
Definition sales_stages (df : DataFrame) : result DataFrame :=
  (df <-? str_col df "item" (fun c => str_strip (astype_str str_of_num c));
   df <-? str_col df "customer"
            (fun c => str_strip (fillna (CStr "") (astype_str str_of_num c)));
   df <-? num_col parse_numeric df "qty" 1;
   df <-? num_col parse_numeric df "unit_price" 0;
   df <-? keep_nonblank df "item";
   df <-? keep_positive df "qty";
   select df sales_fields)%result.

(** The stages of [_normalize_expenses_df] after the frame is prepared. *)
Definition expenses_stages (df : DataFrame) : result DataFrame :=
  (df <-? str_col df "category" (fun c => str_strip (astype_str str_of_num c));
   df <-? str_col df "vendor"
            (fun c => str_strip (fillna (CStr "") (astype_str str_of_num c)));
   df <-? str_col df "notes"
            (fun c => str_strip (fillna (CStr "") (astype_str str_of_num c)));
   df <-? num_col parse_numeric df "amount" 0;
   df <-? keep_nonblank df "category";
   df <-? keep_positive df "amount";
   select df expenses_fields)%result.

End Views.

(** Column [j] exists and holds [v] in every row. *)
Definition col_const (j : nat) (v : cell) (df : DataFrame) : Prop :=
  (j < length (columns df))%nat /\ Forall (fun r => get_cell j r = v) (rows df).

(** ** Sample tables and stores *)



(** A Sales table with two columns that both resolve to [item]. *)
Definition sales_table_two_items : DataFrame :=
  mkDF ["product"; "name"; "qty"]%string [[CStr "Tea"; CStr "Chai"; CNum 2]].

(** A Sales table with no quantity column. *)
Definition sales_table_no_qty : DataFrame :=
  mkDF ["Product Name"; "price"]%string
       [[CStr "Tea"; CNum 5]; [CStr "Rice"; CNum 60]].

(** A table with one header in mixed case, with a hyphen and padding. *)
Definition table_product_name : DataFrame :=
  mkDF ["  Product-NAME "; "Qty"]%string [[CStr "Tea"; CNum 2]].

Definition no_fault (op : db_op) : bool := false.

(** Stock("Sugar", qty=10, threshold=5, unit_cost=40), no sales yet. *)
Definition sugar_store : Store :=
  mkStore [] [mkStock 1 "Sugar" 10 5 40 19000].

(** The stock table after the adjustment made by [add_sale]. *)
Definition stock_after_sale (today : Z) (item : string) (qty : Q)
    (tbl : list Stock) : list Stock :=
  match find (item_is item) tbl with
  | Some st =>
      map (fun r => if Z.eqb (stock_id r) (stock_id st)
                    then mkStock (stock_id r) (stock_item r) (stock_qty r - qty)%Q
                                 (stock_threshold r) (stock_unit_cost r) today
                    else r) tbl
  | None => tbl
  end.

(** Two sales of 100 and 50 on the same day. *)
Definition two_sales_one_day : Store :=
  mkStore [mkSale 1 "Sugar" 2 50 100 (Some "John"%string) 19000;
           mkSale 2 "Tea" 5 10 50 (Some "Bob"%string) 19000] [].

(** ** What the cells of an input row hold *)

(** The text of a cell: its string, or the print of its number; a
    missing cell holds none. *)
Definition cell_text (str_of_num : Q -> string) (c : cell) : option string :=
  match c with
  | CStr s => Some s
  | CNum q => Some (str_of_num q)
  | CNaN => None
  end.

(** The number of a cell: its number, or the number its text reads as;
    none for a missing cell and for text that is not a number. *)
Definition cell_number (parse_numeric : string -> option Q) (c : cell) : option Q :=
  match c with
  | CNum q => Some q
  | CStr s => parse_numeric s
  | CNaN => None
  end.

(** A Sales table whose only row has no quantity. *)
Definition sales_table_missing_qty : DataFrame :=
  mkDF ["item"; "qty"; "unit_price"]%string [[CStr "Tea"; CNaN; CNum 5]].

(** A Sales table whose only row has no item. *)
Definition sales_table_missing_item : DataFrame :=
  mkDF ["item"; "qty"; "unit_price"]%string [[CNaN; CNum 2; CNum 5]].

(** A Sales table with a valid row, a row whose item is blank, and a row
    whose quantity is zero. *)
Definition sales_table_mixed : DataFrame :=
  mkDF ["Product Name"; "Quantity"; "price"]%string
       [[CStr "Tea"; CNum 2; CNum 5];
        [CStr "  "; CNum 2; CNum 3];
        [CStr "Rice"; CNum 0; CNum 3]].

(** The persistence layer fails at the commit. *)
Definition commit_fails (op : db_op) : bool :=
  match op with
  | OpCommit => true
  | _ => false
  end.

(** A store whose only sale is older than the forecast window. *)
Definition old_sales_only : Store :=
  mkStore [mkSale 1 "Sugar" 2 50 100 (Some "John"%string) 18000] [].

(** * Further code of the same files *)

(** ** [_normalize_inventory_df], staged like the other two *)

Section InventoryViews.

Variable parse_numeric : string -> option Q.
Variable str_of_num : Q -> string.

(** The four output cells of an Inventory row, read from the prepared
    row [r] at the positions of item, qty, threshold and unit_cost. *)
Definition inventory_row (i j k l : nat) (r : list cell) : list cell :=
  [ str_strip (astype_str str_of_num (get_cell i r));
    fillna (CNum 0) (to_numeric parse_numeric (get_cell j r));
    fillna (CNum 0) (to_numeric parse_numeric (get_cell k r));
    fillna (CNum 0) (to_numeric parse_numeric (get_cell l r)) ].

(** The only Inventory filter, on an output row. *)
Definition inventory_keep (o : list cell) : bool := str_len_gt0 (get_cell 0 o).

Definition inventory_out (i j k l : nat) (P : DataFrame) : DataFrame :=
  mkDF inventory_fields
       (map (inventory_row i j k l)
            (List.filter (fun r => inventory_keep (inventory_row i j k l r)) (rows P))).

(** The stages of [_normalize_inventory_df] after the frame is prepared. *)
Definition inventory_stages (df : DataFrame) : result DataFrame :=
  (df <-? str_col df "item" (fun c => str_strip (astype_str str_of_num c));
   df <-? num_col parse_numeric df "qty" 0;
   df <-? num_col parse_numeric df "threshold" 0;
   df <-? num_col parse_numeric df "unit_cost" 0;
   df <-? keep_nonblank df "item";
   select df inventory_fields)%result.

End InventoryViews.

(** Some label of [fields] names two or more columns. *)
Definition ambiguous (fields cols : list string) : Prop :=
  exists lbl, In lbl fields /\ (2 <= length (positions lbl cols 0))%nat.

(** ** The [expenses] table and [BillingService.add_expense] *)

(** [expenses] table; [vendor] and [notes] are nullable. *)
Record Expense : Type := mkExpense {
  expense_id : Z;
  expense_category : string;
  expense_vendor : option string;
  expense_amount : Q;
  expense_date : Z;
  expense_notes : option string
}.

Inductive expense_op : Type :=
| OpInsertExpense
| OpCommitExpense.

(** [BillingService.add_expense]: the INSERT is flushed by the commit;
    category, amount and date are [nullable=False]; any exception rolls
    the session back and is raised again. *)
Definition add_expense (fault : expense_op -> bool) (today : Z)
    (category vendor : option string) (amount : option Q) (notes : option string)
    (tbl : list Expense) : list Expense * result unit :=
  let attempt : result (list Expense) :=
    if fault OpInsertExpense then raise OperationalError
    else
      match category, amount with
      | Some c, Some a =>
          if fault OpCommitExpense then raise OperationalError
          else ok (tbl ++ [mkExpense (next_id (map expense_id tbl)) c vendor a today notes])
      | _, _ => raise IntegrityError
      end in
  match attempt with
  | inr tbl' => (tbl', ok tt)
  | inl e => (tbl, raise e)
  end.

(** ** The Inventory and Expenses branches of [process_csv_upload] *)

(** [add_stock_safe(str(row["item"]), float(row["qty"]),
     float(row["threshold"]), float(row["unit_cost"]))] *)
Definition import_inventory_row (fault : db_op -> bool) (today : Z)
    (row : list cell) (db : Store) : Store * result (Z * bool) :=
  match get_cell 0 row, get_cell 1 row, get_cell 2 row, get_cell 3 row with
  | CStr item, CNum qty, CNum threshold, CNum unit_cost =>
      add_stock_safe fault today (Some item) (Some qty) (Some threshold)
                     (Some unit_cost) db
  | _, _, _, _ => (db, raise TypeError)
  end.

(** [add_expense(str(row["category"]), str(row.get("vendor", "") or ""),
     float(row["amount"]), str(row.get("notes", "") or ""))]; the
    normalised frame has the columns category, vendor, amount, notes. *)
Definition import_expenses_row (efault : expense_op -> bool) (today : Z)
    (row : list cell) (tbl : list Expense) : list Expense * result unit :=
  match get_cell 0 row, get_cell 1 row, get_cell 2 row, get_cell 3 row with
  | CStr category, CStr vendor, CNum amount, CStr notes =>
      add_expense efault today (Some category) (Some vendor) (Some amount)
                  (Some notes) tbl
  | _, _, _, _ => (tbl, raise TypeError)
  end.

Section OtherImports.

Variable parse_numeric : string -> option Q.
Variable str_of_num : Q -> string.
(** Where the persistence layer fails during the call made for the
    [k]-th row, for the store and for the expenses table. *)
Variable fault : nat -> db_op -> bool.
Variable efault : nat -> expense_op -> bool.
Variable today : Z.

Definition import_inventory_rows (norm : list (list cell)) (db : Store) : Store * nat :=
  import_loop (fun k => import_inventory_row (fault k) today) 0 norm (db, 0%nat).

Definition process_csv_upload_inventory (df : DataFrame) (db : Store)
    : Store * result nat :=
  match _normalize_inventory_df parse_numeric str_of_num df with
  | inl e => (db, raise e)
  | inr norm =>
      let '(db', success) := import_inventory_rows (rows norm) db in
      (db', ok success)
  end.

Definition import_expenses_rows (norm : list (list cell)) (tbl : list Expense)
    : list Expense * nat :=
  import_loop (fun k => import_expenses_row (efault k) today) 0 norm (tbl, 0%nat).

Definition process_csv_upload_expenses (df : DataFrame) (tbl : list Expense)
    : list Expense * result nat :=
  match _normalize_expenses_df parse_numeric str_of_num df with
  | inl e => (tbl, raise e)
  | inr norm =>
      let '(tbl', success) := import_expenses_rows (rows norm) tbl in
      (tbl', ok success)
  end.

(** What the user is told at the end of [process_csv_upload]. *)
Inductive upload_outcome : Type :=
| Imported (success : nat)
| ProcessingError (e : exn)
| UnknownDataType.

(** [try: pd.read_csv(f) except: f.seek(0); pd.read_excel(f)], given
    what each reader answers on the uploaded file. *)
Definition read_upload (csv excel : result DataFrame) : result DataFrame :=
  match csv with
  | inr df => ok df
  | inl _ => excel
  end.

Definition outcome_of (r : result nat) : upload_outcome :=
  match r with
  | inr n => Imported n
  | inl e => ProcessingError e
  end.

(** [Dashboard.process_csv_upload] on the store and the expenses table. *)
Definition process_csv_upload (csv excel : result DataFrame) (data_type : string)
    (db : Store) (tbl : list Expense) : Store * list Expense * upload_outcome :=
  match read_upload csv excel with
  | inl e => (db, tbl, ProcessingError e)
  | inr df =>
      if String.eqb data_type "Sales" then
        let '(db', r) :=
          process_csv_upload_sales parse_numeric str_of_num fault today df db in
        (db', tbl, outcome_of r)
      else if String.eqb data_type "Inventory" then
        let '(db', r) := process_csv_upload_inventory df db in
        (db', tbl, outcome_of r)
      else if String.eqb data_type "Expenses" then
        let '(tbl', r) := process_csv_upload_expenses df tbl in
        (db, tbl', outcome_of r)
      else (db, tbl, UnknownDataType)
  end.

End OtherImports.

(** The character map of [_clean_cols]: lower, then space and hyphen to
    underscore. *)
Definition clean_char (x : ascii) : ascii :=
  let y := PyStr.lower_char x in
  let z := if Ascii.eqb y " " then "_"%char else y in
  if Ascii.eqb z "-" then "_"%char else z.

(** A Sales table with two valid rows. *)
Definition sales_table_two_rows : DataFrame :=
  mkDF ["item"; "qty"; "unit_price"]%string
       [[CStr "Tea"; CNum 2; CNum 5];
        [CStr "Rice"; CNum 1; CNum 60]].

(** An Inventory table with a blank item, a zero quantity and a
    quantity that is not a number. *)
Definition inventory_table_mixed : DataFrame :=
  mkDF ["Name"; "Stock"; "min-qty"]%string
       [[CStr "Tea"; CNum 0; CNum 5];
        [CStr " "; CNum 4; CNum 1];
        [CStr "Rice"; CStr "many"; CNum 2]].

(** An Expenses table with a valid row, a zero amount and a blank
    category. *)
Definition expenses_table_mixed : DataFrame :=
  mkDF ["Type"; "Amt"; "payee"]%string
       [[CStr "Fuel"; CNum 100; CStr "VendorX"];
        [CStr "Rent"; CNum 0; CStr "Owner"];
        [CStr ""; CNum 30; CStr "Shop"]].

(** The sale [s] is what the import records for the normalised row [o]
    on day [today]. *)
Definition recorded_from (today : Z) (o : list cell) (s : Sale) : Prop :=
  exists c,
    get_cell 0 o = CStr (sale_item s) /\ get_cell 1 o = CNum (sale_qty s) /\
    get_cell 2 o = CNum (sale_unit_price s) /\ get_cell 3 o = CStr c /\
    sale_customer s = Some c /\
    sale_total s = (sale_qty s * sale_unit_price s)%Q /\
    sale_date s = today.

(** A normalised Sales row: text, positive number, number, text. *)
Definition sales_row_ok (o : list cell) : Prop :=
  exists s q p c, o = [CStr s; CNum q; CNum p; CStr c] /\ s <> EmptyString /\ (0 < q)%Q.

(** What the dashboard guarantees of a recorded sale. *)
Definition sale_ok (today : Z) (s : Sale) : Prop :=
  sale_item s <> EmptyString /\ (0 < sale_qty s)%Q /\
  sale_total s = (sale_qty s * sale_unit_price s)%Q /\ sale_date s = today.

(** A normalised Inventory row: text and three numbers. *)
Definition inventory_row_ok (o : list cell) : Prop :=
  exists s q t c, o = [CStr s; CNum q; CNum t; CNum c] /\ s <> EmptyString.

(** The quantity, threshold and unit cost of the last row of the
    normalised frame that names [item]. *)
Definition last_inventory_row (item : string) (norm : list (list cell))
    : option (Q * Q * Q) :=
  fold_left
    (fun acc o =>
       match get_cell 0 o, get_cell 1 o, get_cell 2 o, get_cell 3 o with
       | CStr i, CNum q, CNum t, CNum c =>
           if String.eqb i item then Some (q, t, c) else acc
       | _, _, _, _ => acc
       end)
    norm None.

(** An Inventory table that names Tea twice. *)
Definition inventory_table_repeat : DataFrame :=
  mkDF ["item"; "qty"; "threshold"; "unit_cost"]%string
       [[CStr "Tea"; CNum 200; CNum 20; CNum 8];
        [CStr "Sugar"; CNum 100; CNum 10; CNum 40];
        [CStr "Tea"; CNum 150; CNum 25; CNum 9]].

(** What sales may do to a stock row: the row stays in place with its
    id, item, threshold and unit cost, and its quantity does not grow. *)
Definition stock_row_sold (old new : Stock) : Prop :=
  stock_id new = stock_id old /\ stock_item new = stock_item old /\
  stock_threshold new = stock_threshold old /\
  stock_unit_cost new = stock_unit_cost old /\
  (stock_qty new <= stock_qty old)%Q.

(** ** Today's totals: [AnalyticsService.get_todays_sales],
       [get_todays_expenses], [get_net_profit] *)

(** SQL [sum]: NULL over no rows. *)
Definition sql_sum (l : list Q) : option Q :=
  match l with
  | [] => None
  | _ => Some (Qsum l)
  end.

Definition get_todays_sales (today : Z) (db : Store) : Q :=
  let result :=
    sql_sum (map sale_total (List.filter (fun s => (sale_date s =? today)%Z) (sales db))) in
  py_or result 0.

Definition get_todays_expenses (today : Z) (tbl : list Expense) : Q :=
  let result :=
    sql_sum (map expense_amount
                 (List.filter (fun x => (expense_date x =? today)%Z) tbl)) in
  py_or result 0.

Definition get_net_profit (today : Z) (db : Store) (tbl : list Expense) : Q :=
  (get_todays_sales today db - get_todays_expenses today tbl)%Q.

(** A normalised Expenses row: text, text, positive number, text. *)
Definition expenses_row_ok (o : list cell) : Prop :=
  exists s v a n, o = [CStr s; CStr v; CNum a; CStr n] /\ s <> EmptyString /\ (0 < a)%Q.

(** What the dashboard guarantees of an imported expense. *)
Definition expense_ok (today : Z) (x : Expense) : Prop :=
  expense_category x <> EmptyString /\ (0 < expense_amount x)%Q /\
  expense_date x = today.

Definition no_expense_fault (op : expense_op) : bool := false.

(** The expense [x] is what the import records for the normalised row
    [o] on day [today]. *)
Definition expense_recorded_from (today : Z) (o : list cell) (x : Expense) : Prop :=
  exists v n,
    get_cell 0 o = CStr (expense_category x) /\ get_cell 1 o = CStr v /\
    get_cell 2 o = CNum (expense_amount x) /\ get_cell 3 o = CStr n /\
    expense_vendor x = Some v /\ expense_notes x = Some n /\ expense_date x = today.

(** ** [StockService.get_stock] and [get_low_stock_alerts] *)

(** The effective (second) [get_stock]: one tuple per stock row. *)
Definition get_stock (db : Store) : list (string * Q * Q * Q) :=
  map (fun s => (stock_item s, stock_qty s, stock_threshold s, stock_unit_cost s))
      (stock db).

(** The entries of [get_stock] for one item. *)
Definition entries_for (item : string) (l : list (string * Q * Q * Q))
    : list (string * Q * Q * Q) :=
  List.filter (fun e => String.eqb (fst (fst (fst e))) item) l.

(** [stock.qty <= stock.threshold] *)
Definition is_low (s : Stock) : bool := Qle_bool (stock_qty s) (stock_threshold s).

(** [str] of a float that holds a whole number (of at most 16 digits),
    as an f-string prints the [Float] columns of the stock table: [5.0]
    for 5. *)
Definition show_float (q : Q) : string := String.append (show_num q) ".0".

Section Alerts.

(** [str] of a number, as an f-string prints it. *)
Variable str_of_num : Q -> string.

(** [f"{stock.item}: {stock.qty} left; threshold {stock.threshold}"] *)
Definition alert_text (s : Stock) : string :=
  String.append (stock_item s)
    (String.append ": "
       (String.append (str_of_num (stock_qty s))
          (String.append " left; threshold " (str_of_num (stock_threshold s))))).

(** The effective (second) [get_low_stock_alerts]: a loop over all rows. *)
Definition get_low_stock_alerts (db : Store) : list string :=
  fold_left
    (fun alerts stock => if is_low stock then alerts ++ [alert_text stock] else alerts)
    (stock db) [].

End Alerts.

(** ** Grouped queries of [AnalyticsService] *)

From stdpp Require sorting.
From Stdlib Require Lqa.

Section Grouping.

Context {K : Type} `{EqDecision K}.

(** One row joins the groups: its value is added to the total of its
    key's group; the first row of a key opens the group. *)
Fixpoint bump (k : K) (v : Q) (acc : list (K * Q)) : list (K * Q) :=
  match acc with
  | [] => [(k, v)]
  | (k', s) :: acc' =>
      if decide (k' = k) then (k', (s + v)%Q) :: acc' else (k', s) :: bump k v acc'
  end.

(** [query(key, func.sum(value)).group_by(key)]: one row per distinct
    key with the sum of its values.  SQL leaves the order of the groups
    open; here they come in the order of their first row. *)
Definition group_sum (rows : list (K * Q)) : list (K * Q) :=
  fold_left (fun acc r => bump (fst r) (snd r) acc) rows [].

End Grouping.

(** [.order_by(Sale.date)] *)
Definition by_date (a b : Z * Q) : Prop := (fst a <= fst b)%Z.

#[global] Instance by_date_dec : RelDecision by_date :=
  fun a b => decide (fst a <= fst b)%Z.

(** [.order_by(func.sum(Sale.qty).desc())] *)
Definition by_qty_desc (a b : string * Q) : Prop := Is_true (Qle_bool (snd b) (snd a)).

#[global] Instance by_qty_desc_dec : RelDecision by_qty_desc :=
  fun a b => decide (Is_true (Qle_bool (snd b) (snd a))).

(** The result frame has the columns [date] and [total]. *)
Definition get_monthly_trend (data_type : string) (db : Store) (tbl : list Expense)
    : list (Z * Q) :=
  if String.eqb data_type "sales"
  then sorting.merge_sort by_date
         (group_sum (map (fun s => (sale_date s, sale_total s)) (sales db)))
  else sorting.merge_sort by_date
         (group_sum (map (fun x => (expense_date x, expense_amount x)) tbl)).

(** The result frame has the columns [item] and [qty]; [.limit(5)].
    Items with equal sums come in the order the sort leaves them. *)
Definition get_top_items (db : Store) : list (string * Q) :=
  take 5 (sorting.merge_sort by_qty_desc
            (group_sum (map (fun s => (sale_item s, sale_qty s)) (sales db)))).

(** The result frame has the columns [category] and [amount]. *)
Definition get_expense_breakdown (tbl : list Expense) : list (string * Q) :=
  group_sum (map (fun x => (expense_category x, expense_amount x)) tbl).

(** The summed quantity of one item over all sales. *)
Definition item_qty (rs : list Sale) (item : string) : Q :=
  Qsum (map sale_qty (List.filter (fun s => String.eqb (sale_item s) item) rs)).

(** The summed amount of one day's, and of one category's, expenses. *)
Definition day_expenses (tbl : list Expense) (d : Z) : Q :=
  Qsum (map expense_amount (List.filter (fun x => (expense_date x =? d)%Z) tbl)).

Definition category_amount (tbl : list Expense) (category : string) : Q :=
  Qsum (map expense_amount
          (List.filter (fun x => String.eqb (expense_category x) category) tbl)).

(** Sales of six items. *)
Definition six_items_store : Store :=
  mkStore [mkSale 1 "Tea" 5 10 50 None 19002;
           mkSale 2 "Sugar" 2 50 100 None 19000;
           mkSale 3 "Rice" 1 60 60 None 19000;
           mkSale 4 "Salt" 3 5 15 None 19001;
           mkSale 5 "Oil" 4 90 360 None 19001;
           mkSale 6 "Sugar" 7 50 350 None 19002;
           mkSale 7 "Soap" 2 20 40 None 19000] [].

(** ** [BillingService.load_sample_data] *)

Section SampleData.

(** Where the persistence layer fails during one iteration of a loop of
    [load_sample_data], and whether its sale look-up fails. *)
Variable fault : db_op -> bool.
Variable sale_query_fault : bool.
(** [date.today()] *)
Variable today : Z.
(** [datetime.strptime(date_str, DATE_FORMAT).date()]; [None] for
    [ValueError].  [DATE_FORMAT] comes from the configuration. *)
Variable strptime : string -> option Z.

(** [helpers.parse_date] on a string. *)
Definition parse_date (date_str : string) : Z :=
  if String.eqb date_str "today" then today
  else match strptime date_str with
       | Some d => d
       | None => today
       end.

(** [filter_by(item=..., customer=..., date=...)] *)
Definition sale_is (item customer : string) (date : Z) (r : Sale) : bool :=
  String.eqb (sale_item r) item
  && match sale_customer r with
     | Some c => String.eqb c customer
     | None => false
     end
  && Z.eqb (sale_date r) date.

(** [session.query(Sale).filter_by(...).first()] *)
Definition query_sale (item customer : string) (date : Z) : M (option Sale) :=
  fun s =>
    if sale_query_fault then (s, raise OperationalError)
    else (s, ok (find (sale_is item customer date) (sales (working s)))).

(** item, qty, unit_price, total, customer, date *)
Definition sample_sales : list (string * Q * Q * Q * string * string) :=
  [("Sugar"%string, 2%Q, 50%Q, 100%Q, "John"%string, "2025-01-15"%string);
   ("Rice"%string, 1%Q, 60%Q, 60%Q, "Mary"%string, "2025-01-15"%string);
   ("Tea"%string, 5%Q, 10%Q, 50%Q, "Bob"%string, "2025-01-16"%string)].

(** item, qty, threshold, unit_cost, last_updated *)
Definition stock_data : list (string * Q * Q * Q * Z) :=
  [("Sugar"%string, 100%Q, 10%Q, 40%Q, parse_date "2025-01-15");
   ("Rice"%string, 50%Q, 5%Q, 60%Q, parse_date "2025-01-15");
   ("Tea"%string, 200%Q, 20%Q, 8%Q, parse_date "2025-01-15")].

Definition load_sale (data : string * Q * Q * Q * string * string) : M unit :=
  let '(item, qty, unit_price, total, customer, date) := data in
  (existing_sale <- query_sale item customer (parse_date date) ;;
   match existing_sale with
   | Some _ => mret tt
   | None =>
       _ <- insert_sale fault (parse_date date) (Some item) (Some qty)
              (Some unit_price) (Some total) (Some customer) ;;
       mret tt
   end)%session.

Definition load_stock (data : string * Q * Q * Q * Z) : M unit :=
  let '(item, qty, threshold, unit_cost, last_updated) := data in
  (existing_stock <- query_stock fault (Some item) ;;
   match existing_stock with
   | Some st =>
       overwrite_stock fault last_updated st (Some qty) (Some threshold) (Some unit_cost)
   | None =>
       _ <- insert_stock fault last_updated (Some item) (Some qty) (Some threshold)
              (Some unit_cost) ;;
       mret tt
   end)%session.

(** The sale that [load_sale] looks for and, if missing, adds. *)
Definition sample_present (data : string * Q * Q * Q * string * string)
    (tbl : list Sale) : Prop :=
  let '(item, _, _, _, customer, date) := data in
  exists r, In r tbl /\ sale_is item customer (parse_date date) r = true.

End SampleData.

(** [for data in ...: body], the iterations numbered from [k]. *)
Fixpoint for_each {A} (body : nat -> A -> M unit) (k : nat) (l : list A) : M unit :=
  match l with
  | [] => mret tt
  | data :: l' => (body k data ;; for_each body (S k) l')%session
  end.

(** The steps of the one transaction are numbered in the order they run:
    the iterations of the sales loop, then those of the stock loop, then
    the commit.  [fault k] says where the persistence layer fails during
    step [k] and [sale_query_fault k] whether the sale look-up of step [k]
    fails, so every statement can fail whether or not an earlier one of
    its kind went through. *)
Definition load_sample_data (fault : nat -> db_op -> bool)
    (sale_query_fault : nat -> bool) (today : Z) (strptime : string -> option Z)
    (db : Store) : Store * result unit :=
  run_session
    (for_each (fun k => load_sale (fault k) (sale_query_fault k) today strptime)
       0 sample_sales ;;
     for_each (fun k => load_stock (fault k))
       (length sample_sales) (stock_data today strptime) ;;
     commit (fault (length sample_sales + length (stock_data today strptime))))%session
    db.

(** The stock row that [load_stock] leaves for its item. *)
Definition stock_loaded (data : string * Q * Q * Q * Z) (tbl : list Stock) : Prop :=
  let '(item, qty, threshold, unit_cost, last_updated) := data in
  exists id,
    List.filter (item_is item) tbl = [mkStock id item qty threshold unit_cost last_updated].

(** A date reader that knows the two dates of the sample, as days since
    1970-01-01. *)
Definition strptime_sample (s : string) : option Z :=
  if String.eqb s "2025-01-15" then Some 20103%Z
  else if String.eqb s "2025-01-16" then Some 20104%Z
  else None.

(** Statements inside a session leave the committed store alone. *)
Definition keeps_committed {A} (m : M A) : Prop :=
  forall s, committed (fst (m s)) = committed s.

(** ** The entry forms and the stock table of the dashboard *)

(** [status(row)] of [show_inventory], on the Quantity and Threshold of
    a row. *)
Definition status (quantity threshold : Q) : string :=
  if Qle_bool quantity threshold then "🔴 Low"
  else if Qle_bool quantity (threshold * 2) then "🟡 Medium"
  else "🟢 Good".

(** The Status column that [show_inventory] adds to the frame built from
    [get_stock]; an empty list shows a notice instead of a table. *)
Definition stock_statuses (db : Store) : list string :=
  map (fun e => status (snd (fst (fst e))) (snd (fst e))) (get_stock db).

(** [0 < x] on numbers, as a test. *)
Definition Qpositive (x : Q) : bool := negb (Qle_bool x 0).

(** Truth value of a string: the empty string is falsy. *)
Definition nonempty (s : string) : bool := negb (String.eqb s "").

Section Forms.

Variable fault : db_op -> bool.
Variable today : Z.

(** The submit handler of the form of [show_sales]: [None] when the
    guard rejects the input, and otherwise the outcome of [add_sale],
    whose exception is caught and shown. *)
Definition show_sales_submit (submitted : bool) (item : string) (qty unit_price : Q)
    (customer : string) (db : Store) : Store * option (result Z) :=
  if submitted && nonempty item && Qpositive qty && Qpositive unit_price then
    let total := (qty * unit_price)%Q in
    let r := add_sale fault today (Some item) (Some qty) (Some unit_price) (Some total)
               (Some customer) db in
    (fst r, Some (snd r))
  else (db, None).

(** The submit handler of the form of [show_inventory]. *)
Definition show_inventory_submit (submitted : bool) (item : string)
    (qty threshold unit_cost : Q) (db : Store) : Store * option (result (Z * bool)) :=
  if submitted && nonempty item && Qle_bool 0 qty && Qle_bool 0 threshold then
    let r := add_stock_safe fault today (Some item) (Some qty) (Some threshold)
               (Some unit_cost) db in
    (fst r, Some (snd r))
  else (db, None).

End Forms.

(** * Properties *)

(** ** Text *)

Lemma lstrip_spaces (l t : string) :
  all_space l = true -> PyStr.lstrip (String.append l t) = PyStr.lstrip t.
Proof.
  induction l as [|a l IH]; simpl; [reflexivity|].
  intros H. apply andb_true_iff in H as [Ha Hl].
  rewrite Ha. auto.
Qed.

Lemma rstrip_spaces (r : string) :
  all_space r = true -> PyStr.rstrip r = EmptyString.
Proof.
  induction r as [|a r IH]; simpl; [reflexivity|].
  intros H. apply andb_true_iff in H as [Ha Hr].
  rewrite (IH Hr), Ha. reflexivity.
Qed.

Lemma rstrip_app_spaces (b r : string) :
  all_space r = true -> PyStr.rstrip (String.append b r) = PyStr.rstrip b.
Proof.
  intros Hr. induction b as [|a b IH]; simpl.
  - apply rstrip_spaces, Hr.
  - rewrite IH. reflexivity.
Qed.

Lemma rstrip_fixed (a : ascii) (b : string) :
  PyStr.is_space (last_char b a) = false ->
  PyStr.rstrip (String a b) = String a b.
Proof.
  revert a. induction b as [|x b IH]; intros a H; simpl in *.
  - rewrite H. reflexivity.
  - specialize (IH x H). simpl in IH. rewrite IH. reflexivity.
Qed.

Lemma plain_variant_not_space (c x : ascii) :
  plain_char c = true -> c <> "_"%char -> char_variant c x ->
  PyStr.is_space x = false.
Proof.
  intros Hp Hc [Hl | [Hu _]]; [|contradiction].
  unfold plain_char in Hp.
  apply andb_true_iff in Hp as [Hp _]. apply andb_true_iff in Hp as [Hs _].
  apply negb_true_iff in Hs.
  destruct (PyStr.is_space x) eqn:Hx; [|reflexivity].
  assert (PyStr.lower_char x = x) as Hfix.
  { revert Hx. unfold PyStr.is_space, PyStr.lower_char.
    destruct x as [[] [] [] [] [] [] [] []]; vm_compute; congruence. }
  rewrite Hfix in Hl. subst x. congruence.
Qed.

Lemma clean_char_variant (c x : ascii) :
  plain_char c = true -> char_variant c x ->
  (if Ascii.eqb (if Ascii.eqb (PyStr.lower_char x) " " then "_" else PyStr.lower_char x) "-"
   then "_" else (if Ascii.eqb (PyStr.lower_char x) " " then "_" else PyStr.lower_char x))%char
  = c.
Proof.
  intros Hp [Hl | [Hu [Hx | Hx]]].
  - rewrite Hl. unfold plain_char in Hp.
    apply andb_true_iff in Hp as [Hp Hh]. apply andb_true_iff in Hp as [Hs _].
    apply negb_true_iff in Hs, Hh.
    destruct (Ascii.eqb c " ") eqn:E.
    + apply Ascii.eqb_eq in E. rewrite E in Hs. vm_compute in Hs. discriminate Hs.
    + rewrite Hh. reflexivity.
  - subst. reflexivity.
  - subst. reflexivity.
Qed.

Lemma clean_body (s b : string) :
  all_plain s = true -> body_variant s b ->
  PyStr.replace "-" "_" (PyStr.replace " " "_" (PyStr.lower b)) = s.
Proof.
  unfold PyStr.replace, PyStr.lower.
  revert b. induction s as [|c s IH]; intros [|x b] Hp Hv; simpl in *;
    try contradiction; [reflexivity|].
  apply andb_true_iff in Hp as [Hc Hs]. destruct Hv as [Hx Hb].
  f_equal.
  - apply clean_char_variant; assumption.
  - apply IH; assumption.
Qed.

Lemma last_char_variant (s b : string) (c x : ascii) :
  char_variant c x -> body_variant s b ->
  char_variant (last_char s c) (last_char b x).
Proof.
  revert b c x. induction s as [|c' s IH]; intros [|x' b] c x Hc Hv; simpl in *;
    try contradiction; [assumption|].
  destruct Hv as [Hx Hb]. apply IH; assumption.
Qed.

Lemma last_char_plain (s : string) (c : ascii) :
  plain_char c = true -> all_plain s = true -> plain_char (last_char s c) = true.
Proof.
  revert c. induction s as [|c' s IH]; intros c Hc Hs; simpl in *; [assumption|].
  apply andb_true_iff in Hs as [Hc' Hs]. apply IH; assumption.
Qed.

(** [_clean_cols] sends every variant of a canonical header to it. *)
Lemma clean_col_variant (s h : string) :
  canonical_header s = true -> header_variant s h -> clean_col h = s.
Proof.
  intros Hcan (l & b & r & -> & Hl & Hr & Hv).
  destruct s as [|c s]; [discriminate Hcan|].
  destruct b as [|x b]; [contradiction|].
  simpl in Hcan.
  apply andb_true_iff in Hcan as [Hcan Hlast].
  apply andb_true_iff in Hcan as [Hplain Hfirst].
  apply andb_true_iff in Hplain as [Hc Hs].
  apply negb_true_iff in Hfirst, Hlast.
  apply Ascii.eqb_neq in Hfirst, Hlast.
  destruct Hv as [Hx Hb].
  assert (PyStr.is_space x = false) as Hx0
    by (eapply plain_variant_not_space; eauto).
  assert (PyStr.is_space (last_char b x) = false) as Hx1.
  { eapply plain_variant_not_space; [| exact Hlast | apply last_char_variant; eauto].
    apply last_char_plain; assumption. }
  unfold clean_col, PyStr.strip.
  rewrite lstrip_spaces by assumption.
  change (String.append (String x b) r) with (String x (String.append b r)).
  cbn [PyStr.lstrip]. rewrite Hx0.
  change (String x (String.append b r)) with (String.append (String x b) r).
  rewrite rstrip_app_spaces by assumption.
  rewrite rstrip_fixed by assumption.
  apply (clean_body (String c s) (String x b)); simpl; [|auto].
  rewrite Hc, Hs. reflexivity.
Qed.

(** ** The rename map *)

Lemma rename_step_lookup (cols : list string) (rm : gmap string string)
    (entry : string * list string) (c : string) :
  rename_step cols rm entry !! c =
  if in_cols c cols then match_step c (rm !! c) entry else rm !! c.
Proof.
  unfold rename_step, match_step. revert rm.
  induction cols as [|x cols IH]; intros rm; simpl; [reflexivity|].
  rewrite IH. destruct (String.eqb c x) eqn:E; simpl.
  - apply String.eqb_eq in E. subst x.
    destruct (header_matches (fst entry) (snd entry) c) eqn:Hm.
    + rewrite lookup_insert_eq. destruct (in_cols c cols); reflexivity.
    + destruct (in_cols c cols); reflexivity.
  - apply String.eqb_neq in E.
    destruct (header_matches (fst entry) (snd entry) x).
    + rewrite lookup_insert_ne by congruence. reflexivity.
    + reflexivity.
Qed.

Lemma rename_fold_lookup (cols : list string)
    (mapping : list (string * list string)) (rm : gmap string string) (c : string) :
  fold_left (rename_step cols) mapping rm !! c =
  if in_cols c cols then fold_left (match_step c) mapping (rm !! c) else rm !! c.
Proof.
  revert rm. induction mapping as [|e mapping IH]; intros rm; simpl.
  - destruct (in_cols c cols); reflexivity.
  - rewrite IH, rename_step_lookup. destruct (in_cols c cols); reflexivity.
Qed.

Lemma build_rename_map_lookup (mapping : list (string * list string))
    (cols : list string) (c : string) :
  build_rename_map mapping cols !! c =
  if in_cols c cols then last_match mapping c else None.
Proof.
  unfold build_rename_map. rewrite rename_fold_lookup, lookup_empty. reflexivity.
Qed.

Lemma in_cols_true (c : string) (cols : list string) :
  In c cols -> in_cols c cols = true.
Proof.
  intros H. apply existsb_exists. exists c. split; [assumption|].
  apply String.eqb_refl.
Qed.

Lemma rename_columns_resolve (mapping : list (string * list string))
    (cols : list string) :
  rename_columns (build_rename_map mapping cols) cols = map (resolve mapping) cols.
Proof.
  unfold rename_columns. apply map_ext_in. intros c Hc.
  rewrite build_rename_map_lookup, in_cols_true by assumption. reflexivity.
Qed.

Lemma rename_columns_empty (cols : list string) :
  rename_columns ∅ cols = cols.
Proof.
  unfold rename_columns. induction cols as [|c cols IH]; simpl; [reflexivity|].
  rewrite lookup_empty. simpl. f_equal. exact IH.
Qed.

(** What [_rename_with_synonyms] does to a frame: every header is
    cleaned and resolved, the data is left alone. *)
Lemma rename_with_synonyms_columns (df : DataFrame)
    (mapping : list (string * list string)) :
  columns (_rename_with_synonyms df mapping)
  = map (resolve mapping) (_clean_cols (columns df)).
Proof.
  unfold _rename_with_synonyms. rewrite <- rename_columns_resolve.
  case_bool_decide as He; simpl; [|reflexivity].
  rewrite He, rename_columns_empty. reflexivity.
Qed.

Lemma rename_with_synonyms_rows (df : DataFrame)
    (mapping : list (string * list string)) :
  rows (_rename_with_synonyms df mapping) = rows df.
Proof.
  unfold _rename_with_synonyms. case_bool_decide; reflexivity.
Qed.

Lemma the_mappings_sound : forallb mapping_sound the_mappings = true.
Proof. vm_compute. reflexivity. Qed.

Lemma accepted_header_resolves (mapping : list (string * list string))
    (target : string) (syns : list string) (s : string) :
  In mapping the_mappings -> In (target, syns) mapping ->
  s = target \/ In s syns ->
  canonical_header s = true /\ last_match mapping s = Some target.
Proof.
  intros Hm He Hs.
  pose proof the_mappings_sound as H.
  rewrite forallb_forall in H. specialize (H _ Hm).
  unfold mapping_sound in H. rewrite forallb_forall in H.
  specialize (H _ He). rewrite forallb_forall in H.
  assert (In s (accepted_headers (target, syns))) as Hin.
  { simpl. destruct Hs as [-> | Hs]; auto. }
  specialize (H _ Hin). apply andb_true_iff in H as [Hc Hl].
  split; [assumption|].
  destruct (last_match mapping s) as [t|]; [|discriminate].
  apply String.eqb_eq in Hl. simpl in Hl. congruence.
Qed.

(** C5. For each of the three schemas, every header accepted for a
    target field (the field's own name or one of its synonyms), written
    in any casing, with spaces or hyphens for underscores and with
    whitespace around it, is renamed by [_rename_with_synonyms] to that
    target field, in the same column position and over the same data. *)
Theorem rename_resolves_header_variants
    (mapping : list (string * list string)) (target : string) (syns : list string)
    (s h : string) (df : DataFrame) (i : nat) :
  In mapping the_mappings ->
  In (target, syns) mapping ->
  s = target \/ In s syns ->
  header_variant s h ->
  nth_error (columns df) i = Some h ->
  clean_col h = s /\
  nth_error (columns (_rename_with_synonyms df mapping)) i = Some target /\
  rows (_rename_with_synonyms df mapping) = rows df.
Proof.
  intros Hm He Hs Hv Hi.
  destruct (accepted_header_resolves mapping target syns s Hm He Hs) as [Hc Hl].
  pose proof (clean_col_variant s h Hc Hv) as Hclean.
  split; [assumption|]. split; [|apply rename_with_synonyms_rows].
  rewrite rename_with_synonyms_columns. unfold _clean_cols.
  rewrite !nth_error_map, Hi. simpl.
  rewrite Hclean. unfold resolve. rewrite Hl. reflexivity.
Qed.

Lemma rename_resolves_header_variants_witness :
  header_variant "product_name" "  Product-NAME " /\
  nth_error (columns table_product_name) 0 = Some "  Product-NAME "%string /\
  clean_col "  Product-NAME " = "product_name"%string /\
  nth_error (columns (_rename_with_synonyms table_product_name sales_mapping)) 0
  = Some "item"%string /\
  rows (_rename_with_synonyms table_product_name sales_mapping)
  = rows table_product_name.
Proof.
  assert (header_variant "product_name" "  Product-NAME ") as Hv.
  { exists "  "%string, "Product-NAME"%string, " "%string.
    split; [reflexivity|]. split; [reflexivity|]. split; [reflexivity|].
    simpl. unfold char_variant.
    repeat split; try (left; vm_compute; reflexivity).
    right. split; [reflexivity|]. right. reflexivity. }
  split; [exact Hv|]. split; [reflexivity|].
  apply (rename_resolves_header_variants sales_mapping "item"
           ["product"; "product_name"; "item_name"; "name"; "sku"; "title"]%string
           "product_name" "  Product-NAME " table_product_name 0).
  - simpl. tauto.
  - simpl. tauto.
  - right. simpl. tauto.
  - exact Hv.
  - reflexivity.
Defined.

(** The three spellings of the specification. *)
Example product_name_spellings :
  columns (_rename_with_synonyms
             (mkDF ["Product Name"; "product-name"; "PRODUCT_NAME"]%string [])
             sales_mapping)
  = ["item"; "item"; "item"]%string.
Proof. vm_compute. reflexivity. Qed.


(** ** Frames *)

Lemma get_set_cell (i j : nat) (v : cell) (r : list cell) :
  get_cell i (set_cell j v r) = if Nat.eqb i j then v else get_cell i r.
Proof.
  unfold get_cell. revert i r.
  induction j as [|j IH]; intros [|i] [|c r]; simpl; try reflexivity.
  - destruct i; reflexivity.
  - rewrite IH. destruct (Nat.eqb i j); [reflexivity|]. destruct i; reflexivity.
  - apply IH.
Qed.

Lemma positions_spec (a : string) (cols : list string) (n i : nat) :
  In i (positions a cols n) <-> (n <= i)%nat /\ nth_error cols (i - n) = Some a.
Proof.
  revert n. induction cols as [|c cols IH]; intros n; simpl.
  - split; [contradiction|]. intros [_ H]. destruct (i - n)%nat; discriminate.
  - assert (In i (positions a cols (S n)) <->
            (n < i)%nat /\ nth_error cols (i - S n) = Some a) as IH'.
    { rewrite IH. reflexivity. }
    destruct (String.eqb c a) eqn:E.
    + apply String.eqb_eq in E. subst c. simpl. rewrite IH'. split.
      * intros [<- | [Hlt H]].
        -- split; [lia|]. replace (n - n)%nat with 0%nat by lia. reflexivity.
        -- split; [lia|]. replace (i - n)%nat with (S (i - S n)) by lia. exact H.
      * intros [Hle H]. destruct (Nat.eq_dec n i) as [->|Hne]; [left; reflexivity|].
        right. split; [lia|].
        replace (i - n)%nat with (S (i - S n)) in H by lia. exact H.
    + apply String.eqb_neq in E. rewrite IH'. split.
      * intros [Hlt H]. split; [lia|].
        replace (i - n)%nat with (S (i - S n)) by lia. exact H.
      * intros [Hle H]. destruct (Nat.eq_dec n i) as [->|Hne].
        -- replace (i - i)%nat with 0%nat in H by lia. simpl in H. congruence.
        -- split; [lia|].
           replace (i - n)%nat with (S (i - S n)) in H by lia. exact H.
Qed.

Lemma positions_distinct (a b : string) (cols : list string) (i j : nat) :
  a <> b -> positions a cols 0 = [i] -> positions b cols 0 = [j] -> i <> j.
Proof.
  intros Hab Hi Hj ->.
  assert (In j (positions a cols 0)) as H1 by (rewrite Hi; left; reflexivity).
  assert (In j (positions b cols 0)) as H2 by (rewrite Hj; left; reflexivity).
  apply positions_spec in H1 as [_ H1]. apply positions_spec in H2 as [_ H2].
  congruence.
Qed.

Lemma positions_app (a : string) (xs ys : list string) (n : nat) :
  positions a (xs ++ ys) n = positions a xs n ++ positions a ys (n + length xs).
Proof.
  revert n. induction xs as [|x xs IH]; intros n; simpl.
  - rewrite Nat.add_0_r. reflexivity.
  - rewrite IH. replace (S n + length xs)%nat with (n + S (length xs))%nat by lia.
    destruct (String.eqb x a); reflexivity.
Qed.

Lemma positions_absent (a : string) (cols : list string) (n : nat) :
  existsb (String.eqb a) cols = false -> positions a cols n = [].
Proof.
  revert n. induction cols as [|c cols IH]; intros n H; simpl in *; [reflexivity|].
  apply orb_false_iff in H as [Hc H].
  rewrite String.eqb_sym, Hc. apply IH, H.
Qed.

Lemma positions_present (a : string) (cols : list string) (n : nat) :
  existsb (String.eqb a) cols = true -> positions a cols n <> [].
Proof.
  revert n. induction cols as [|c cols IH]; intros n H; simpl in *; [discriminate|].
  rewrite String.eqb_sym. destruct (String.eqb a c); [discriminate|].
  apply IH, H.
Qed.

(** ** Normal form of the Sales normaliser *)

Ltac cells :=
  repeat first
    [ rewrite get_set_cell
    | rewrite Nat.eqb_refl
    | match goal with
      | |- context [Nat.eqb ?a ?b] =>
          rewrite (proj2 (Nat.eqb_neq a b)) by congruence
      end ].

Lemma rbind_ok {A B} (a : A) (k : A -> result B) : rbind (ok a) k = k a.
Proof. reflexivity. Qed.

Lemma rbind_raise {A B} (e : exn) (k : A -> result B) : rbind (raise e) k = raise e.
Proof. reflexivity. Qed.

Section Steps.

Variable parse_numeric : string -> option Q.

Lemma str_col_ok (df : DataFrame) (col : string) (f : cell -> cell) (i : nat) :
  positions col (columns df) 0 = [i] -> str_col df col f = ok (map_col i f df).
Proof. intros H. unfold str_col, getitem. rewrite H. reflexivity. Qed.

Lemma num_col_ok (df : DataFrame) (col : string) (fill : Q) (i : nat) :
  positions col (columns df) 0 = [i] ->
  num_col parse_numeric df col fill
  = ok (map_col i (fun c => fillna (CNum fill) (to_numeric parse_numeric c)) df).
Proof. intros H. unfold num_col, getitem. rewrite H. reflexivity. Qed.

Lemma keep_nonblank_ok (df : DataFrame) (col : string) (i : nat) :
  positions col (columns df) 0 = [i] ->
  keep_nonblank df col = ok (filter_rows i str_len_gt0 df).
Proof. intros H. unfold keep_nonblank, getitem. rewrite H. reflexivity. Qed.

Lemma keep_positive_ok (df : DataFrame) (col : string) (i : nat) :
  positions col (columns df) 0 = [i] ->
  keep_positive df col = ok (filter_rows i num_gt0 df).
Proof. intros H. unfold keep_positive, getitem. rewrite H. reflexivity. Qed.

Lemma str_col_raises (df : DataFrame) (col : string) (f : cell -> cell) :
  length (positions col (columns df) 0) <> 1%nat ->
  exists e, str_col df col f = raise e.
Proof.
  intros H. unfold str_col, getitem.
  destruct (positions col (columns df) 0) as [|i [|i' r]]; simpl in *;
    [eexists; reflexivity | lia | eexists; reflexivity].
Qed.

Lemma num_col_raises (df : DataFrame) (col : string) (fill : Q) :
  length (positions col (columns df) 0) <> 1%nat ->
  exists e, num_col parse_numeric df col fill = raise e.
Proof.
  intros H. unfold num_col, getitem.
  destruct (positions col (columns df) 0) as [|i [|i' r]]; simpl in *;
    [eexists; reflexivity | lia | eexists; reflexivity].
Qed.

Lemma select_single4 (df : DataFrame) (a b c d : string) (i j k l : nat) :
  positions a (columns df) 0 = [i] -> positions b (columns df) 0 = [j] ->
  positions c (columns df) 0 = [k] -> positions d (columns df) 0 = [l] ->
  select df [a; b; c; d]
  = ok (mkDF [a; b; c; d]
             (map (fun r => [get_cell i r; get_cell j r; get_cell k r; get_cell l r])
                  (rows df))).
Proof.
  intros Ha Hb Hc Hd. unfold select. simpl. rewrite Ha, Hb, Hc, Hd. reflexivity.
Qed.

End Steps.

(** One stage of a normaliser whose label names one column. *)
Ltac stage lem H := erewrite lem by exact H; rewrite rbind_ok; cbv beta.

(** A stage whose label does not name one column. *)
Ltac stage_raises lem lbl H :=
  right; split;
  [ exists lbl; split; [simpl; tauto | rewrite H; simpl; lia]
  | try unfold sales_stages; try unfold expenses_stages;
    match goal with
    | |- exists e, rbind ?m _ = _ =>
        let e := fresh "e" in
        let He := fresh "He" in
        assert (exists e, m = raise e) as [e He]
          by (apply lem; cbn [columns map_col filter_rows]; rewrite H; simpl; lia);
        rewrite He, rbind_raise; exists e; reflexivity
    end ].

Section NormalForms.

Variable parse_numeric : string -> option Q.
Variable str_of_num : Q -> string.

Lemma normalize_sales_stages (df : DataFrame) :
  _normalize_sales_df parse_numeric str_of_num df
  = sales_stages parse_numeric str_of_num
      (prepare sales_default sales_fields sales_mapping df).
Proof. reflexivity. Qed.

Lemma normalize_expenses_stages (df : DataFrame) :
  _normalize_expenses_df parse_numeric str_of_num df
  = expenses_stages parse_numeric str_of_num
      (prepare expenses_default expenses_fields expenses_mapping df).
Proof. reflexivity. Qed.

Lemma filter_map_comm {A B} (f : A -> B) (p : B -> bool) (xs : list A) :
  List.filter p (map f xs) = map f (List.filter (fun x => p (f x)) xs).
Proof.
  induction xs as [|x xs IH]; simpl; [reflexivity|].
  rewrite IH. destruct (p (f x)); reflexivity.
Qed.

Lemma filter_filter_and {A} (p q : A -> bool) (xs : list A) :
  List.filter q (List.filter p xs) = List.filter (fun x => p x && q x) xs.
Proof.
  induction xs as [|x xs IH]; simpl; [reflexivity|].
  destruct (p x); simpl; rewrite IH; reflexivity.
Qed.

Lemma filter_ext_eq {A} (p q : A -> bool) (xs : list A) :
  (forall x, p x = q x) -> List.filter p xs = List.filter q xs.
Proof.
  intros H. induction xs as [|x xs IH]; simpl; [reflexivity|].
  rewrite H, IH. reflexivity.
Qed.

Lemma sales_stages_ok (P : DataFrame) (i j k l : nat) :
  positions "item" (columns P) 0 = [i] ->
  positions "qty" (columns P) 0 = [j] ->
  positions "unit_price" (columns P) 0 = [k] ->
  positions "customer" (columns P) 0 = [l] ->
  sales_stages parse_numeric str_of_num P = ok (sales_out parse_numeric str_of_num i j k l P).
Proof.
  intros Hi Hj Hk Hl.
  assert (i <> j) as Hij by (eapply positions_distinct; [|exact Hi|exact Hj]; discriminate).
  assert (i <> k) as Hik by (eapply positions_distinct; [|exact Hi|exact Hk]; discriminate).
  assert (i <> l) as Hil by (eapply positions_distinct; [|exact Hi|exact Hl]; discriminate).
  assert (j <> k) as Hjk by (eapply positions_distinct; [|exact Hj|exact Hk]; discriminate).
  assert (j <> l) as Hjl by (eapply positions_distinct; [|exact Hj|exact Hl]; discriminate).
  assert (k <> l) as Hkl by (eapply positions_distinct; [|exact Hk|exact Hl]; discriminate).
  unfold sales_stages, sales_out.
  stage str_col_ok Hi. stage str_col_ok Hl.
  stage num_col_ok Hj. stage num_col_ok Hk.
  stage keep_nonblank_ok Hi. stage keep_positive_ok Hj.
  unfold sales_fields at 1.
  rewrite (select_single4 _ _ _ _ _ i j k l) by assumption.
  unfold ok. do 2 f_equal.
  cbn [rows filter_rows map_col].
  rewrite filter_filter_and, !map_map, filter_map_comm, map_map.
  rewrite (filter_ext_eq _ (fun r => sales_keep (sales_row parse_numeric str_of_num i j k l r))).
  - apply map_ext. intros r. unfold sales_row. cells. reflexivity.
  - intros r. cells. reflexivity.
Qed.

(** Either each of the four labels names one column of the prepared
    frame and the stages return, or some label does not and they raise. *)
Lemma sales_stages_cases (P : DataFrame) :
  (exists i j k l,
      positions "item" (columns P) 0 = [i] /\
      positions "qty" (columns P) 0 = [j] /\
      positions "unit_price" (columns P) 0 = [k] /\
      positions "customer" (columns P) 0 = [l] /\
      sales_stages parse_numeric str_of_num P = ok (sales_out parse_numeric str_of_num i j k l P))
  \/
  ((exists lbl, In lbl sales_fields /\ length (positions lbl (columns P) 0) <> 1%nat) /\
   exists e, sales_stages parse_numeric str_of_num P = raise e).
Proof.
  destruct (positions "item" (columns P) 0) as [|i [|i' ri]] eqn:Hi;
    [stage_raises str_col_raises "item"%string Hi |
     | stage_raises str_col_raises "item"%string Hi].
  destruct (positions "customer" (columns P) 0) as [|l [|l' rl]] eqn:Hl.
  1, 3: unfold sales_stages; stage str_col_ok Hi;
        stage_raises str_col_raises "customer"%string Hl.
  destruct (positions "qty" (columns P) 0) as [|j [|j' rj]] eqn:Hj.
  1, 3: unfold sales_stages; stage str_col_ok Hi; stage str_col_ok Hl;
        stage_raises (num_col_raises parse_numeric) "qty"%string Hj.
  destruct (positions "unit_price" (columns P) 0) as [|k [|k' rk]] eqn:Hk.
  1, 3: unfold sales_stages; stage str_col_ok Hi; stage str_col_ok Hl;
        stage num_col_ok Hj;
        stage_raises (num_col_raises parse_numeric) "unit_price"%string Hk.
  left. exists i, j, k, l. repeat (split; [reflexivity|]).
  apply sales_stages_ok; assumption.
Qed.

End NormalForms.

(** ** The [if col not in df.columns] loop *)

Lemma positions_nil_absent (a : string) (cols : list string) (n : nat) :
  positions a cols n = [] -> existsb (String.eqb a) cols = false.
Proof.
  intros H. destruct (existsb (String.eqb a) cols) eqn:E; [|reflexivity].
  exfalso. exact (positions_present a cols n E H).
Qed.

Lemma ensure_col_positions_other (dflt : string -> cell) (df : DataFrame)
    (c a : string) :
  a <> c ->
  positions a (columns (ensure_col dflt df c)) 0 = positions a (columns df) 0.
Proof.
  intros Hac. unfold ensure_col.
  destruct (existsb (String.eqb c) (columns df)); [reflexivity|].
  cbn [columns]. rewrite positions_app. simpl.
  destruct (String.eqb c a) eqn:E.
  - apply String.eqb_eq in E. congruence.
  - apply app_nil_r.
Qed.

Lemma ensure_col_positions_present (dflt : string -> cell) (df : DataFrame)
    (c a : string) :
  positions a (columns df) 0 <> [] ->
  positions a (columns (ensure_col dflt df c)) 0 = positions a (columns df) 0.
Proof.
  intros Ha. destruct (String.eqb a c) eqn:E.
  - apply String.eqb_eq in E. subst c. unfold ensure_col.
    destruct (existsb (String.eqb a) (columns df)) eqn:Hex; [reflexivity|].
    exfalso. apply Ha. apply positions_absent, Hex.
  - apply String.eqb_neq in E. apply ensure_col_positions_other, E.
Qed.

Lemma ensure_col_positions_new (dflt : string -> cell) (df : DataFrame) (c : string) :
  positions c (columns df) 0 = [] ->
  positions c (columns (ensure_col dflt df c)) 0 = [length (columns df)] /\
  col_const (length (columns df)) (dflt c) (ensure_col dflt df c).
Proof.
  intros H. unfold ensure_col, col_const.
  rewrite (positions_nil_absent _ _ _ H). cbn [columns rows]. split.
  - rewrite positions_app, H. simpl. rewrite String.eqb_refl. reflexivity.
  - split; [rewrite length_app; simpl; lia|].
    apply List.Forall_forall. intros r Hr. apply in_map_iff in Hr as (r0 & <- & _).
    rewrite get_set_cell, Nat.eqb_refl. reflexivity.
Qed.

Lemma ensure_col_const (dflt : string -> cell) (df : DataFrame) (c : string)
    (j : nat) (v : cell) :
  col_const j v df -> col_const j v (ensure_col dflt df c).
Proof.
  intros [Hj Hv]. unfold ensure_col, col_const.
  destruct (existsb (String.eqb c) (columns df)); [split; assumption|].
  cbn [columns rows]. split; [rewrite length_app; simpl; lia|].
  apply List.Forall_forall. intros r Hr. apply in_map_iff in Hr as (r0 & <- & Hr0).
  rewrite get_set_cell. rewrite (proj2 (Nat.eqb_neq _ _)) by lia.
  rewrite List.Forall_forall in Hv. apply Hv, Hr0.
Qed.

Lemma prepare_positions_present (dflt : string -> cell) (fields : list string)
    (mapping : list (string * list string)) (df : DataFrame) (a : string) :
  positions a (columns (_rename_with_synonyms df mapping)) 0 <> [] ->
  positions a (columns (prepare dflt fields mapping df)) 0
  = positions a (columns (_rename_with_synonyms df mapping)) 0.
Proof.
  unfold prepare.
  generalize (_rename_with_synonyms df mapping). clear df.
  induction fields as [|c fields IH]; intros df Ha; simpl; [reflexivity|].
  rewrite IH; rewrite ensure_col_positions_present by assumption;
    [reflexivity | assumption].
Qed.

(** When no column resolves to [qty], the Sales loop adds one that holds
    0 in every row. *)
Lemma sales_prepare_qty_default (df : DataFrame) :
  ~ In "qty"%string (columns (_rename_with_synonyms df sales_mapping)) ->
  exists j,
    positions "qty" (columns (prepare sales_default sales_fields sales_mapping df)) 0 = [j]
    /\ col_const j (CNum 0) (prepare sales_default sales_fields sales_mapping df).
Proof.
  intros Hq. unfold prepare.
  assert (positions "qty" (columns (_rename_with_synonyms df sales_mapping)) 0 = []) as H0.
  { apply positions_absent.
    destruct (existsb _ _) eqn:E; [|reflexivity].
    apply existsb_exists in E as (x & Hx & Ex). apply String.eqb_eq in Ex.
    subst x. contradiction. }
  revert H0. generalize (_rename_with_synonyms df sales_mapping). intros R H0.
  unfold sales_fields. cbn [fold_left].
  set (d1 := ensure_col sales_default R "item").
  assert (positions "qty" (columns d1) 0 = []) as H1.
  { unfold d1. rewrite ensure_col_positions_other by discriminate. exact H0. }
  destruct (ensure_col_positions_new sales_default d1 "qty" H1) as [H2 C2].
  exists (length (columns d1)). split.
  - rewrite !ensure_col_positions_other by discriminate. exact H2.
  - apply ensure_col_const, ensure_col_const. exact C2.
Qed.

(** ** The Sales filters *)

Lemma str_len_gt0_spec (c : cell) :
  str_len_gt0 c = true <-> exists s, c = CStr s /\ s <> EmptyString.
Proof.
  destruct c as [s| |]; simpl.
  - split.
    + intros H. exists s. split; [reflexivity|]. intros ->. discriminate H.
    + intros (s' & [= <-] & Hs). destruct s; [congruence | reflexivity].
  - split; [discriminate | intros (s & H & _); discriminate H].
  - split; [discriminate | intros (s & H & _); discriminate H].
Qed.

Lemma num_gt0_spec (c : cell) :
  num_gt0 c = true <-> exists q, c = CNum q /\ (0 < q)%Q.
Proof.
  destruct c as [|q|]; simpl.
  - split; [discriminate | intros (q & H & _); discriminate H].
  - rewrite negb_true_iff. split.
    + intros H. exists q. split; [reflexivity|].
      apply Qnot_le_lt. intros Hle. apply Qle_bool_iff in Hle. congruence.
    + intros (q' & [= <-] & Hq). destruct (Qle_bool q 0) eqn:E; [|reflexivity].
      apply Qle_bool_iff in E. exfalso. exact (Qlt_not_le _ _ Hq E).
  - split; [discriminate | intros (q & H & _); discriminate H].
Qed.

Lemma sales_keep_spec (o : list cell) :
  sales_keep o = true <->
  exists s q, get_cell 0 o = CStr s /\ s <> EmptyString /\
              get_cell 1 o = CNum q /\ (0 < q)%Q.
Proof.
  unfold sales_keep. rewrite andb_true_iff, str_len_gt0_spec, num_gt0_spec.
  split.
  - intros [(s & Hs & Hne) (q & Hq & Hpos)]. exists s, q. auto.
  - intros (s & q & Hs & Hne & Hq & Hpos). split; eauto.
Qed.

Lemma in_map_filter_iff {A B} (f : A -> B) (p : B -> bool) (xs : list A) (x : A) :
  In x xs ->
  (In (f x) (map f (List.filter (fun r => p (f r)) xs)) <-> p (f x) = true).
Proof.
  intros Hx. split.
  - intros H. apply in_map_iff in H as (y & Hy & Hin).
    apply filter_In in Hin as [_ Hp]. rewrite <- Hy. exact Hp.
  - intros Hp. apply in_map. apply filter_In. split; assumption.
Qed.

Lemma number_cell_coerced (parse_numeric : string -> option Q) (d : Q) (c : cell) :
  fillna (CNum d) (to_numeric parse_numeric c)
  = CNum (default d (cell_number parse_numeric c)).
Proof.
  destruct c as [s|q|]; cbn; [|reflexivity|reflexivity].
  destruct (parse_numeric s); reflexivity.
Qed.

Lemma text_cell_coerced (str_of_num : Q -> string) (c : cell) (s : string) :
  cell_text str_of_num c = Some s ->
  str_strip (astype_str str_of_num c) = CStr (PyStr.strip s) /\
  str_strip (fillna (CStr "") (astype_str str_of_num c)) = CStr (PyStr.strip s).
Proof. destruct c as [t|q|]; cbn; intros [= <-]; split; reflexivity. Qed.

(** C4, as stated, fails: a row whose quantity cell is empty has no
    quantity greater than zero, yet the normaliser fills in 1 and the row
    is in the output. *)
Lemma missing_sales_qty_is_kept_as_one :
  rows sales_table_missing_qty = [[CStr "Tea"; CNaN; CNum 5]] /\
  cell_number parse_digits CNaN = None /\
  _normalize_sales_df parse_digits show_num sales_table_missing_qty
  = ok (mkDF sales_fields [[CStr "Tea"; CNum 1; CNum 5; CStr ""]]).
Proof. split; [reflexivity|]. split; [reflexivity|]. vm_compute. reflexivity. Qed.

(** A row whose item cell is empty: [astype(str)] makes the text [nan]
    of it before the blank-item filter runs, and the row is in the output
    as a sale of the item [nan]. *)
Example missing_sales_item_is_kept_as_nan :
  _normalize_sales_df parse_digits show_num sales_table_missing_item
  = ok (mkDF sales_fields [[CStr "nan"; CNum 2; CNum 5; CStr ""]]).
Proof. vm_compute. reflexivity. Qed.

(** C4, amended. On every table the Sales normaliser either raises (some
    Sales field is not named by exactly one column of the prepared frame)
    or returns coerced input rows, in input order.  The quantity of a
    row is the number its quantity cell holds, or 1 when the cell is
    empty or does not read as a number; a row whose quantity is at most
    zero is never in the output.  A row whose item cell holds a value is
    in the output if and only if that value, as text, is non-empty after
    trimming and the quantity is strictly greater than zero; its output
    row carries the trimmed text and the quantity. *)
Theorem normalize_sales_keeps_exactly_valid_rows
    (parse_numeric : string -> option Q) (str_of_num : Q -> string)
    (df : DataFrame) :
  let P := prepare sales_default sales_fields sales_mapping df in
  ((exists lbl, In lbl sales_fields /\ length (positions lbl (columns P) 0) <> 1%nat) /\
   exists e, _normalize_sales_df parse_numeric str_of_num df = raise e)
  \/
  exists out i j k l,
    _normalize_sales_df parse_numeric str_of_num df = ok out /\
    positions "item" (columns P) 0 = [i] /\
    positions "qty" (columns P) 0 = [j] /\
    positions "unit_price" (columns P) 0 = [k] /\
    positions "customer" (columns P) 0 = [l] /\
    columns out = sales_fields /\
    rows out
    = map (sales_row parse_numeric str_of_num i j k l)
          (List.filter
             (fun r => sales_keep (sales_row parse_numeric str_of_num i j k l r))
             (rows P)) /\
    forall r, In r (rows P) ->
      let o := sales_row parse_numeric str_of_num i j k l r in
      let q := default 1%Q (cell_number parse_numeric (get_cell j r)) in
      get_cell 1 o = CNum q /\
      ((q <= 0)%Q -> ~ In o (rows out)) /\
      forall s, cell_text str_of_num (get_cell i r) = Some s ->
        get_cell 0 o = CStr (PyStr.strip s) /\
        (In o (rows out) <-> PyStr.strip s <> EmptyString /\ (0 < q)%Q).
Proof.
  intros P. rewrite normalize_sales_stages. fold P.
  destruct (sales_stages_cases parse_numeric str_of_num P)
    as [(i & j & k & l & Hi & Hj & Hk & Hl & Hok) | Hbad]; [right | left; exact Hbad].
  eexists _, i, j, k, l. split; [exact Hok|].
  repeat (split; [assumption || reflexivity|]).
  intros r Hr. cbv zeta. unfold sales_out. cbn [rows].
  set (o := sales_row parse_numeric str_of_num i j k l r).
  assert (In o (map (sales_row parse_numeric str_of_num i j k l)
                  (List.filter
                     (fun r => sales_keep (sales_row parse_numeric str_of_num i j k l r))
                     (rows P)))
          <-> exists s q, get_cell 0 o = CStr s /\ s <> EmptyString /\
                          get_cell 1 o = CNum q /\ (0 < q)%Q) as Hin.
  { unfold o.
    rewrite (in_map_filter_iff (sales_row parse_numeric str_of_num i j k l) sales_keep)
      by exact Hr.
    apply sales_keep_spec. }
  assert (get_cell 1 o = CNum (default 1%Q (cell_number parse_numeric (get_cell j r))))
    as Hq by apply number_cell_coerced.
  split; [exact Hq|]. split.
  - intros Hle Ho. apply Hin in Ho as (s & q & _ & _ & Hq' & Hpos).
    rewrite Hq in Hq'. injection Hq' as <-. exact (Qlt_not_le _ _ Hpos Hle).
  - intros s Hs. destruct (text_cell_coerced str_of_num _ _ Hs) as [Ht _].
    assert (get_cell 0 o = CStr (PyStr.strip s)) as H0 by exact Ht.
    split; [exact H0|]. rewrite Hin. split.
    + intros (s' & q' & E0 & Hne & E1 & Hpos). rewrite H0 in E0. rewrite Hq in E1.
      injection E0 as <-. injection E1 as <-. auto.
    + intros [Hne Hpos]. eexists _, _. rewrite H0, Hq. auto.
Qed.

Lemma normalize_sales_keeps_exactly_valid_rows_witness :
  exists out,
    _normalize_sales_df parse_digits show_num sales_table_mixed = ok out /\
    rows out = [[CStr "Tea"; CNum 2; CNum 5; CStr ""]].
Proof.
  pose proof (normalize_sales_keeps_exactly_valid_rows parse_digits show_num
                sales_table_mixed) as H.
  cbv zeta in H.
  destruct H as [[_ [e He]]
                | (out & i & j & k & l & Hok & Hi & Hj & Hk & Hl & _ & Hrows & _)].
  - vm_compute in He. discriminate He.
  - exists out. split; [exact Hok|].
    vm_compute in Hi, Hj, Hk, Hl.
    injection Hi as <-. injection Hj as <-. injection Hk as <-. injection Hl as <-.
    rewrite Hrows. vm_compute. reflexivity.
Defined.


(** ** Tables without a quantity column *)

Lemma sales_without_qty_empty
    (parse_numeric : string -> option Q) (str_of_num : Q -> string)
    (df out : DataFrame) :
  ~ In "qty"%string (columns (_rename_with_synonyms df sales_mapping)) ->
  _normalize_sales_df parse_numeric str_of_num df = ok out ->
  out = mkDF sales_fields [].
Proof.
  intros Hq Hout.
  destruct (sales_prepare_qty_default df Hq) as (j & Hj & _ & Hconst).
  rewrite normalize_sales_stages in Hout.
  destruct (sales_stages_cases parse_numeric str_of_num
              (prepare sales_default sales_fields sales_mapping df))
    as [(i & j' & k & l & Hi & Hj' & Hk & Hl & Hok) | [_ [e He]]].
  2: { rewrite He in Hout. discriminate Hout. }
  rewrite Hok in Hout. injection Hout as <-. unfold sales_out. f_equal.
  rewrite Hj in Hj'. injection Hj' as <-.
  clear Hok Hi Hk Hl Hj.
  set (rs := rows _) in *. clearbody rs.
  induction rs as [|r rs IH]; [reflexivity|].
  apply Forall_cons_iff in Hconst as [Hr Hrs]. cbn [List.filter].
  replace (sales_keep (sales_row parse_numeric str_of_num i j k l r)) with false.
  - apply IH, Hrs.
  - unfold sales_keep, sales_row, get_cell at 1 2. cbn [nth].
    rewrite Hr. simpl. rewrite andb_false_r. reflexivity.
Qed.

(** C10. When no column of the table resolves to the Sales field [qty],
    the column is synthesised with 0, the [qty > 0] filter drops every
    row, and the normaliser output, if it returns at all, is empty: a bulk
    Sales import of such a table leaves the store as it was and reports
    zero imported rows (or the failure of the normaliser), whatever the
    item and price columns hold. *)
Theorem sales_import_without_qty_applies_nothing
    (parse_numeric : string -> option Q) (str_of_num : Q -> string)
    (fault : nat -> db_op -> bool) (today : Z) (df : DataFrame) (db : Store) :
  ~ In "qty"%string (columns (_rename_with_synonyms df sales_mapping)) ->
  (forall out, _normalize_sales_df parse_numeric str_of_num df = ok out ->
               rows out = []) /\
  ((exists e, _normalize_sales_df parse_numeric str_of_num df = raise e) \/
   _normalize_sales_df parse_numeric str_of_num df = ok (mkDF sales_fields [])) /\
  fst (process_csv_upload_sales parse_numeric str_of_num fault today df db) = db /\
  (snd (process_csv_upload_sales parse_numeric str_of_num fault today df db) = ok 0%nat \/
   exists e,
     _normalize_sales_df parse_numeric str_of_num df = raise e /\
     snd (process_csv_upload_sales parse_numeric str_of_num fault today df db) = raise e).
Proof.
  intros Hq.
  pose proof (sales_without_qty_empty parse_numeric str_of_num df) as Hempty.
  split; [intros out Hout; rewrite (Hempty out Hq Hout); reflexivity|].
  unfold process_csv_upload_sales.
  destruct (_normalize_sales_df parse_numeric str_of_num df) as [e|out] eqn:Hn.
  - split; [left; exists e; reflexivity|]. split; [reflexivity|].
    right. exists e. split; reflexivity.
  - rewrite (Hempty out Hq eq_refl).
    split; [right; reflexivity|]. split; [reflexivity | left; reflexivity].
Qed.

Lemma sales_import_without_qty_applies_nothing_witness :
  ~ In "qty"%string (columns (_rename_with_synonyms sales_table_no_qty sales_mapping)) /\
  process_csv_upload_sales parse_digits show_num (fun _ => no_fault) 19000
    sales_table_no_qty sugar_store
  = (sugar_store, ok 0%nat).
Proof.
  assert (~ In "qty"%string (columns (_rename_with_synonyms sales_table_no_qty sales_mapping))) as Hq.
  { vm_compute. intros [H | [H | []]]; discriminate H. }
  split; [exact Hq|].
  destruct (sales_import_without_qty_applies_nothing parse_digits show_num
              (fun _ => no_fault) 19000 sales_table_no_qty sugar_store Hq)
    as (_ & _ & Hfst & Hsnd).
  destruct (process_csv_upload_sales parse_digits show_num (fun _ => no_fault) 19000
              sales_table_no_qty sugar_store) as [db' r] eqn:E.
  simpl in Hfst, Hsnd. subst db'. f_equal.
  destruct Hsnd as [-> | (e & Hn & _)]; [reflexivity|].
  vm_compute in Hn. discriminate Hn.
Defined.


(** ** Normal form of the Expenses normaliser *)

Section ExpensesForms.

Variable parse_numeric : string -> option Q.
Variable str_of_num : Q -> string.

Lemma expenses_stages_ok (P : DataFrame) (i j k l : nat) :
  positions "category" (columns P) 0 = [i] ->
  positions "vendor" (columns P) 0 = [j] ->
  positions "amount" (columns P) 0 = [k] ->
  positions "notes" (columns P) 0 = [l] ->
  expenses_stages parse_numeric str_of_num P = ok (expenses_out parse_numeric str_of_num i j k l P).
Proof.
  intros Hi Hj Hk Hl.
  assert (i <> j) as Hij by (eapply positions_distinct; [|exact Hi|exact Hj]; discriminate).
  assert (i <> k) as Hik by (eapply positions_distinct; [|exact Hi|exact Hk]; discriminate).
  assert (i <> l) as Hil by (eapply positions_distinct; [|exact Hi|exact Hl]; discriminate).
  assert (j <> k) as Hjk by (eapply positions_distinct; [|exact Hj|exact Hk]; discriminate).
  assert (j <> l) as Hjl by (eapply positions_distinct; [|exact Hj|exact Hl]; discriminate).
  assert (k <> l) as Hkl by (eapply positions_distinct; [|exact Hk|exact Hl]; discriminate).
  unfold expenses_stages, expenses_out.
  stage str_col_ok Hi. stage str_col_ok Hj. stage str_col_ok Hl.
  stage num_col_ok Hk.
  stage keep_nonblank_ok Hi. stage keep_positive_ok Hk.
  unfold expenses_fields at 1.
  rewrite (select_single4 _ _ _ _ _ i j k l) by assumption.
  unfold ok. do 2 f_equal.
  cbn [rows filter_rows map_col].
  rewrite filter_filter_and, !map_map, filter_map_comm, map_map.
  rewrite (filter_ext_eq _
             (fun r => expenses_keep (expenses_row parse_numeric str_of_num i j k l r))).
  - apply map_ext. intros r. unfold expenses_row. cells. reflexivity.
  - intros r. cells. reflexivity.
Qed.

Lemma expenses_stages_cases (P : DataFrame) :
  (exists i j k l,
      positions "category" (columns P) 0 = [i] /\
      positions "vendor" (columns P) 0 = [j] /\
      positions "amount" (columns P) 0 = [k] /\
      positions "notes" (columns P) 0 = [l] /\
      expenses_stages parse_numeric str_of_num P = ok (expenses_out parse_numeric str_of_num i j k l P))
  \/
  ((exists lbl, In lbl expenses_fields /\ length (positions lbl (columns P) 0) <> 1%nat) /\
   exists e, expenses_stages parse_numeric str_of_num P = raise e).
Proof.
  destruct (positions "category" (columns P) 0) as [|i [|i' ri]] eqn:Hi;
    [stage_raises str_col_raises "category"%string Hi |
     | stage_raises str_col_raises "category"%string Hi].
  destruct (positions "vendor" (columns P) 0) as [|j [|j' rj]] eqn:Hj.
  1, 3: unfold expenses_stages; stage str_col_ok Hi;
        stage_raises str_col_raises "vendor"%string Hj.
  destruct (positions "notes" (columns P) 0) as [|l [|l' rl]] eqn:Hl.
  1, 3: unfold expenses_stages; stage str_col_ok Hi; stage str_col_ok Hj;
        stage_raises str_col_raises "notes"%string Hl.
  destruct (positions "amount" (columns P) 0) as [|k [|k' rk]] eqn:Hk.
  1, 3: unfold expenses_stages; stage str_col_ok Hi; stage str_col_ok Hj;
        stage str_col_ok Hl;
        stage_raises (num_col_raises parse_numeric) "amount"%string Hk.
  left. exists i, j, k, l. repeat (split; [reflexivity|]).
  apply expenses_stages_ok; assumption.
Qed.

End ExpensesForms.

Lemma expenses_keep_spec (o : list cell) :
  expenses_keep o = true <->
  exists s q, get_cell 0 o = CStr s /\ s <> EmptyString /\
              get_cell 2 o = CNum q /\ (0 < q)%Q.
Proof.
  unfold expenses_keep. rewrite andb_true_iff, str_len_gt0_spec, num_gt0_spec.
  split.
  - intros [(s & Hs & Hne) (q & Hq & Hpos)]. exists s, q. auto.
  - intros (s & q & Hs & Hne & Hq & Hpos). split; eauto.
Qed.

(** ** Numeric coercion *)




(** ** Two columns for one field *)

Lemma sales_duplicate_field_raises
    (parse_numeric : string -> option Q) (str_of_num : Q -> string)
    (df : DataFrame) (lbl : string) :
  In lbl sales_fields ->
  (2 <= length (positions lbl (columns (_rename_with_synonyms df sales_mapping)) 0))%nat ->
  exists e, _normalize_sales_df parse_numeric str_of_num df = raise e.
Proof.
  intros Hl Hlen.
  assert (positions lbl (columns (prepare sales_default sales_fields sales_mapping df)) 0
          = positions lbl (columns (_rename_with_synonyms df sales_mapping)) 0) as Hp.
  { apply prepare_positions_present. intros E. rewrite E in Hlen. simpl in Hlen. lia. }
  rewrite normalize_sales_stages.
  destruct (sales_stages_cases parse_numeric str_of_num
              (prepare sales_default sales_fields sales_mapping df))
    as [(i & j & k & l & Hi & Hj & Hk & Hl' & _) | [_ He]]; [|exact He].
  exfalso. rewrite <- Hp in Hlen.
  simpl in Hl. destruct Hl as [<- | [<- | [<- | [<- | []]]]].
  - rewrite Hi in Hlen. simpl in Hlen. lia.
  - rewrite Hj in Hlen. simpl in Hlen. lia.
  - rewrite Hk in Hlen. simpl in Hlen. lia.
  - rewrite Hl' in Hlen. simpl in Hlen. lia.
Qed.

(** C6, the code at a table whose columns [product] and [name] both
    resolve to [item]: after the renaming both columns are labelled
    [item], [df["item"]] is a DataFrame, its [.str] accessor raises, and
    the import applies no row. *)
Theorem two_item_columns_abort_the_import
    (fault : nat -> db_op -> bool) (today : Z) (db : Store) :
  columns (_rename_with_synonyms sales_table_two_items sales_mapping)
  = ["item"; "item"; "qty"]%string /\
  _normalize_sales_df parse_digits show_num sales_table_two_items = raise AttributeError /\
  process_csv_upload_sales parse_digits show_num fault today sales_table_two_items db
  = (db, raise AttributeError).
Proof.
  assert (_normalize_sales_df parse_digits show_num sales_table_two_items
          = raise AttributeError) as H by (vm_compute; reflexivity).
  split; [vm_compute; reflexivity|]. split; [exact H|].
  unfold process_csv_upload_sales. rewrite H. reflexivity.
Qed.

(** ** Keys of the stock table *)

Lemma next_id_above (ids : list Z) (x : Z) : In x ids -> (x < next_id ids)%Z.
Proof.
  unfold next_id. induction ids as [|y ids IH]; simpl; [contradiction|].
  intros [-> | H]; [lia|]. specialize (IH H). lia.
Qed.

Lemma next_id_fresh (ids : list Z) : ~ In (next_id ids) ids.
Proof. intros H. apply next_id_above in H. lia. Qed.

Lemma find_item_none (i : string) (tbl : list Stock) :
  find (item_is i) tbl = None <-> (forall r, In r tbl -> stock_item r <> i).
Proof.
  split.
  - intros H r Hr E. pose proof (find_none _ _ H r Hr) as Hn.
    unfold item_is in Hn. rewrite E, String.eqb_refl in Hn. discriminate Hn.
  - intros H. induction tbl as [|r tbl IH]; simpl; [reflexivity|].
    unfold item_is at 1. destruct (String.eqb (stock_item r) i) eqn:E.
    + apply String.eqb_eq in E. exfalso. apply (H r); [left; reflexivity | exact E].
    + apply IH. intros r' Hr'. apply H. right. exact Hr'.
Qed.

Lemma existsb_item_false (i : string) (tbl : list Stock) :
  find (item_is i) tbl = None -> existsb (item_is i) tbl = false.
Proof.
  intros H. destruct (existsb (item_is i) tbl) eqn:E; [|reflexivity].
  apply existsb_exists in E as (r & Hr & Hi).
  rewrite (find_none _ _ H r Hr) in Hi. discriminate Hi.
Qed.

(** With unique keys, a row found anywhere in the table is the row the
    query returns, and the UPDATE by primary key touches it alone. *)
Lemma unique_row_found (pre post : list Stock) (st : Stock) :
  stock_keys_ok (pre ++ st :: post) ->
  find (item_is (stock_item st)) (pre ++ st :: post) = Some st.
Proof.
  intros [_ Hitems]. rewrite map_app in Hitems. simpl in Hitems.
  apply List.NoDup_remove_2 in Hitems.
  induction pre as [|r pre IH]; simpl.
  - unfold item_is. rewrite String.eqb_refl. reflexivity.
  - unfold item_is at 1. destruct (String.eqb (stock_item r) (stock_item st)) eqn:E.
    + apply String.eqb_eq in E. exfalso. apply Hitems. simpl. left. exact E.
    + apply IH. intros H. apply Hitems. simpl. right. exact H.
Qed.

Lemma update_by_id_unique (f : Stock -> Stock) (pre post : list Stock) (st : Stock) :
  stock_keys_ok (pre ++ st :: post) ->
  map (fun r => if Z.eqb (stock_id r) (stock_id st) then f r else r) (pre ++ st :: post)
  = pre ++ f st :: post.
Proof.
  intros [Hids _]. rewrite map_app in Hids. simpl in Hids.
  apply List.NoDup_remove_2 in Hids.
  assert (forall l, (forall r, In r l -> stock_id r <> stock_id st) ->
            map (fun r => if Z.eqb (stock_id r) (stock_id st) then f r else r) l = l)
    as Hfix.
  { induction l as [|r l IH]; intros Hl; simpl; [reflexivity|].
    rewrite (proj2 (Z.eqb_neq _ _)) by (apply Hl; left; reflexivity).
    f_equal. apply IH. intros r' Hr'. apply Hl. right. exact Hr'. }
  rewrite map_app. simpl. rewrite Z.eqb_refl. rewrite !Hfix; [reflexivity | |].
  - intros r Hr E. apply Hids. apply in_or_app. right.
    rewrite <- E. apply in_map, Hr.
  - intros r Hr E. apply Hids. apply in_or_app. left.
    rewrite <- E. apply in_map, Hr.
Qed.

Lemma find_item_split (i : string) (tbl : list Stock) (st : Stock) :
  find (item_is i) tbl = Some st ->
  stock_item st = i /\ exists pre post, tbl = pre ++ st :: post.
Proof.
  intros H. pose proof (find_some _ _ H) as [Hin Hi].
  unfold item_is in Hi. apply String.eqb_eq in Hi. split; [exact Hi|].
  apply in_split in Hin as (pre & post & ->). exists pre, post. reflexivity.
Qed.

Lemma keys_ok_update (f : Stock -> Stock) (id : Z) (tbl : list Stock) :
  (forall r, stock_id (f r) = stock_id r /\ stock_item (f r) = stock_item r) ->
  stock_keys_ok tbl ->
  stock_keys_ok (map (fun r => if Z.eqb (stock_id r) id then f r else r) tbl).
Proof.
  intros Hf [Hids Hitems]. unfold stock_keys_ok. rewrite !map_map.
  rewrite (map_ext _ stock_id), (map_ext _ stock_item); [split; assumption | |];
    intros r; destruct (Z.eqb (stock_id r) id); try reflexivity; apply Hf.
Qed.

Lemma keys_ok_insert (tbl : list Stock) (i : string) (q t c : Q) (d : Z) :
  find (item_is i) tbl = None ->
  stock_keys_ok tbl ->
  stock_keys_ok (tbl ++ [mkStock (next_id (map stock_id tbl)) i q t c d]).
Proof.
  intros Hnone [Hids Hitems]. unfold stock_keys_ok. rewrite !map_app. simpl.
  split; apply List.NoDup_app; try assumption.
  - apply List.NoDup_cons; [intros [] | apply List.NoDup_nil].
  - intros x Hx [<- | []]. exact (next_id_fresh _ Hx).
  - apply List.NoDup_cons; [intros [] | apply List.NoDup_nil].
  - intros x Hx [<- | []]. apply in_map_iff in Hx as (r & Hr & Hin).
    apply (proj1 (find_item_none i tbl) Hnone r Hin Hr).
Qed.

(** ** [add_sale] *)

Ltac session_unfold :=
  unfold run_session, mbind, mret, mthrow, insert_sale, query_stock,
    decrement_stock, overwrite_stock, update_stock_row, insert_stock, commit,
    open_session, close, rollback.

Lemma add_sale_outcome (fault : db_op -> bool) (today : Z)
    (item : option string) (qty unit_price total : option Q)
    (customer : option string) (db : Store) :
  match add_sale fault today item qty unit_price total customer db with
  | (db', inl _) => db' = db
  | (db', inr id) =>
      exists i q p t,
        item = Some i /\ qty = Some q /\ unit_price = Some p /\ total = Some t /\
        id = next_id (map sale_id (sales db)) /\
        sales db' = sales db ++ [mkSale id i q p t customer today] /\
        stock db' = stock_after_sale today i q (stock db)
  end.
Proof.
  unfold add_sale, stock_after_sale. session_unfold.
  destruct (fault OpInsertSale); cbn; [reflexivity|].
  destruct item as [i|]; cbn; [|reflexivity].
  destruct qty as [q|]; cbn; [|reflexivity].
  destruct unit_price as [p|]; cbn; [|reflexivity].
  destruct total as [t|]; cbn; [|reflexivity].
  destruct (fault OpQueryStock); cbn; [reflexivity|].
  destruct (find (item_is i) (stock db)) as [st|] eqn:Hfind; cbn.
  - destruct (fault OpUpdateStock); cbn; [reflexivity|].
    destruct (fault OpCommit); cbn; [reflexivity|].
    exists i, q, p, t. repeat (split; [reflexivity|]). rewrite Hfind. reflexivity.
  - destruct (fault OpCommit); cbn; [reflexivity|].
    exists i, q, p, t. repeat (split; [reflexivity|]). rewrite Hfind. reflexivity.
Qed.

Lemma add_sale_returns (fault : db_op -> bool) (today : Z)
    (item : string) (qty unit_price total : Q) (customer : option string)
    (db : Store) :
  (forall op, fault op = false) ->
  exists db' id,
    add_sale fault today (Some item) (Some qty) (Some unit_price) (Some total)
      customer db = (db', ok id).
Proof.
  intros Hf. unfold add_sale. session_unfold. rewrite !Hf. cbn.
  destruct (find (item_is item) (stock db)); cbn; rewrite ?Hf; cbn;
    eexists _, _; reflexivity.
Qed.

(** C1. With the persistence layer working, every call of
    [add_sale(item, qty, unit_price, total, customer)] returns the new
    sale's id and appends a sale row with the given fields dated today;
    if a stock row with exactly that item exists, that row alone has its
    quantity decreased by [qty] and its date refreshed; if none exists the
    call still succeeds and the stock table is unchanged, so no stock row
    is created. *)
Theorem add_sale_records_sale_and_adjusts_stock
    (fault : db_op -> bool) (today : Z)
    (item : string) (qty unit_price total : Q) (customer : option string)
    (db : Store) :
  (forall op, fault op = false) ->
  stock_keys_ok (stock db) ->
  exists db',
    let id := next_id (map sale_id (sales db)) in
    add_sale fault today (Some item) (Some qty) (Some unit_price) (Some total)
      customer db = (db', ok id) /\
    sales db' = sales db ++ [mkSale id item qty unit_price total customer today] /\
    (forall pre st post,
        stock db = pre ++ st :: post -> stock_item st = item ->
        stock db'
        = pre ++ mkStock (stock_id st) item (stock_qty st - qty)%Q
                         (stock_threshold st) (stock_unit_cost st) today :: post) /\
    ((forall r, In r (stock db) -> stock_item r <> item) -> stock db' = stock db).
Proof.
  intros Hf Hkeys.
  destruct (add_sale_returns fault today item qty unit_price total customer db Hf)
    as (db' & id & Hrun).
  pose proof (add_sale_outcome fault today (Some item) (Some qty) (Some unit_price)
                (Some total) customer db) as Hout.
  rewrite Hrun in Hout.
  destruct Hout as (i & q & p & t & [= <-] & [= <-] & [= <-] & [= <-] & -> & Hsales & Hstock).
  exists db'. cbv zeta. split; [exact Hrun|]. split; [exact Hsales|]. split.
  - intros pre st post Hsplit Hitem. rewrite Hstock. unfold stock_after_sale.
    rewrite Hsplit in *. subst item.
    rewrite (unique_row_found pre post st Hkeys).
    apply (update_by_id_unique
             (fun r => mkStock (stock_id r) (stock_item r) (stock_qty r - qty)%Q
                               (stock_threshold r) (stock_unit_cost r) today)
             pre post st Hkeys).
  - intros Hnone. rewrite Hstock. unfold stock_after_sale.
    rewrite (proj2 (find_item_none item (stock db)) Hnone). reflexivity.
Qed.

Lemma sugar_store_keys_ok : stock_keys_ok (stock sugar_store).
Proof.
  split; simpl; (apply List.NoDup_cons; [intros [] | apply List.NoDup_nil]).
Qed.

Lemma add_sale_records_sale_and_adjusts_stock_witness :
  (forall op, no_fault op = false) /\
  stock_keys_ok (stock sugar_store) /\
  exists db',
    add_sale no_fault 19001 (Some "Sugar"%string) (Some 2%Q) (Some 50%Q) (Some 100%Q)
      (Some "John"%string) sugar_store = (db', ok 1%Z) /\
    sales db' = [mkSale 1 "Sugar" 2 50 100 (Some "John"%string) 19001] /\
    stock db' = [mkStock 1 "Sugar" 8 5 40 19001].
Proof.
  split; [reflexivity|]. split; [exact sugar_store_keys_ok|].
  destruct (add_sale_records_sale_and_adjusts_stock no_fault 19001 "Sugar" 2 50 100
              (Some "John"%string) sugar_store (fun _ => eq_refl) sugar_store_keys_ok)
    as (db' & Hrun & Hsales & Hfound & _).
  exists db'. split; [exact Hrun|]. split; [exact Hsales|].
  exact (Hfound [] (mkStock 1 "Sugar" 10 5 40 19000) [] eq_refl eq_refl).
Defined.

(** The sale against an item that has no stock row. *)
Example sale_of_unknown_item :
  add_sale no_fault 19001 (Some "Unobtanium"%string) (Some 1%Q) (Some 1%Q) (Some 1%Q)
    (Some "X"%string) sugar_store
  = (mkStore [mkSale 1 "Unobtanium" 1 1 1 (Some "X"%string) 19001]
             [mkStock 1 "Sugar" 10 5 40 19000],
     ok 1%Z).
Proof. vm_compute. reflexivity. Qed.


(** C2. [add_sale] is all or nothing: whatever step fails (a constraint
    violation on the insert, or a failure of the persistence layer at the
    insert, the stock query, the stock update or the commit), the store
    after the call is the store before it; and when the call returns an
    id, the sale row and the stock adjustment are both in the store. *)
Theorem add_sale_is_atomic (fault : db_op -> bool) (today : Z)
    (item : option string) (qty unit_price total : option Q)
    (customer : option string) (db : Store) :
  (forall e,
      snd (add_sale fault today item qty unit_price total customer db) = raise e ->
      fst (add_sale fault today item qty unit_price total customer db) = db) /\
  (forall id,
      snd (add_sale fault today item qty unit_price total customer db) = ok id ->
      exists i q p t,
        item = Some i /\ qty = Some q /\ unit_price = Some p /\ total = Some t /\
        sales (fst (add_sale fault today item qty unit_price total customer db))
        = sales db ++ [mkSale id i q p t customer today] /\
        stock (fst (add_sale fault today item qty unit_price total customer db))
        = stock_after_sale today i q (stock db)).
Proof.
  pose proof (add_sale_outcome fault today item qty unit_price total customer db) as H.
  destruct (add_sale fault today item qty unit_price total customer db) as [db' [e|id]];
    cbn [fst snd]; split.
  - intros _ _. exact H.
  - intros id Hid. discriminate Hid.
  - intros e He. discriminate He.
  - intros id' [= <-].
    destruct H as (i & q & p & t & Hi & Hq & Hp & Ht & Hid & Hs & Hst).
    exists i, q, p, t. subst id. auto 10.
Qed.

Lemma add_sale_is_atomic_witness :
  snd (add_sale commit_fails 19001 (Some "Sugar"%string) (Some 2%Q) (Some 50%Q)
         (Some 100%Q) (Some "John"%string) sugar_store) = raise OperationalError /\
  fst (add_sale commit_fails 19001 (Some "Sugar"%string) (Some 2%Q) (Some 50%Q)
         (Some 100%Q) (Some "John"%string) sugar_store) = sugar_store.
Proof.
  split; [reflexivity|].
  apply (proj1 (add_sale_is_atomic commit_fails 19001 (Some "Sugar"%string) (Some 2%Q)
                  (Some 50%Q) (Some 100%Q) (Some "John"%string) sugar_store)
               OperationalError).
  reflexivity.
Defined.


(** ** [add_stock_safe] and the two [update_stock] *)

Lemma upsert_existing_row (fault : db_op -> bool) (today : Z) (q t c : Q)
    (pre post : list Stock) (st : Stock) (db : Store) :
  (forall op, fault op = false) ->
  stock db = pre ++ st :: post ->
  stock_keys_ok (stock db) ->
  add_stock_safe fault today (Some (stock_item st)) (Some q) (Some t) (Some c) db
  = (mkStore (sales db)
             (pre ++ mkStock (stock_id st) (stock_item st) q t c today :: post),
     ok (stock_id st, false)).
Proof.
  intros Hf Hsplit Hkeys. unfold add_stock_safe. session_unfold.
  rewrite ?Hf. cbn. rewrite Hsplit in *.
  rewrite (unique_row_found pre post st Hkeys). cbn. rewrite ?Hf. cbn.
  rewrite Hsplit.
  rewrite (update_by_id_unique
             (fun r => mkStock (stock_id r) (stock_item r) q t c today)
             pre post st Hkeys).
  reflexivity.
Qed.

Lemma upsert_absent_row (fault : db_op -> bool) (today : Z) (item : string)
    (q t c : Q) (db : Store) :
  (forall op, fault op = false) ->
  find (item_is item) (stock db) = None ->
  add_stock_safe fault today (Some item) (Some q) (Some t) (Some c) db
  = (mkStore (sales db)
             (stock db ++ [mkStock (next_id (map stock_id (stock db))) item q t c today]),
     ok (next_id (map stock_id (stock db)), true)).
Proof.
  intros Hf Hnone. unfold add_stock_safe. session_unfold.
  rewrite ?Hf. cbn. rewrite Hnone. cbn. rewrite ?Hf. cbn.
  rewrite (existsb_item_false _ _ Hnone). cbn. rewrite ?Hf. cbn. reflexivity.
Qed.

Lemma filter_item_unique (pre post : list Stock) (y : Stock) :
  stock_keys_ok (pre ++ y :: post) ->
  List.filter (item_is (stock_item y)) (pre ++ y :: post) = [y].
Proof.
  intros [_ Hitems]. rewrite map_app in Hitems. simpl in Hitems.
  apply List.NoDup_remove_2 in Hitems.
  assert (forall l, (forall r, In r l -> stock_item r <> stock_item y) ->
            List.filter (item_is (stock_item y)) l = []) as Hnil.
  { induction l as [|r l IH]; intros Hl; simpl; [reflexivity|].
    unfold item_is at 1.
    rewrite (proj2 (String.eqb_neq _ _)) by (apply Hl; left; reflexivity).
    apply IH. intros r' Hr'. apply Hl. right. exact Hr'. }
  rewrite List.filter_app. simpl. unfold item_is at 2. rewrite String.eqb_refl.
  rewrite !Hnil; [reflexivity | |].
  - intros r Hr E. apply Hitems. apply in_or_app. right.
    rewrite <- E. apply in_map, Hr.
  - intros r Hr E. apply Hitems. apply in_or_app. left.
    rewrite <- E. apply in_map, Hr.
Qed.

Lemma keys_ok_replace (pre post : list Stock) (st st' : Stock) :
  stock_id st' = stock_id st -> stock_item st' = stock_item st ->
  stock_keys_ok (pre ++ st :: post) -> stock_keys_ok (pre ++ st' :: post).
Proof.
  intros Hid Hitem. unfold stock_keys_ok. rewrite !map_app. simpl.
  rewrite Hid, Hitem. tauto.
Qed.

(** Any call of [add_stock_safe], failing or not, keeps the keys of the
    stock table unique. *)
Lemma add_stock_safe_keeps_keys (fault : db_op -> bool) (today : Z)
    (item : option string) (qty threshold unit_cost : option Q) (db : Store) :
  stock_keys_ok (stock db) ->
  stock_keys_ok (stock (fst (add_stock_safe fault today item qty threshold unit_cost db))).
Proof.
  intros Hkeys. unfold add_stock_safe. session_unfold.
  destruct (fault OpQueryStock); cbn; [exact Hkeys|].
  destruct item as [i|]; cbn.
  - destruct (find (item_is i) (stock db)) as [st|] eqn:Hfind; cbn.
    + destruct qty as [q|], threshold as [t|], unit_cost as [c|]; cbn;
        destruct (fault OpUpdateStock); cbn; try exact Hkeys;
        destruct (fault OpCommit); cbn; try exact Hkeys.
      apply keys_ok_update; [|exact Hkeys]. intros r. split; reflexivity.
    + destruct (fault OpInsertStock); cbn; [exact Hkeys|].
      destruct qty as [q|], threshold as [t|], unit_cost as [c|]; cbn;
        try exact Hkeys.
      rewrite (existsb_item_false _ _ Hfind). cbn.
      destruct (fault OpCommit); cbn; [exact Hkeys|].
      apply keys_ok_insert; assumption.
  - destruct (fault OpInsertStock); cbn; exact Hkeys.
Qed.

Lemma upsert_again (fault : db_op -> bool) (today : Z) (q t c : Q)
    (pre post : list Stock) (x : Stock) (db : Store) :
  (forall op, fault op = false) ->
  stock db = pre ++ x :: post ->
  stock_keys_ok (stock db) ->
  exists db2,
    add_stock_safe fault today (Some (stock_item x)) (Some q) (Some t) (Some c) db
    = (db2, ok (stock_id x, false)) /\
    List.filter (item_is (stock_item x)) (stock db2)
    = [mkStock (stock_id x) (stock_item x) q t c today] /\
    length (stock db2) = length (stock db) /\
    stock_keys_ok (stock db2).
Proof.
  intros Hf Hsplit Hkeys.
  eexists. split; [apply (upsert_existing_row fault today q t c pre post x db); assumption|].
  cbn [stock].
  assert (stock_keys_ok (pre ++ mkStock (stock_id x) (stock_item x) q t c today :: post))
    as Hkeys2.
  { apply (keys_ok_replace pre post x); [reflexivity | reflexivity|].
    rewrite <- Hsplit. exact Hkeys. }
  split; [|split; [|exact Hkeys2]].
  - apply (filter_item_unique pre post
             (mkStock (stock_id x) (stock_item x) q t c today) Hkeys2).
  - rewrite Hsplit, !length_app. reflexivity.
Qed.

(** C7. [add_stock_safe] is a keyed upsert.  Any call keeps at most one
    stock row per item.  With the persistence layer working: if a row for
    the item exists the call overwrites its quantity, threshold and unit
    cost, refreshes its date and returns (existing id, false); if none
    exists it appends a new row and returns (new id, true); and a second
    call with the same arguments returns (same id, false) and leaves one
    row for the item, carrying those values, in a table of the same
    size. *)
Theorem add_stock_safe_is_idempotent_upsert
    (fault : db_op -> bool) (today today2 : Z)
    (item : string) (qty threshold unit_cost : Q) (db : Store) :
  (forall op, fault op = false) ->
  stock_keys_ok (stock db) ->
  (forall fault' d i q t c,
      stock_keys_ok (stock (fst (add_stock_safe fault' d i q t c db)))) /\
  exists db1 id created,
    add_stock_safe fault today (Some item) (Some qty) (Some threshold) (Some unit_cost) db
    = (db1, ok (id, created)) /\
    sales db1 = sales db /\
    stock_keys_ok (stock db1) /\
    (forall pre st post,
        stock db = pre ++ st :: post -> stock_item st = item ->
        id = stock_id st /\ created = false /\
        stock db1 = pre ++ mkStock (stock_id st) item qty threshold unit_cost today :: post) /\
    ((forall r, In r (stock db) -> stock_item r <> item) ->
     id = next_id (map stock_id (stock db)) /\ created = true /\
     stock db1 = stock db ++ [mkStock id item qty threshold unit_cost today]) /\
    exists db2,
      add_stock_safe fault today2 (Some item) (Some qty) (Some threshold) (Some unit_cost) db1
      = (db2, ok (id, false)) /\
      List.filter (item_is item) (stock db2)
      = [mkStock id item qty threshold unit_cost today2] /\
      length (stock db2) = length (stock db1) /\
      stock_keys_ok (stock db2).
Proof.
  intros Hf Hkeys.
  split; [intros; apply add_stock_safe_keeps_keys; exact Hkeys|].
  destruct (find (item_is item) (stock db)) as [st|] eqn:Hfind.
  - destruct (find_item_split _ _ _ Hfind) as [Hitem (pre & post & Hsplit)].
    subst item.
    pose proof (upsert_existing_row fault today qty threshold unit_cost pre post st db
                  Hf Hsplit Hkeys) as Hrun.
    eexists _, _, _. split; [exact Hrun|]. cbn [sales stock].
    assert (stock_keys_ok
              (pre ++ mkStock (stock_id st) (stock_item st) qty threshold unit_cost today
                   :: post)) as Hkeys1.
    { apply (keys_ok_replace pre post st); [reflexivity | reflexivity|].
      rewrite <- Hsplit. exact Hkeys. }
    split; [reflexivity|]. split; [exact Hkeys1|]. split; [|split].
    + intros pre0 st0 post0 Hsplit0 Hitem0.
      pose proof (upsert_existing_row fault today qty threshold unit_cost pre0 post0 st0 db
                    Hf Hsplit0 Hkeys) as Hrun0.
      rewrite Hitem0, Hrun in Hrun0. injection Hrun0 as Hst Hid.
      auto.
    + intros Hnone. exfalso.
      apply (Hnone st); [rewrite Hsplit; apply in_elt | reflexivity].
    + apply (upsert_again fault today2 qty threshold unit_cost pre post
               (mkStock (stock_id st) (stock_item st) qty threshold unit_cost today)
               (mkStore (sales db)
                  (pre ++ mkStock (stock_id st) (stock_item st) qty threshold unit_cost
                            today :: post)));
        [exact Hf | reflexivity | exact Hkeys1].
  - pose proof (upsert_absent_row fault today item qty threshold unit_cost db Hf Hfind)
      as Hrun.
    eexists _, _, _. split; [exact Hrun|]. cbn [sales stock].
    pose proof (keys_ok_insert (stock db) item qty threshold unit_cost today Hfind Hkeys)
      as Hkeys1.
    split; [reflexivity|]. split; [exact Hkeys1|]. split; [|split].
    + intros pre0 st0 post0 Hsplit0 Hitem0. exfalso.
      apply (proj1 (find_item_none item (stock db)) Hfind st0);
        [rewrite Hsplit0; apply in_elt | exact Hitem0].
    + intros _. auto.
    + apply (upsert_again fault today2 qty threshold unit_cost (stock db) []
               (mkStock (next_id (map stock_id (stock db))) item qty threshold unit_cost
                        today)
               (mkStore (sales db)
                  (stock db ++ [mkStock (next_id (map stock_id (stock db))) item qty
                                        threshold unit_cost today])));
        [exact Hf | reflexivity | exact Hkeys1].
Qed.

Lemma add_stock_safe_is_idempotent_upsert_witness :
  (forall op, no_fault op = false) /\
  stock_keys_ok (stock (mkStore [] [])) /\
  exists db1 db2 id,
    add_stock_safe no_fault 19000 (Some "Sugar"%string) (Some 10%Q) (Some 5%Q) (Some 40%Q)
      (mkStore [] []) = (db1, ok (id, true)) /\
    add_stock_safe no_fault 19001 (Some "Sugar"%string) (Some 10%Q) (Some 5%Q) (Some 40%Q)
      db1 = (db2, ok (id, false)) /\
    List.filter (item_is "Sugar") (stock db2) = [mkStock id "Sugar" 10 5 40 19001].
Proof.
  assert (stock_keys_ok (stock (mkStore [] []))) as Hk
    by (split; apply List.NoDup_nil).
  split; [reflexivity|]. split; [exact Hk|].
  destruct (add_stock_safe_is_idempotent_upsert no_fault 19000 19001 "Sugar" 10 5 40
              (mkStore [] []) (fun _ => eq_refl) Hk)
    as (_ & db1 & id & created & Hrun & _ & _ & _ & Hnew & db2 & Hrun2 & Hone & _).
  destruct (Hnew (fun r (H : In r []) => False_ind _ H)) as (_ & -> & _).
  exists db1, db2, id. auto.
Defined.

Lemma update_by_item_unique (f : Stock -> Stock) (pre post : list Stock) (st : Stock) :
  stock_keys_ok (pre ++ st :: post) ->
  map (fun r => if item_is (stock_item st) r then f r else r) (pre ++ st :: post)
  = pre ++ f st :: post.
Proof.
  intros [_ Hitems]. rewrite map_app in Hitems. simpl in Hitems.
  apply List.NoDup_remove_2 in Hitems.
  assert (forall l, (forall r, In r l -> stock_item r <> stock_item st) ->
            map (fun r => if item_is (stock_item st) r then f r else r) l = l) as Hfix.
  { induction l as [|r l IH]; intros Hl; simpl; [reflexivity|].
    unfold item_is at 1.
    rewrite (proj2 (String.eqb_neq _ _)) by (apply Hl; left; reflexivity).
    f_equal. apply IH. intros r' Hr'. apply Hl. right. exact Hr'. }
  rewrite map_app. simpl. unfold item_is at 2. rewrite String.eqb_refl.
  rewrite !Hfix; [reflexivity | |].
  - intros r Hr E. apply Hitems. apply in_or_app. right.
    rewrite <- E. apply in_map, Hr.
  - intros r Hr E. apply Hitems. apply in_or_app. left.
    rewrite <- E. apply in_map, Hr.
Qed.

Ltac outcomes_agree :=
  split;
  [ reflexivity
  | let e := fresh "e" in
    let H := fresh "H" in
    intros e; split; intros H;
    first [discriminate H | injection H as <-; reflexivity] ].

Lemma add_stock_safe_meets_contract (fault : db_op -> bool) (today : Z)
    (item : string) (qty threshold unit_cost : Q) (db : Store) :
  (forall op, fault op = false) ->
  stock_keys_ok (stock db) ->
  add_stock_safe fault today (Some item) (Some qty) (Some threshold) (Some unit_cost) db
  = (mkStore (sales db)
             (fst (upsert_stock_contract today item qty threshold unit_cost (stock db))),
     ok (snd (upsert_stock_contract today item qty threshold unit_cost (stock db)))).
Proof.
  intros Hf Hkeys. unfold upsert_stock_contract.
  destruct (find (item_is item) (stock db)) as [st|] eqn:Hfind.
  - destruct (find_item_split _ _ _ Hfind) as [Hitem (pre & post & Hsplit)].
    subst item. cbn [fst snd].
    rewrite (upsert_existing_row fault today qty threshold unit_cost pre post st db
               Hf Hsplit Hkeys).
    rewrite Hsplit in *.
    rewrite (update_by_item_unique
               (fun r => mkStock (stock_id r) (stock_item st) qty threshold unit_cost today)
               pre post st Hkeys).
    reflexivity.
  - cbn [fst snd]. apply upsert_absent_row; assumption.
Qed.

(** C9. The two definitions of [StockService.update_stock] and
    [BillingService.add_stock_safe] leave the store in the same state on
    every input and under every failure of the persistence layer, and
    they fail together; with the persistence layer working and unique
    keys that state is the one the upsert contract describes. *)
Theorem stock_upserts_agree_on_the_store
    (fault : db_op -> bool) (today : Z)
    (item : option string) (qty threshold unit_cost : option Q) (db : Store) :
  fst (update_stock_first fault today item qty threshold unit_cost db)
  = fst (update_stock fault today item qty threshold unit_cost db) /\
  fst (update_stock fault today item qty threshold unit_cost db)
  = fst (add_stock_safe fault today item qty threshold unit_cost db) /\
  (forall e,
      snd (update_stock fault today item qty threshold unit_cost db) = raise e <->
      snd (add_stock_safe fault today item qty threshold unit_cost db) = raise e) /\
  (forall i q t c,
      item = Some i -> qty = Some q -> threshold = Some t -> unit_cost = Some c ->
      (forall op, fault op = false) -> stock_keys_ok (stock db) ->
      stock (fst (update_stock fault today item qty threshold unit_cost db))
      = fst (upsert_stock_contract today i q t c (stock db)) /\
      sales (fst (update_stock fault today item qty threshold unit_cost db)) = sales db).
Proof.
  assert (fst (update_stock fault today item qty threshold unit_cost db)
          = fst (add_stock_safe fault today item qty threshold unit_cost db) /\
          (forall e,
              snd (update_stock fault today item qty threshold unit_cost db) = raise e <->
              snd (add_stock_safe fault today item qty threshold unit_cost db) = raise e))
    as [Hsame Hfail].
  { unfold update_stock, add_stock_safe. session_unfold.
    destruct (fault OpQueryStock); cbn; [outcomes_agree|].
    destruct item as [i|]; cbn.
    - destruct (find (item_is i) (stock db)) as [st|]; cbn.
      + destruct qty as [q|], threshold as [t|], unit_cost as [c|]; cbn;
          destruct (fault OpUpdateStock); cbn; try outcomes_agree;
          destruct (fault OpCommit); cbn; outcomes_agree.
      + destruct (fault OpInsertStock); cbn; [outcomes_agree|].
        destruct qty as [q|], threshold as [t|], unit_cost as [c|]; cbn;
          try outcomes_agree.
        destruct (existsb (item_is i) (stock db)); cbn; [outcomes_agree|].
        destruct (fault OpCommit); cbn; outcomes_agree.
    - destruct (fault OpInsertStock); cbn; outcomes_agree. }
  split; [reflexivity|]. split; [exact Hsame|]. split; [exact Hfail|].
  intros i q t c -> -> -> -> Hf Hkeys. rewrite Hsame.
  rewrite (add_stock_safe_meets_contract fault today i q t c db Hf Hkeys).
  split; reflexivity.
Qed.

Lemma stock_upserts_agree_on_the_store_witness :
  stock (fst (update_stock no_fault 19001 (Some "Sugar"%string) (Some 7%Q) (Some 5%Q)
                (Some 41%Q) sugar_store))
  = [mkStock 1 "Sugar" 7 5 41 19001] /\
  fst (update_stock_first no_fault 19001 (Some "Sugar"%string) (Some 7%Q) (Some 5%Q)
         (Some 41%Q) sugar_store)
  = fst (add_stock_safe no_fault 19001 (Some "Sugar"%string) (Some 7%Q) (Some 5%Q)
           (Some 41%Q) sugar_store).
Proof.
  destruct (stock_upserts_agree_on_the_store no_fault 19001 (Some "Sugar"%string)
              (Some 7%Q) (Some 5%Q) (Some 41%Q) sugar_store)
    as (H12 & H23 & _ & Hc).
  split.
  - rewrite (proj1 (Hc "Sugar"%string 7%Q 5%Q 41%Q eq_refl eq_refl eq_refl eq_refl
                      (fun _ => eq_refl) sugar_store_keys_ok)).
    reflexivity.
  - rewrite H12. exact H23.
Defined.

(** ** [get_sales_forecast] *)

Lemma py_or_zero (r : option Q) :
  (py_or r 0 == match r with Some x => x | None => 0 end)%Q.
Proof.
  destruct r as [x|]; simpl; [|reflexivity].
  destruct (Qeq_bool x 0) eqn:E; [|reflexivity].
  apply Qeq_bool_iff in E. symmetry. exact E.
Qed.

(** C8, as stated, fails: with two sales of 100 and 50 on one day the
    code answers 525, seven times the mean of the two sale totals, while
    seven times the mean of the per-day totals is 1050 (over the days
    that have sales) or 150 (over seven calendar days). *)
Lemma forecast_is_not_a_mean_of_daily_totals :
  (get_sales_forecast 19000 two_sales_one_day == 525)%Q /\
  (forecast_per_day 19000 two_sales_one_day == 1050)%Q /\
  (forecast_per_calendar_day 19000 two_sales_one_day == 150)%Q /\
  ~ (get_sales_forecast 19000 two_sales_one_day
     == forecast_per_day 19000 two_sales_one_day)%Q /\
  ~ (get_sales_forecast 19000 two_sales_one_day
     == forecast_per_calendar_day 19000 two_sales_one_day)%Q.
Proof.
  repeat split; try (vm_compute; reflexivity);
    intros H; vm_compute in H; discriminate H.
Qed.

(** C8, amended.  [get_sales_forecast] returns seven times the mean of
    the [total] of the sale rows dated on or after the day seven days
    before today (each sale counts once, days are not added up first);
    when no sale row is in that window it returns exactly 0. *)
Theorem forecast_is_seven_times_mean_sale_total (today : Z) (db : Store) :
  match forecast_window today db with
  | [] => get_sales_forecast today db = 0%Q
  | w =>
      (get_sales_forecast today db
       == Qsum (map sale_total w) / inject_Z (Z.of_nat (length w)) * 7)%Q
  end /\
  (forall s, In s (forecast_window today db) <->
             In s (sales db) /\ (today - 7 <= sale_date s)%Z).
Proof.
  split.
  - unfold get_sales_forecast.
    destruct (forecast_window today db) as [|s w] eqn:Hw; [reflexivity|].
    rewrite py_or_zero. cbn [map sql_avg length]. rewrite List.length_map.
    apply Qeq_refl.
  - intros s. unfold forecast_window. rewrite filter_In, Z.leb_le. reflexivity.
Qed.

Lemma forecast_is_seven_times_mean_sale_total_witness :
  forecast_window 19000 old_sales_only = [] /\
  get_sales_forecast 19000 old_sales_only = 0%Q.
Proof.
  split; [reflexivity|].
  exact (proj1 (forecast_is_seven_times_mean_sale_total 19000 old_sales_only)).
Defined.


(** The forecast on a store with no sale row at all. *)
Example forecast_on_empty_store (today : Z) :
  get_sales_forecast today (mkStore [] []) = 0%Q.
Proof. reflexivity. Qed.

(** * Further properties *)

(** ** [_clean_cols] *)

Lemma clean_col_map (c : string) :
  clean_col c = PyStr.map_string clean_char (PyStr.strip c).
Proof.
  unfold clean_col, PyStr.replace, PyStr.lower.
  induction (PyStr.strip c) as [|a s IH]; simpl; [reflexivity|].
  rewrite IH. reflexivity.
Qed.

Lemma clean_char_idempotent (x : ascii) : clean_char (clean_char x) = clean_char x.
Proof. destruct x as [[] [] [] [] [] [] [] []]; vm_compute; reflexivity. Qed.

Lemma clean_char_not_space (x : ascii) :
  PyStr.is_space x = false -> PyStr.is_space (clean_char x) = false.
Proof. destruct x as [[] [] [] [] [] [] [] []]; vm_compute; congruence. Qed.

Lemma rstrip_last (s : string) (d : ascii) :
  PyStr.rstrip s = EmptyString \/
  PyStr.is_space (last_char (PyStr.rstrip s) d) = false.
Proof.
  revert d. induction s as [|a s IH]; intros d; [left; reflexivity|].
  cbn [PyStr.rstrip]. destruct (PyStr.rstrip s) as [|b u] eqn:Hs.
  - destruct (PyStr.is_space a) eqn:Ha; [left; reflexivity|].
    right. simpl. exact Ha.
  - right. destruct (IH a) as [H | H]; [discriminate H|]. exact H.
Qed.

Lemma rstrip_head (a : ascii) (s : string) :
  PyStr.is_space a = false -> exists t, PyStr.rstrip (String a s) = String a t.
Proof.
  intros Ha. cbn [PyStr.rstrip]. destruct (PyStr.rstrip s) as [|b u].
  - rewrite Ha. eauto.
  - eauto.
Qed.

Lemma lstrip_head (s : string) :
  PyStr.lstrip s = EmptyString \/
  exists a t, PyStr.lstrip s = String a t /\ PyStr.is_space a = false.
Proof.
  induction s as [|a s IH]; [left; reflexivity|].
  cbn [PyStr.lstrip]. destruct (PyStr.is_space a) eqn:Ha; [exact IH|].
  right. exists a, s. auto.
Qed.

(** What [strip] returns is empty or has no whitespace at either end. *)
Lemma strip_shape (s : string) :
  PyStr.strip s = EmptyString \/
  exists a t, PyStr.strip s = String a t /\ PyStr.is_space a = false /\
              PyStr.is_space (last_char t a) = false.
Proof.
  unfold PyStr.strip. destruct (lstrip_head s) as [-> | (a & u & -> & Ha)];
    [left; reflexivity|].
  right. destruct (rstrip_head a u Ha) as [t Ht].
  exists a, t. split; [exact Ht|]. split; [exact Ha|].
  destruct (rstrip_last (String a u) a) as [H | H].
  - rewrite Ht in H. discriminate H.
  - rewrite Ht in H. exact H.
Qed.

Lemma strip_fixed (a : ascii) (t : string) :
  PyStr.is_space a = false -> PyStr.is_space (last_char t a) = false ->
  PyStr.strip (String a t) = String a t.
Proof.
  intros Ha Hl. unfold PyStr.strip. cbn [PyStr.lstrip]. rewrite Ha.
  apply rstrip_fixed, Hl.
Qed.

Lemma last_char_map (g : ascii -> ascii) (t : string) (a : ascii) :
  last_char (PyStr.map_string g t) (g a) = g (last_char t a).
Proof.
  revert a. induction t as [|b t IH]; intros a; simpl; [reflexivity|]. apply IH.
Qed.

Lemma map_clean_char_idempotent (t : string) :
  PyStr.map_string clean_char (PyStr.map_string clean_char t)
  = PyStr.map_string clean_char t.
Proof.
  induction t as [|b t IH]; simpl; [reflexivity|].
  rewrite clean_char_idempotent, IH. reflexivity.
Qed.

Lemma clean_col_idempotent (c : string) : clean_col (clean_col c) = clean_col c.
Proof.
  rewrite (clean_col_map c).
  destruct (strip_shape c) as [-> | (a & t & -> & Ha & Hl)]; [reflexivity|].
  cbn [PyStr.map_string]. rewrite clean_col_map.
  rewrite strip_fixed.
  - cbn [PyStr.map_string].
    rewrite clean_char_idempotent, map_clean_char_idempotent. reflexivity.
  - apply clean_char_not_space, Ha.
  - rewrite last_char_map. apply clean_char_not_space, Hl.
Qed.

(** X1. Cleaning headers twice is cleaning them once: a cleaned header
    has no whitespace around it, no capital letter, no space and no
    hyphen left, so [_clean_cols] leaves it as it is. *)
Theorem clean_cols_idempotent (cols : list string) :
  _clean_cols (_clean_cols cols) = _clean_cols cols /\
  length (_clean_cols cols) = length cols.
Proof.
  unfold _clean_cols. split; [|apply List.length_map].
  rewrite map_map. apply map_ext. intros c. apply clean_col_idempotent.
Qed.

(** ** [_rename_with_synonyms] on arbitrary mappings *)

Lemma match_fold_none (mapping : list (string * list string)) (c : string)
    (acc : option string) :
  (forall e, In e mapping -> header_matches (fst e) (snd e) c = false) ->
  fold_left (match_step c) mapping acc = acc.
Proof.
  revert acc. induction mapping as [|e mapping IH]; intros acc H; simpl; [reflexivity|].
  rewrite IH by (intros e' He'; apply H; right; exact He').
  unfold match_step. rewrite (H e) by (left; reflexivity). reflexivity.
Qed.

Lemma match_fold_some (mapping : list (string * list string)) (c : string)
    (acc : option string) (t : string) :
  fold_left (match_step c) mapping acc = Some t ->
  acc = Some t \/
  exists e, In e mapping /\ header_matches (fst e) (snd e) c = true /\ fst e = t.
Proof.
  revert acc. induction mapping as [|e mapping IH]; intros acc H; simpl in *; [auto|].
  destruct (IH _ H) as [Hacc | (e' & He' & Hm & Ht)].
  - unfold match_step in Hacc.
    destruct (header_matches (fst e) (snd e) c) eqn:Hm; [|auto].
    right. exists e. injection Hacc as <-. auto.
  - right. exists e'. auto.
Qed.

(** X2. [_rename_with_synonyms] keeps every column in its place and
    leaves the data alone, and the label of each column is determined:
    when no entry of the mapping accepts the cleaned header, the label is
    the cleaned header; otherwise it is the target of the last entry, in
    the order of the mapping, that accepts it. *)
Theorem rename_keeps_columns_in_place (df : DataFrame)
    (mapping : list (string * list string)) :
  length (columns (_rename_with_synonyms df mapping)) = length (columns df) /\
  rows (_rename_with_synonyms df mapping) = rows df /\
  forall i h, nth_error (columns df) i = Some h ->
    exists lbl,
      nth_error (columns (_rename_with_synonyms df mapping)) i = Some lbl /\
      ((forall e, In e mapping -> header_matches (fst e) (snd e) (clean_col h) = false) ->
       lbl = clean_col h) /\
      (forall pre e post,
         mapping = pre ++ e :: post ->
         header_matches (fst e) (snd e) (clean_col h) = true ->
         (forall e', In e' post ->
            header_matches (fst e') (snd e') (clean_col h) = false) ->
         lbl = fst e).
Proof.
  rewrite rename_with_synonyms_columns, rename_with_synonyms_rows.
  unfold _clean_cols. rewrite !List.length_map.
  split; [reflexivity|]. split; [reflexivity|].
  intros i h Hi. exists (resolve mapping (clean_col h)).
  rewrite !nth_error_map, Hi. split; [reflexivity|].
  unfold resolve, last_match.
  change (fun acc entry => if header_matches (fst entry) (snd entry) (clean_col h)
                           then Some (fst entry) else acc)
    with (match_step (clean_col h)).
  split.
  - intros Hnone. rewrite match_fold_none by exact Hnone. reflexivity.
  - intros pre e post -> Hm Hpost. rewrite fold_left_app. cbn [fold_left].
    rewrite match_fold_none by exact Hpost.
    unfold match_step at 1. rewrite Hm. reflexivity.
Qed.

(** ** When the normalisers raise *)

Lemma fold_ensure_present (dflt : string -> cell) (fields : list string)
    (df : DataFrame) (a : string) :
  positions a (columns df) 0 <> [] ->
  positions a (columns (fold_left (ensure_col dflt) fields df)) 0
  = positions a (columns df) 0.
Proof.
  revert df. induction fields as [|c fields IH]; intros df Ha; simpl; [reflexivity|].
  rewrite IH; rewrite ensure_col_positions_present by assumption;
    [reflexivity | assumption].
Qed.

Lemma fold_ensure_absent (dflt : string -> cell) (fields : list string)
    (df : DataFrame) (a : string) :
  In a fields -> positions a (columns df) 0 = [] ->
  exists j, positions a (columns (fold_left (ensure_col dflt) fields df)) 0 = [j].
Proof.
  revert df. induction fields as [|c fields IH]; intros df Hin Ha; [contradiction|].
  simpl. destruct (String.eqb a c) eqn:E.
  - apply String.eqb_eq in E. subst c.
    destruct (ensure_col_positions_new dflt df a Ha) as [Hnew _].
    exists (length (columns df)).
    rewrite fold_ensure_present; rewrite Hnew; [reflexivity | discriminate].
  - apply String.eqb_neq in E. destruct Hin as [-> | Hin]; [congruence|].
    apply IH; [exact Hin|].
    rewrite ensure_col_positions_other by exact E. exact Ha.
Qed.

(** In the prepared frame a field is named by several columns exactly
    when it was after the renaming. *)
Lemma prepared_field_count (dflt : string -> cell) (fields : list string)
    (mapping : list (string * list string)) (df : DataFrame) (a : string) :
  In a fields ->
  (length (positions a (columns (prepare dflt fields mapping df)) 0) <> 1%nat <->
   (2 <= length (positions a (columns (_rename_with_synonyms df mapping)) 0))%nat).
Proof.
  intros Hin. unfold prepare.
  destruct (positions a (columns (_rename_with_synonyms df mapping)) 0) as [|p ps] eqn:E.
  - destruct (fold_ensure_absent dflt fields _ a Hin E) as [j ->]. simpl. lia.
  - rewrite fold_ensure_present by (rewrite E; discriminate). rewrite E.
    simpl. lia.
Qed.

(** ** Normal form of the Inventory normaliser *)

Section InventoryForms.

Variable parse_numeric : string -> option Q.
Variable str_of_num : Q -> string.

Lemma normalize_inventory_stages (df : DataFrame) :
  _normalize_inventory_df parse_numeric str_of_num df
  = inventory_stages parse_numeric str_of_num
      (prepare inventory_default inventory_fields inventory_mapping df).
Proof. reflexivity. Qed.

Lemma inventory_stages_ok (P : DataFrame) (i j k l : nat) :
  positions "item" (columns P) 0 = [i] ->
  positions "qty" (columns P) 0 = [j] ->
  positions "threshold" (columns P) 0 = [k] ->
  positions "unit_cost" (columns P) 0 = [l] ->
  inventory_stages parse_numeric str_of_num P
  = ok (inventory_out parse_numeric str_of_num i j k l P).
Proof.
  intros Hi Hj Hk Hl.
  assert (i <> j) as Hij by (eapply positions_distinct; [|exact Hi|exact Hj]; discriminate).
  assert (i <> k) as Hik by (eapply positions_distinct; [|exact Hi|exact Hk]; discriminate).
  assert (i <> l) as Hil by (eapply positions_distinct; [|exact Hi|exact Hl]; discriminate).
  assert (j <> k) as Hjk by (eapply positions_distinct; [|exact Hj|exact Hk]; discriminate).
  assert (j <> l) as Hjl by (eapply positions_distinct; [|exact Hj|exact Hl]; discriminate).
  assert (k <> l) as Hkl by (eapply positions_distinct; [|exact Hk|exact Hl]; discriminate).
  unfold inventory_stages, inventory_out.
  stage str_col_ok Hi. stage num_col_ok Hj. stage num_col_ok Hk. stage num_col_ok Hl.
  stage keep_nonblank_ok Hi.
  unfold inventory_fields at 1.
  rewrite (select_single4 _ _ _ _ _ i j k l) by assumption.
  unfold ok. do 2 f_equal.
  cbn [rows filter_rows map_col].
  rewrite !map_map, filter_map_comm, map_map.
  rewrite (filter_ext_eq _
             (fun r => inventory_keep (inventory_row parse_numeric str_of_num i j k l r))).
  - apply map_ext. intros r. unfold inventory_row. cells. reflexivity.
  - intros r. cells. reflexivity.
Qed.

Lemma inventory_stages_cases (P : DataFrame) :
  (exists i j k l,
      positions "item" (columns P) 0 = [i] /\
      positions "qty" (columns P) 0 = [j] /\
      positions "threshold" (columns P) 0 = [k] /\
      positions "unit_cost" (columns P) 0 = [l] /\
      inventory_stages parse_numeric str_of_num P
      = ok (inventory_out parse_numeric str_of_num i j k l P))
  \/
  ((exists lbl, In lbl inventory_fields /\ length (positions lbl (columns P) 0) <> 1%nat) /\
   exists e, inventory_stages parse_numeric str_of_num P = raise e).
Proof.
  destruct (positions "item" (columns P) 0) as [|i [|i' ri]] eqn:Hi.
  1, 3: unfold inventory_stages; stage_raises str_col_raises "item"%string Hi.
  destruct (positions "qty" (columns P) 0) as [|j [|j' rj]] eqn:Hj.
  1, 3: unfold inventory_stages; stage str_col_ok Hi;
        stage_raises (num_col_raises parse_numeric) "qty"%string Hj.
  destruct (positions "threshold" (columns P) 0) as [|k [|k' rk]] eqn:Hk.
  1, 3: unfold inventory_stages; stage str_col_ok Hi; stage num_col_ok Hj;
        stage_raises (num_col_raises parse_numeric) "threshold"%string Hk.
  destruct (positions "unit_cost" (columns P) 0) as [|l [|l' rl]] eqn:Hl.
  1, 3: unfold inventory_stages; stage str_col_ok Hi; stage num_col_ok Hj;
        stage num_col_ok Hk;
        stage_raises (num_col_raises parse_numeric) "unit_cost"%string Hl.
  left. exists i, j, k, l. repeat (split; [reflexivity|]).
  apply inventory_stages_ok; assumption.
Qed.

End InventoryForms.

Lemma inventory_keep_spec (o : list cell) :
  inventory_keep o = true <-> exists s, get_cell 0 o = CStr s /\ s <> EmptyString.
Proof. unfold inventory_keep. apply str_len_gt0_spec. Qed.

Lemma sales_raises_iff_ambiguous
    (parse_numeric : string -> option Q) (str_of_num : Q -> string) (df : DataFrame) :
  (exists e, _normalize_sales_df parse_numeric str_of_num df = raise e) <->
  ambiguous sales_fields (columns (_rename_with_synonyms df sales_mapping)).
Proof.
  unfold ambiguous. split.
  - intros [e He]. rewrite normalize_sales_stages in He.
    destruct (sales_stages_cases parse_numeric str_of_num
                (prepare sales_default sales_fields sales_mapping df))
      as [(i & j & k & l & _ & _ & _ & _ & Hok) | [(lbl & Hin & Hn) _]].
    + rewrite Hok in He. discriminate He.
    + exists lbl. split; [exact Hin|]. apply prepared_field_count in Hn; assumption.
  - intros (lbl & Hin & Hn). rewrite normalize_sales_stages.
    apply (proj2 (prepared_field_count sales_default sales_fields sales_mapping df lbl Hin))
      in Hn.
    destruct (sales_stages_cases parse_numeric str_of_num
                (prepare sales_default sales_fields sales_mapping df))
      as [(i & j & k & l & Hi & Hj & Hk & Hl & _) | [_ He]]; [|exact He].
    exfalso. apply Hn. simpl in Hin.
    destruct Hin as [<- | [<- | [<- | [<- | []]]]];
      [rewrite Hi | rewrite Hj | rewrite Hk | rewrite Hl]; reflexivity.
Qed.

Lemma inventory_raises_iff_ambiguous
    (parse_numeric : string -> option Q) (str_of_num : Q -> string) (df : DataFrame) :
  (exists e, _normalize_inventory_df parse_numeric str_of_num df = raise e) <->
  ambiguous inventory_fields (columns (_rename_with_synonyms df inventory_mapping)).
Proof.
  unfold ambiguous. split.
  - intros [e He]. rewrite normalize_inventory_stages in He.
    destruct (inventory_stages_cases parse_numeric str_of_num
                (prepare inventory_default inventory_fields inventory_mapping df))
      as [(i & j & k & l & _ & _ & _ & _ & Hok) | [(lbl & Hin & Hn) _]].
    + rewrite Hok in He. discriminate He.
    + exists lbl. split; [exact Hin|]. apply prepared_field_count in Hn; assumption.
  - intros (lbl & Hin & Hn). rewrite normalize_inventory_stages.
    apply (proj2 (prepared_field_count inventory_default inventory_fields inventory_mapping df lbl Hin))
      in Hn.
    destruct (inventory_stages_cases parse_numeric str_of_num
                (prepare inventory_default inventory_fields inventory_mapping df))
      as [(i & j & k & l & Hi & Hj & Hk & Hl & _) | [_ He]]; [|exact He].
    exfalso. apply Hn. simpl in Hin.
    destruct Hin as [<- | [<- | [<- | [<- | []]]]];
      [rewrite Hi | rewrite Hj | rewrite Hk | rewrite Hl]; reflexivity.
Qed.

Lemma expenses_raises_iff_ambiguous
    (parse_numeric : string -> option Q) (str_of_num : Q -> string) (df : DataFrame) :
  (exists e, _normalize_expenses_df parse_numeric str_of_num df = raise e) <->
  ambiguous expenses_fields (columns (_rename_with_synonyms df expenses_mapping)).
Proof.
  unfold ambiguous. split.
  - intros [e He]. rewrite normalize_expenses_stages in He.
    destruct (expenses_stages_cases parse_numeric str_of_num
                (prepare expenses_default expenses_fields expenses_mapping df))
      as [(i & j & k & l & _ & _ & _ & _ & Hok) | [(lbl & Hin & Hn) _]].
    + rewrite Hok in He. discriminate He.
    + exists lbl. split; [exact Hin|]. apply prepared_field_count in Hn; assumption.
  - intros (lbl & Hin & Hn). rewrite normalize_expenses_stages.
    apply (proj2 (prepared_field_count expenses_default expenses_fields expenses_mapping df lbl Hin))
      in Hn.
    destruct (expenses_stages_cases parse_numeric str_of_num
                (prepare expenses_default expenses_fields expenses_mapping df))
      as [(i & j & k & l & Hi & Hj & Hk & Hl & _) | [_ He]]; [|exact He].
    exfalso. apply Hn. simpl in Hin.
    destruct Hin as [<- | [<- | [<- | [<- | []]]]];
      [rewrite Hi | rewrite Hj | rewrite Hk | rewrite Hl]; reflexivity.
Qed.

(** X3. Each normaliser raises exactly on the tables in which, after the
    renaming, some field of its schema is the label of two or more
    columns; on every other table it returns a frame. *)
Theorem normalisers_raise_exactly_on_ambiguous_headers
    (parse_numeric : string -> option Q) (str_of_num : Q -> string) (df : DataFrame) :
  ((exists e, _normalize_sales_df parse_numeric str_of_num df = raise e) <->
   ambiguous sales_fields (columns (_rename_with_synonyms df sales_mapping))) /\
  ((exists e, _normalize_inventory_df parse_numeric str_of_num df = raise e) <->
   ambiguous inventory_fields (columns (_rename_with_synonyms df inventory_mapping))) /\
  ((exists e, _normalize_expenses_df parse_numeric str_of_num df = raise e) <->
   ambiguous expenses_fields (columns (_rename_with_synonyms df expenses_mapping))).
Proof.
  split; [apply sales_raises_iff_ambiguous|].
  split; [apply inventory_raises_iff_ambiguous | apply expenses_raises_iff_ambiguous].
Qed.

(** ** Shape of the normalised rows *)

Section Shapes.

Variable parse_numeric : string -> option Q.
Variable str_of_num : Q -> string.

Lemma text_cell_is_text (c : cell) :
  exists s, str_strip (astype_str str_of_num c) = CStr s.
Proof. destruct c; simpl; eauto. Qed.

Lemma filled_text_cell_is_text (c : cell) :
  exists s, str_strip (fillna (CStr "") (astype_str str_of_num c)) = CStr s.
Proof. destruct c; simpl; eauto. Qed.

Lemma number_cell_is_number (v : Q) (c : cell) :
  exists q, fillna (CNum v) (to_numeric parse_numeric c) = CNum q.
Proof.
  destruct c as [s|q|]; simpl; eauto.
  destruct (parse_numeric s); simpl; eauto.
Qed.

Lemma sales_row_shape (i j k l : nat) (r : list cell) :
  sales_keep (sales_row parse_numeric str_of_num i j k l r) = true ->
  exists s q p c,
    sales_row parse_numeric str_of_num i j k l r = [CStr s; CNum q; CNum p; CStr c] /\
    s <> EmptyString /\ (0 < q)%Q.
Proof.
  intros H. apply sales_keep_spec in H as (s & q & Hs & Hne & Hq & Hpos).
  unfold sales_row in *.
  change (str_strip (astype_str str_of_num (get_cell i r)) = CStr s) in Hs.
  change (fillna (CNum 1) (to_numeric parse_numeric (get_cell j r)) = CNum q) in Hq.
  destruct (number_cell_is_number 0 (get_cell k r)) as [p Hp].
  destruct (filled_text_cell_is_text (get_cell l r)) as [c Hc].
  exists s, q, p, c. rewrite Hs, Hq, Hp, Hc. auto.
Qed.

Lemma inventory_row_shape (i j k l : nat) (r : list cell) :
  inventory_keep (inventory_row parse_numeric str_of_num i j k l r) = true ->
  exists s q t c,
    inventory_row parse_numeric str_of_num i j k l r = [CStr s; CNum q; CNum t; CNum c] /\
    s <> EmptyString.
Proof.
  intros H. apply inventory_keep_spec in H as (s & Hs & Hne).
  unfold inventory_row in *.
  change (str_strip (astype_str str_of_num (get_cell i r)) = CStr s) in Hs.
  destruct (number_cell_is_number 0 (get_cell j r)) as [q Hq].
  destruct (number_cell_is_number 0 (get_cell k r)) as [t Ht].
  destruct (number_cell_is_number 0 (get_cell l r)) as [c Hc].
  exists s, q, t, c. rewrite Hs, Hq, Ht, Hc. auto.
Qed.

Lemma expenses_row_shape (i j k l : nat) (r : list cell) :
  expenses_keep (expenses_row parse_numeric str_of_num i j k l r) = true ->
  exists s v a n,
    expenses_row parse_numeric str_of_num i j k l r = [CStr s; CStr v; CNum a; CStr n] /\
    s <> EmptyString /\ (0 < a)%Q.
Proof.
  intros H. apply expenses_keep_spec in H as (s & a & Hs & Hne & Ha & Hpos).
  unfold expenses_row in *.
  change (str_strip (astype_str str_of_num (get_cell i r)) = CStr s) in Hs.
  change (fillna (CNum 0) (to_numeric parse_numeric (get_cell k r)) = CNum a) in Ha.
  destruct (filled_text_cell_is_text (get_cell j r)) as [v Hv].
  destruct (filled_text_cell_is_text (get_cell l r)) as [n Hn].
  exists s, v, a, n. rewrite Hs, Ha, Hv, Hn. auto.
Qed.

Lemma map_filter_forall {A B} (f : A -> B) (p : B -> bool) (xs : list A) (o : B) :
  In o (map f (List.filter (fun r => p (f r)) xs)) -> p o = true.
Proof.
  intros H. apply in_map_iff in H as (r & <- & Hr).
  apply filter_In in Hr as [_ Hp]. exact Hp.
Qed.

End Shapes.

Ltac not_ambiguous :=
  let lbl := fresh "lbl" in
  let Hin := fresh "Hin" in
  let Hn := fresh "Hn" in
  intros (lbl & Hin & Hn); simpl in Hin;
  repeat (destruct Hin as [<- | Hin]; [vm_compute in Hn; lia|]);
  contradiction.

(** X4. On a table whose headers are not ambiguous the Inventory
    normaliser returns coerced input rows, in input order.  A row whose
    item cell holds a value is in the output if and only if that value,
    as text, is non-empty after trimming, and its output row is the
    trimmed text followed by the three numbers its quantity, threshold and
    unit-cost cells hold, each 0 when the cell is empty or does not read
    as a number: the numbers play no part in the selection.  Every output
    row is one non-empty text and three numbers. *)
Theorem normalize_inventory_keeps_rows_with_an_item
    (parse_numeric : string -> option Q) (str_of_num : Q -> string)
    (df : DataFrame) :
  ~ ambiguous inventory_fields (columns (_rename_with_synonyms df inventory_mapping)) ->
  let P := prepare inventory_default inventory_fields inventory_mapping df in
  exists out i j k l,
    _normalize_inventory_df parse_numeric str_of_num df = ok out /\
    positions "item" (columns P) 0 = [i] /\
    positions "qty" (columns P) 0 = [j] /\
    positions "threshold" (columns P) 0 = [k] /\
    positions "unit_cost" (columns P) 0 = [l] /\
    columns out = inventory_fields /\
    rows out
    = map (inventory_row parse_numeric str_of_num i j k l)
          (List.filter
             (fun r => inventory_keep (inventory_row parse_numeric str_of_num i j k l r))
             (rows P)) /\
    (forall r s, In r (rows P) ->
       cell_text str_of_num (get_cell i r) = Some s ->
       inventory_row parse_numeric str_of_num i j k l r
       = [CStr (PyStr.strip s);
          CNum (default 0%Q (cell_number parse_numeric (get_cell j r)));
          CNum (default 0%Q (cell_number parse_numeric (get_cell k r)));
          CNum (default 0%Q (cell_number parse_numeric (get_cell l r)))] /\
       (In (inventory_row parse_numeric str_of_num i j k l r) (rows out) <->
        PyStr.strip s <> EmptyString)) /\
    (forall o, In o (rows out) ->
       exists s q t c, o = [CStr s; CNum q; CNum t; CNum c] /\ s <> EmptyString).
Proof.
  intros Hamb P.
  destruct (inventory_raises_iff_ambiguous parse_numeric str_of_num df) as [Hraise _].
  rewrite normalize_inventory_stages in *. fold P in Hraise |- *.
  destruct (inventory_stages_cases parse_numeric str_of_num P)
    as [(i & j & k & l & Hi & Hj & Hk & Hl & Hok) | [_ He]];
    [|exfalso; exact (Hamb (Hraise He))].
  eexists _, i, j, k, l. split; [exact Hok|].
  repeat (split; [assumption || reflexivity|]).
  unfold inventory_out. cbn [rows]. split.
  - intros r s Hr Hs.
    assert (inventory_row parse_numeric str_of_num i j k l r
            = [CStr (PyStr.strip s);
               CNum (default 0%Q (cell_number parse_numeric (get_cell j r)));
               CNum (default 0%Q (cell_number parse_numeric (get_cell k r)));
               CNum (default 0%Q (cell_number parse_numeric (get_cell l r)))]) as Hrow.
    { unfold inventory_row. rewrite !number_cell_coerced.
      destruct (text_cell_coerced str_of_num _ _ Hs) as [-> _]. reflexivity. }
    split; [exact Hrow|].
    rewrite (in_map_filter_iff (inventory_row parse_numeric str_of_num i j k l)
               inventory_keep) by exact Hr.
    rewrite inventory_keep_spec, Hrow. cbn [get_cell nth]. split.
    + intros (s' & [= <-] & Hne). exact Hne.
    + intros Hne. eauto.
  - intros o Ho. pose proof Ho as Hkeep.
    apply (map_filter_forall (inventory_row parse_numeric str_of_num i j k l)
             inventory_keep) in Hkeep.
    apply in_map_iff in Ho as (r & <- & _).
    apply inventory_row_shape, Hkeep.
Qed.

Lemma normalize_inventory_keeps_rows_with_an_item_witness :
  ~ ambiguous inventory_fields
      (columns (_rename_with_synonyms inventory_table_mixed inventory_mapping)) /\
  exists out,
    _normalize_inventory_df parse_digits show_num inventory_table_mixed = ok out /\
    rows out = [[CStr "Tea"; CNum 0; CNum 5; CNum 0];
                [CStr "Rice"; CNum 0; CNum 2; CNum 0]].
Proof.
  assert (~ ambiguous inventory_fields
            (columns (_rename_with_synonyms inventory_table_mixed inventory_mapping)))
    as Hamb by not_ambiguous.
  split; [exact Hamb|].
  destruct (normalize_inventory_keeps_rows_with_an_item parse_digits show_num
              inventory_table_mixed Hamb)
    as (out & i & j & k & l & Hok & Hi & Hj & Hk & Hl & _ & Hrows & _).
  exists out. split; [exact Hok|].
  vm_compute in Hi, Hj, Hk, Hl.
  injection Hi as <-. injection Hj as <-. injection Hk as <-. injection Hl as <-.
  rewrite Hrows. vm_compute. reflexivity.
Defined.

(** X5. On a table whose headers are not ambiguous the Expenses
    normaliser returns coerced input rows, in input order.  The amount of
    a row is the number its amount cell holds, or 0 when the cell is
    empty or does not read as a number; a row whose amount is at most
    zero is never in the output.  A row whose category cell holds a value
    is in the output if and only if that value, as text, is non-empty
    after trimming and the amount is strictly positive; its output row
    carries the trimmed text and the amount.  Every output row is text,
    text, a positive number, text. *)
Theorem normalize_expenses_keeps_exactly_valid_rows
    (parse_numeric : string -> option Q) (str_of_num : Q -> string)
    (df : DataFrame) :
  ~ ambiguous expenses_fields (columns (_rename_with_synonyms df expenses_mapping)) ->
  let P := prepare expenses_default expenses_fields expenses_mapping df in
  exists out i j k l,
    _normalize_expenses_df parse_numeric str_of_num df = ok out /\
    positions "category" (columns P) 0 = [i] /\
    positions "vendor" (columns P) 0 = [j] /\
    positions "amount" (columns P) 0 = [k] /\
    positions "notes" (columns P) 0 = [l] /\
    columns out = expenses_fields /\
    rows out
    = map (expenses_row parse_numeric str_of_num i j k l)
          (List.filter
             (fun r => expenses_keep (expenses_row parse_numeric str_of_num i j k l r))
             (rows P)) /\
    (forall r, In r (rows P) ->
       let o := expenses_row parse_numeric str_of_num i j k l r in
       let a := default 0%Q (cell_number parse_numeric (get_cell k r)) in
       get_cell 2 o = CNum a /\
       ((a <= 0)%Q -> ~ In o (rows out)) /\
       forall s, cell_text str_of_num (get_cell i r) = Some s ->
         get_cell 0 o = CStr (PyStr.strip s) /\
         (In o (rows out) <-> PyStr.strip s <> EmptyString /\ (0 < a)%Q)) /\
    (forall o, In o (rows out) ->
       exists s v a n, o = [CStr s; CStr v; CNum a; CStr n] /\
                       s <> EmptyString /\ (0 < a)%Q).
Proof.
  intros Hamb P.
  destruct (expenses_raises_iff_ambiguous parse_numeric str_of_num df) as [Hraise _].
  rewrite normalize_expenses_stages in *. fold P in Hraise |- *.
  destruct (expenses_stages_cases parse_numeric str_of_num P)
    as [(i & j & k & l & Hi & Hj & Hk & Hl & Hok) | [_ He]];
    [|exfalso; exact (Hamb (Hraise He))].
  eexists _, i, j, k, l. split; [exact Hok|].
  repeat (split; [assumption || reflexivity|]).
  unfold expenses_out. cbn [rows]. split.
  - intros r Hr. cbv zeta.
    set (o := expenses_row parse_numeric str_of_num i j k l r).
    assert (In o (map (expenses_row parse_numeric str_of_num i j k l)
                    (List.filter
                       (fun r => expenses_keep
                                   (expenses_row parse_numeric str_of_num i j k l r))
                       (rows P)))
            <-> exists s q, get_cell 0 o = CStr s /\ s <> EmptyString /\
                            get_cell 2 o = CNum q /\ (0 < q)%Q) as Hin.
    { unfold o.
      rewrite (in_map_filter_iff (expenses_row parse_numeric str_of_num i j k l)
                 expenses_keep) by exact Hr.
      apply expenses_keep_spec. }
    assert (get_cell 2 o = CNum (default 0%Q (cell_number parse_numeric (get_cell k r))))
      as Ha by apply number_cell_coerced.
    split; [exact Ha|]. split.
    + intros Hle Ho. apply Hin in Ho as (s & q & _ & _ & Ha' & Hpos).
      rewrite Ha in Ha'. injection Ha' as <-. exact (Qlt_not_le _ _ Hpos Hle).
    + intros s Hs. destruct (text_cell_coerced str_of_num _ _ Hs) as [Ht _].
      assert (get_cell 0 o = CStr (PyStr.strip s)) as H0 by exact Ht.
      split; [exact H0|]. rewrite Hin. split.
      * intros (s' & q' & E0 & Hne & E1 & Hpos). rewrite H0 in E0. rewrite Ha in E1.
        injection E0 as <-. injection E1 as <-. auto.
      * intros [Hne Hpos]. eexists _, _. rewrite H0, Ha. auto.
  - intros o Ho. pose proof Ho as Hkeep.
    apply (map_filter_forall (expenses_row parse_numeric str_of_num i j k l)
             expenses_keep) in Hkeep.
    apply in_map_iff in Ho as (r & <- & _).
    apply expenses_row_shape, Hkeep.
Qed.

Lemma normalize_expenses_keeps_exactly_valid_rows_witness :
  ~ ambiguous expenses_fields
      (columns (_rename_with_synonyms expenses_table_mixed expenses_mapping)) /\
  exists out,
    _normalize_expenses_df parse_digits show_num expenses_table_mixed = ok out /\
    rows out = [[CStr "Fuel"; CStr "VendorX"; CNum 100; CStr ""]].
Proof.
  assert (~ ambiguous expenses_fields
            (columns (_rename_with_synonyms expenses_table_mixed expenses_mapping)))
    as Hamb by not_ambiguous.
  split; [exact Hamb|].
  destruct (normalize_expenses_keeps_exactly_valid_rows parse_digits show_num
              expenses_table_mixed Hamb)
    as (out & i & j & k & l & Hok & Hi & Hj & Hk & Hl & _ & Hrows & _).
  exists out. split; [exact Hok|].
  vm_compute in Hi, Hj, Hk, Hl.
  injection Hi as <-. injection Hj as <-. injection Hk as <-. injection Hl as <-.
  rewrite Hrows. vm_compute. reflexivity.
Defined.

(** ** The Sales import *)

Lemma stock_after_sale_keys (today : Z) (item : string) (qty : Q) (tbl : list Stock) :
  map stock_id (stock_after_sale today item qty tbl) = map stock_id tbl /\
  map stock_item (stock_after_sale today item qty tbl) = map stock_item tbl.
Proof.
  unfold stock_after_sale. destruct (find (item_is item) tbl) as [st|]; [|auto].
  rewrite !map_map. split; apply map_ext; intros r;
    destruct (Z.eqb (stock_id r) (stock_id st)); reflexivity.
Qed.

Lemma normalize_sales_rows_ok
    (parse_numeric : string -> option Q) (str_of_num : Q -> string)
    (df norm : DataFrame) :
  _normalize_sales_df parse_numeric str_of_num df = ok norm ->
  Forall sales_row_ok (rows norm).
Proof.
  intros H. rewrite normalize_sales_stages in H.
  destruct (sales_stages_cases parse_numeric str_of_num
              (prepare sales_default sales_fields sales_mapping df))
    as [(i & j & k & l & _ & _ & _ & _ & Hok) | [_ [e He]]].
  - rewrite Hok in H. injection H as <-. unfold sales_out. cbn [rows].
    apply List.Forall_forall. intros o Ho. pose proof Ho as Hkeep.
    apply (map_filter_forall (sales_row parse_numeric str_of_num i j k l) sales_keep)
      in Hkeep.
    apply in_map_iff in Ho as (r & <- & _).
    apply sales_row_shape, Hkeep.
  - rewrite He in H. discriminate H.
Qed.

Lemma import_loop_cons {T A : Type} (body : nat -> list cell -> T -> T * result A)
    (k : nat) (o : list cell) (norm : list (list cell)) (st : T) (n : nat) :
  import_loop body k (o :: norm) (st, n)
  = import_loop body (S k) norm
      match body k o st with
      | (st', inr _) => (st', S n)
      | (st', inl _) => (st', n)
      end.
Proof. reflexivity. Qed.

Lemma import_loop_app {T A : Type} (body : nat -> list cell -> T -> T * result A)
    (k : nat) (l1 l2 : list (list cell)) (acc : T * nat) :
  import_loop body k (l1 ++ l2) acc
  = import_loop body (k + length l1) l2 (import_loop body k l1 acc).
Proof.
  revert k acc. induction l1 as [|o l1 IH]; intros k acc; cbn [app import_loop length].
  - rewrite Nat.add_0_r. reflexivity.
  - rewrite IH. f_equal. lia.
Qed.

(** One row of the import: nothing changes, or one sale is appended and
    the stock table keeps its keys. *)
Lemma import_sales_row_outcome (fault : db_op -> bool) (today : Z)
    (o : list cell) (db : Store) :
  match import_sales_row fault today o db with
  | (db', inl _) => db' = db
  | (db', inr id) =>
      exists s, sales db' = sales db ++ [s] /\ sale_id s = id /\
                recorded_from today o s /\
                map stock_id (stock db') = map stock_id (stock db) /\
                map stock_item (stock db') = map stock_item (stock db)
  end.
Proof.
  unfold import_sales_row, recorded_from.
  destruct (get_cell 0 o) as [item| |]; try reflexivity.
  destruct (get_cell 1 o) as [|q|]; try reflexivity.
  destruct (get_cell 2 o) as [|p|]; try reflexivity.
  destruct (get_cell 3 o) as [c| |]; try reflexivity.
  pose proof (add_sale_outcome fault today (Some item) (Some q) (Some p)
                (Some (q * p)%Q) (Some c) db) as H.
  destruct (add_sale fault today (Some item) (Some q) (Some p) (Some (q * p)%Q)
              (Some c) db) as [db' [e|id]]; [exact H|].
  destruct H as (i' & q' & p' & t' & [= <-] & [= <-] & [= <-] & [= <-] & Hid & Hs & Hst).
  eexists. split; [exact Hs|]. cbn. split; [reflexivity|].
  split; [exists c; auto 10|].
  rewrite Hst. apply stock_after_sale_keys.
Qed.

Section SalesImportFacts.

Variable fault : nat -> db_op -> bool.
Variable today : Z.

(** The loop, from any row number and any starting count. *)
Lemma import_sales_loop (norm : list (list cell)) (k0 : nat) (db : Store) (n0 : nat) :
  let r := import_loop (fun k => import_sales_row (fault k) today) k0 norm (db, n0) in
  exists new,
    sales (fst r) = sales db ++ new /\
    snd r = (n0 + length new)%nat /\
    (length new <= length norm)%nat /\
    map stock_id (stock (fst r)) = map stock_id (stock db) /\
    map stock_item (stock (fst r)) = map stock_item (stock db) /\
    Forall (fun s => exists o, In o norm /\ recorded_from today o s) new.
Proof.
  cbv zeta.
  revert k0 db n0. induction norm as [|o norm IH]; intros k0 db n0.
  - exists []. cbn. rewrite app_nil_r, Nat.add_0_r. auto 10.
  - pose proof (import_sales_row_outcome (fault k0) today o db) as Hrow.
    rewrite import_loop_cons.
    destruct (import_sales_row (fault k0) today o db) as [db1 [e|id]].
    + subst db1. destruct (IH (S k0) db n0) as (new & H1 & H2 & H3 & H4 & H5 & H6).
      exists new. repeat (split; [assumption || (cbn; lia)|]).
      eapply List.Forall_impl; [|exact H6].
      intros s (o' & Ho' & Hr). exists o'. split; [right; exact Ho' | exact Hr].
    + destruct Hrow as (s & Hs & _ & Hrec & Hids & Hitems).
      destruct (IH (S k0) db1 (S n0)) as (new & H1 & H2 & H3 & H4 & H5 & H6).
      exists (s :: new). rewrite H1, Hs, <- app_assoc. cbn.
      split; [reflexivity|]. split; [lia|]. split; [lia|].
      split; [congruence|]. split; [congruence|].
      apply List.Forall_cons; [exists o; split; [left; reflexivity | exact Hrec]|].
      eapply List.Forall_impl; [|exact H6].
      intros s' (o' & Ho' & Hr). exists o'. split; [right; exact Ho' | exact Hr].
Qed.

Lemma import_sales_rows_loop (norm : list (list cell)) (db : Store) :
  import_sales_rows fault today norm db
  = import_loop (fun k => import_sales_row (fault k) today) 0 norm (db, 0%nat).
Proof. reflexivity. Qed.

End SalesImportFacts.

Lemma recorded_sale_ok (today : Z) (o : list cell) (s : Sale) :
  sales_row_ok o -> recorded_from today o s -> sale_ok today s.
Proof.
  intros (s0 & q & p & c & -> & Hne & Hpos) (c' & H0 & H1 & _ & _ & _ & Ht & Hd).
  cbn in H0, H1. injection H0 as E0. injection H1 as E1.
  unfold sale_ok. rewrite E0 in Hne. rewrite E1 in Hpos. auto.
Qed.

Lemma import_sales_loop_complete (fault : nat -> db_op -> bool) (today : Z)
    (norm : list (list cell)) (k0 : nat) (db : Store) (n0 : nat) :
  (forall k op, fault k op = false) ->
  Forall sales_row_ok norm ->
  exists new,
    sales (fst (import_loop (fun k => import_sales_row (fault k) today) k0 norm (db, n0)))
    = sales db ++ new /\
    snd (import_loop (fun k => import_sales_row (fault k) today) k0 norm (db, n0))
    = (n0 + length norm)%nat /\
    Forall2 (recorded_from today) norm new.
Proof.
  intros Hf. revert k0 db n0. induction norm as [|o norm IH]; intros k0 db n0 Hok.
  - exists []. cbn. rewrite app_nil_r, Nat.add_0_r. repeat split; constructor.
  - apply Forall_cons_iff in Hok as [Ho Hok].
    rewrite import_loop_cons.
    pose proof (import_sales_row_outcome (fault k0) today o db) as Hrow.
    assert (exists db1 id, import_sales_row (fault k0) today o db = (db1, inr id))
      as (db1 & id & E).
    { destruct Ho as (s & q & p & c & -> & _ & _). unfold import_sales_row. cbn.
      apply add_sale_returns, Hf. }
    rewrite E in *. cbv beta iota. destruct Hrow as (s & Hs & _ & Hrec & _).
    destruct (IH (S k0) db1 (S n0) Hok) as (new & H1 & H2 & H3).
    exists (s :: new). rewrite H1, H2, Hs, <- app_assoc. cbn.
    split; [reflexivity|]. split; [lia|]. constructor; assumption.
Qed.

(** X6. Whichever of the per-row calls of [add_sale] fail, and wherever
    each of them fails (every row runs in a session of its own, with its
    own failures), a Sales import only appends to the sales table: the
    sales present before are untouched, the reported count is the number
    of sales appended and is at most the number of normalised rows, the
    stock table keeps its ids and items,
    and every appended sale has a non-empty item, a positive quantity,
    total = quantity * unit price and today's date.  A failure of the
    normaliser changes nothing. *)
Theorem sales_import_only_appends_valid_sales
    (parse_numeric : string -> option Q) (str_of_num : Q -> string)
    (fault : nat -> db_op -> bool) (today : Z) (df : DataFrame) (db : Store) :
  (forall e,
      snd (process_csv_upload_sales parse_numeric str_of_num fault today df db) = raise e ->
      _normalize_sales_df parse_numeric str_of_num df = raise e /\
      fst (process_csv_upload_sales parse_numeric str_of_num fault today df db) = db) /\
  (forall n,
      snd (process_csv_upload_sales parse_numeric str_of_num fault today df db) = ok n ->
      exists norm new,
        _normalize_sales_df parse_numeric str_of_num df = ok norm /\
        sales (fst (process_csv_upload_sales parse_numeric str_of_num fault today df db))
        = sales db ++ new /\
        length new = n /\ (n <= length (rows norm))%nat /\
        map stock_id
          (stock (fst (process_csv_upload_sales parse_numeric str_of_num fault today df db)))
        = map stock_id (stock db) /\
        map stock_item
          (stock (fst (process_csv_upload_sales parse_numeric str_of_num fault today df db)))
        = map stock_item (stock db) /\
        Forall (sale_ok today) new).
Proof.
  unfold process_csv_upload_sales.
  destruct (_normalize_sales_df parse_numeric str_of_num df) as [e|norm] eqn:Hn.
  - split; [intros e' [= <-]; auto | intros n H; discriminate H].
  - pose proof (normalize_sales_rows_ok _ _ _ _ Hn) as Hrows.
    rewrite import_sales_rows_loop.
    destruct (import_sales_loop fault today (rows norm) 0 db 0)
      as (new & H1 & H2 & H3 & H4 & H5 & H6).
    destruct (import_loop _ 0 (rows norm) (db, 0%nat)) as [db' k]. cbn [fst snd] in *.
    split; [intros e H; discriminate H|].
    intros n [= <-]. exists norm, new.
    repeat (split; [assumption || reflexivity || lia|]).
    apply List.Forall_forall. intros s Hs.
    rewrite List.Forall_forall in H6. destruct (H6 s Hs) as (o & Ho & Hrec).
    rewrite List.Forall_forall in Hrows.
    exact (recorded_sale_ok today o s (Hrows o Ho) Hrec).
Qed.

(** The calls fail independently: when only the call for the second of
    two rows fails, at its commit, the first row is recorded and the
    second is not. *)
Example sales_import_second_row_fails :
  process_csv_upload_sales parse_digits show_num
    (fun k => if Nat.eqb k 1 then commit_fails else no_fault) 19001
    sales_table_two_rows (mkStore [] [])
  = (mkStore [mkSale 1 "Tea" 2 5 (2 * 5) (Some ""%string) 19001] [], ok 1%nat).
Proof. vm_compute. reflexivity. Qed.

(** X7. With the persistence layer working, a Sales import records
    every normalised row, in file order: the count is the number of
    normalised rows and the k-th appended sale carries the item,
    quantity, unit price and customer of the k-th row, with
    total = quantity * unit price and today's date. *)
Theorem sales_import_records_every_row
    (parse_numeric : string -> option Q) (str_of_num : Q -> string)
    (fault : nat -> db_op -> bool) (today : Z) (df norm : DataFrame) (db : Store) :
  (forall k op, fault k op = false) ->
  _normalize_sales_df parse_numeric str_of_num df = ok norm ->
  exists db' new,
    process_csv_upload_sales parse_numeric str_of_num fault today df db
    = (db', ok (length (rows norm))) /\
    sales db' = sales db ++ new /\
    Forall2 (recorded_from today) (rows norm) new.
Proof.
  intros Hf Hn. unfold process_csv_upload_sales. rewrite Hn.
  unfold ok. cbv beta iota. rewrite import_sales_rows_loop.
  destruct (import_sales_loop_complete fault today (rows norm) 0 db 0 Hf
              (normalize_sales_rows_ok _ _ _ _ Hn)) as (new & H1 & H2 & H3).
  destruct (import_loop _ 0 (rows norm) (db, 0%nat)) as [db' k]. cbn [fst snd] in *.
  exists db', new. subst k. auto.
Qed.

Lemma sales_import_records_every_row_witness :
  (forall (k : nat) op, no_fault op = false) /\
  _normalize_sales_df parse_digits show_num sales_table_mixed
  = ok (mkDF sales_fields [[CStr "Tea"; CNum 2; CNum 5; CStr ""]]) /\
  exists db' new,
    process_csv_upload_sales parse_digits show_num (fun _ => no_fault) 19001
      sales_table_mixed sugar_store = (db', ok 1%nat) /\
    sales db' = sales sugar_store ++ new /\
    Forall2 (recorded_from 19001) [[CStr "Tea"; CNum 2; CNum 5; CStr ""]] new.
Proof.
  assert (_normalize_sales_df parse_digits show_num sales_table_mixed
          = ok (mkDF sales_fields [[CStr "Tea"; CNum 2; CNum 5; CStr ""]])) as Hn
    by (vm_compute; reflexivity).
  split; [reflexivity|]. split; [exact Hn|].
  exact (sales_import_records_every_row parse_digits show_num (fun _ => no_fault) 19001
           sales_table_mixed _ sugar_store (fun _ _ => eq_refl) Hn).
Defined.

(** ** The Inventory import *)

Lemma normalize_inventory_rows_ok
    (parse_numeric : string -> option Q) (str_of_num : Q -> string)
    (df norm : DataFrame) :
  _normalize_inventory_df parse_numeric str_of_num df = ok norm ->
  Forall inventory_row_ok (rows norm).
Proof.
  intros H. rewrite normalize_inventory_stages in H.
  destruct (inventory_stages_cases parse_numeric str_of_num
              (prepare inventory_default inventory_fields inventory_mapping df))
    as [(i & j & k & l & _ & _ & _ & _ & Hok) | [_ [e He]]].
  - rewrite Hok in H. injection H as <-. unfold inventory_out. cbn [rows].
    apply List.Forall_forall. intros o Ho. pose proof Ho as Hkeep.
    apply (map_filter_forall (inventory_row parse_numeric str_of_num i j k l)
             inventory_keep) in Hkeep.
    apply in_map_iff in Ho as (r & <- & _).
    apply inventory_row_shape, Hkeep.
  - rewrite He in H. discriminate H.
Qed.

Lemma filter_other_item (item i : string) (l : list Stock) (x : Stock) :
  stock_item x = i -> item <> i ->
  List.filter (item_is item) (x :: l) = List.filter (item_is item) l.
Proof.
  intros Hx Hne. cbn. unfold item_is at 1. rewrite Hx.
  rewrite (proj2 (String.eqb_neq i item)) by congruence. reflexivity.
Qed.

(** One upsert with the persistence layer working: the item ends up with
    one row carrying the given values, every other item keeps its rows. *)
Lemma upsert_row_effect (fault : db_op -> bool) (today : Z)
    (i : string) (q t c : Q) (db : Store) :
  (forall op, fault op = false) ->
  stock_keys_ok (stock db) ->
  exists db2 id created,
    add_stock_safe fault today (Some i) (Some q) (Some t) (Some c) db
    = (db2, inr (id, created)) /\
    sales db2 = sales db /\
    stock_keys_ok (stock db2) /\
    List.filter (item_is i) (stock db2) = [mkStock id i q t c today] /\
    forall item, item <> i ->
      List.filter (item_is item) (stock db2) = List.filter (item_is item) (stock db).
Proof.
  intros Hf Hkeys.
  destruct (find (item_is i) (stock db)) as [st|] eqn:Hfind.
  - destruct (find_item_split _ _ _ Hfind) as [Hitem (pre & post & Hsplit)].
    subst i.
    rewrite (upsert_existing_row fault today q t c pre post st db Hf Hsplit Hkeys).
    eexists _, _, _. split; [reflexivity|]. cbn [sales stock].
    assert (stock_keys_ok
              (pre ++ mkStock (stock_id st) (stock_item st) q t c today :: post)) as Hk2.
    { apply (keys_ok_replace pre post st); [reflexivity | reflexivity|].
      rewrite <- Hsplit. exact Hkeys. }
    split; [reflexivity|]. split; [exact Hk2|]. split.
    + exact (filter_item_unique pre post
               (mkStock (stock_id st) (stock_item st) q t c today) Hk2).
    + intros item Hne. rewrite Hsplit, !List.filter_app.
      rewrite !(filter_other_item item (stock_item st)) by (reflexivity || assumption).
      reflexivity.
  - rewrite (upsert_absent_row fault today i q t c db Hf Hfind).
    eexists _, _, _. split; [reflexivity|]. cbn [sales stock].
    pose proof (keys_ok_insert (stock db) i q t c today Hfind Hkeys) as Hk2.
    split; [reflexivity|]. split; [exact Hk2|]. split.
    + exact (filter_item_unique (stock db) []
               (mkStock (next_id (map stock_id (stock db))) i q t c today) Hk2).
    + intros item Hne. rewrite List.filter_app.
      rewrite (filter_other_item item i) by (reflexivity || assumption).
      cbn. apply app_nil_r.
Qed.

Section InventoryImportFacts.

Variable fault : nat -> db_op -> bool.
Variable today : Z.

Lemma import_inventory_rows_loop (norm : list (list cell)) (db : Store) :
  import_inventory_rows fault today norm db
  = import_loop (fun k => import_inventory_row (fault k) today) 0 norm (db, 0%nat).
Proof. reflexivity. Qed.

Lemma last_inventory_row_snoc (item : string) (norm : list (list cell))
    (i : string) (q t c : Q) :
  last_inventory_row item (norm ++ [[CStr i; CNum q; CNum t; CNum c]])
  = if String.eqb i item then Some (q, t, c) else last_inventory_row item norm.
Proof. unfold last_inventory_row. rewrite fold_left_app. reflexivity. Qed.

Lemma import_inventory_loop_complete (norm : list (list cell)) (db : Store) :
  (forall k op, fault k op = false) ->
  stock_keys_ok (stock db) ->
  Forall inventory_row_ok norm ->
  let r := import_loop (fun k => import_inventory_row (fault k) today) 0 norm
             (db, 0%nat) in
  snd r = length norm /\
  sales (fst r) = sales db /\
  stock_keys_ok (stock (fst r)) /\
  forall item,
    match last_inventory_row item norm with
    | Some (q, t, c) =>
        exists id, List.filter (item_is item) (stock (fst r)) = [mkStock id item q t c today]
    | None =>
        List.filter (item_is item) (stock (fst r)) = List.filter (item_is item) (stock db)
    end.
Proof.
  intros Hf Hkeys. cbv zeta.
  induction norm as [|o norm IH] using rev_ind; intros Hok.
  - cbn. auto.
  - apply Forall_app in Hok as [Hnorm Ho].
    apply Forall_cons_iff in Ho as [(i & q & t & c & -> & _) _].
    destruct (IH Hnorm) as (H1 & H2 & H3 & H4). clear IH.
    rewrite import_loop_app.
    destruct (import_loop _ 0 norm (db, 0%nat)) as [db1 n]. cbn [fst snd] in *.
    rewrite import_loop_cons. unfold import_inventory_row. cbn [get_cell nth import_loop].
    destruct (upsert_row_effect (fault (0 + length norm)%nat) today i q t c db1
                (Hf _) H3)
      as (db2 & id & created & -> & Hs & Hk & Hone & Hother).
    cbn [fst snd]. rewrite length_app. cbn.
    split; [lia|]. split; [congruence|]. split; [exact Hk|].
    intros item. rewrite last_inventory_row_snoc.
    destruct (String.eqb i item) eqn:E.
    + apply String.eqb_eq in E. subst item. exists id. exact Hone.
    + apply String.eqb_neq in E. specialize (H4 item).
      rewrite Hother by congruence. exact H4.
Qed.

End InventoryImportFacts.

(** X8. With the persistence layer working and unique stock keys, an
    Inventory import applies every normalised row and the last row of
    the file that names an item wins: afterwards the item has exactly one
    stock row, carrying that row's quantity, threshold and unit cost and
    today's date; items the file does not name keep their rows, the
    sales table is untouched and the stock keys stay unique. *)
Theorem inventory_import_last_row_wins
    (parse_numeric : string -> option Q) (str_of_num : Q -> string)
    (fault : nat -> db_op -> bool) (today : Z) (df norm : DataFrame) (db : Store) :
  (forall k op, fault k op = false) ->
  stock_keys_ok (stock db) ->
  _normalize_inventory_df parse_numeric str_of_num df = ok norm ->
  exists db',
    process_csv_upload_inventory parse_numeric str_of_num fault today df db
    = (db', ok (length (rows norm))) /\
    sales db' = sales db /\
    stock_keys_ok (stock db') /\
    forall item,
      match last_inventory_row item (rows norm) with
      | Some (q, t, c) =>
          exists id, List.filter (item_is item) (stock db') = [mkStock id item q t c today]
      | None =>
          List.filter (item_is item) (stock db') = List.filter (item_is item) (stock db)
      end.
Proof.
  intros Hf Hkeys Hn. unfold process_csv_upload_inventory. rewrite Hn.
  unfold ok. cbv beta iota. rewrite import_inventory_rows_loop.
  destruct (import_inventory_loop_complete fault today (rows norm) db Hf Hkeys
              (normalize_inventory_rows_ok _ _ _ _ Hn)) as (H1 & H2 & H3 & H4).
  destruct (import_loop _ 0 (rows norm) (db, 0%nat)) as [db' k]. cbn [fst snd] in *.
  exists db'. subst k. auto.
Qed.

Lemma inventory_import_last_row_wins_witness :
  (forall (k : nat) op, no_fault op = false) /\
  stock_keys_ok (stock sugar_store) /\
  exists db',
    process_csv_upload_inventory parse_digits show_num (fun _ => no_fault) 19001
      inventory_table_repeat sugar_store = (db', ok 3%nat) /\
    List.filter (item_is "Tea") (stock db') = [mkStock 2 "Tea" 150 25 9 19001] /\
    List.filter (item_is "Sugar") (stock db') = [mkStock 1 "Sugar" 100 10 40 19001].
Proof.
  split; [reflexivity|]. split; [exact sugar_store_keys_ok|].
  assert (_normalize_inventory_df parse_digits show_num inventory_table_repeat
          = ok (mkDF inventory_fields (rows inventory_table_repeat))) as Hn
    by (vm_compute; reflexivity).
  destruct (inventory_import_last_row_wins parse_digits show_num (fun _ => no_fault)
              19001 inventory_table_repeat _ sugar_store (fun _ _ => eq_refl)
              sugar_store_keys_ok Hn) as (db' & Hrun & _ & _ & Hlast).
  exists db'. split; [exact Hrun|].
  vm_compute in Hrun. injection Hrun as <-.
  split; vm_compute; reflexivity.
Defined.

(** Whatever fails, one upsert leaves the sales alone and keeps every
    stock row in place with its id and item; at most one row is added. *)
Lemma add_stock_safe_frame (fault : db_op -> bool) (today : Z)
    (item : option string) (qty threshold unit_cost : option Q) (db : Store) :
  sales (fst (add_stock_safe fault today item qty threshold unit_cost db)) = sales db /\
  exists added,
    (length added <= 1)%nat /\
    map stock_id (stock (fst (add_stock_safe fault today item qty threshold unit_cost db)))
    = map stock_id (stock db) ++ map stock_id added /\
    map stock_item (stock (fst (add_stock_safe fault today item qty threshold unit_cost db)))
    = map stock_item (stock db) ++ map stock_item added.
Proof.
  assert (forall tbl : list Stock,
             exists added : list Stock,
               (length added <= 1)%nat /\
               map stock_id tbl = map stock_id tbl ++ map stock_id added /\
               map stock_item tbl = map stock_item tbl ++ map stock_item added) as Hsame.
  { intros tbl. exists []. cbn. rewrite !app_nil_r. auto. }
  unfold add_stock_safe. session_unfold.
  destruct (fault OpQueryStock); cbn; [auto|].
  destruct item as [i|]; cbn.
  - destruct (find (item_is i) (stock db)) as [st|] eqn:Hfind; cbn.
    + destruct qty as [q|], threshold as [t|], unit_cost as [c|]; cbn;
        destruct (fault OpUpdateStock); cbn; auto;
        destruct (fault OpCommit); cbn; auto.
      split; [reflexivity|]. exists []. cbn. rewrite !app_nil_r, !map_map.
      split; [lia|].
      split; apply map_ext; intros r; destruct (Z.eqb (stock_id r) (stock_id st));
        reflexivity.
    + destruct (fault OpInsertStock); cbn; [auto|].
      destruct qty as [q|], threshold as [t|], unit_cost as [c|]; cbn; auto.
      destruct (existsb (item_is i) (stock db)); cbn; [auto|].
      destruct (fault OpCommit); cbn; [auto|].
      split; [reflexivity|].
      exists [mkStock (next_id (map stock_id (stock db))) i q t c today].
      rewrite !map_app. cbn. split; [lia|]. split; reflexivity.
  - destruct (fault OpInsertStock); cbn; auto.
Qed.

Lemma import_inventory_loop_frame (fault : nat -> db_op -> bool) (today : Z)
    (rs : list (list cell)) (k0 : nat) (db0 : Store) (n0 : nat) :
  let r := import_loop (fun k => import_inventory_row (fault k) today) k0 rs (db0, n0) in
  sales (fst r) = sales db0 /\
  (stock_keys_ok (stock db0) -> stock_keys_ok (stock (fst r))) /\
  (n0 <= snd r <= n0 + length rs)%nat /\
  exists added,
    (length added <= length rs)%nat /\
    map stock_id (stock (fst r)) = map stock_id (stock db0) ++ map stock_id added /\
    map stock_item (stock (fst r)) = map stock_item (stock db0) ++ map stock_item added.
Proof.
  cbv zeta. revert k0 db0 n0. induction rs as [|o rs IH]; intros k0 db0 n0.
  - cbn. split; [reflexivity|]. split; [auto|]. split; [lia|].
    exists []. cbn. rewrite !app_nil_r. auto.
  - rewrite import_loop_cons.
    assert (sales (fst (import_inventory_row (fault k0) today o db0)) = sales db0 /\
            (stock_keys_ok (stock db0) ->
             stock_keys_ok (stock (fst (import_inventory_row (fault k0) today o db0)))) /\
            exists added,
              (length added <= 1)%nat /\
              map stock_id (stock (fst (import_inventory_row (fault k0) today o db0)))
              = map stock_id (stock db0) ++ map stock_id added /\
              map stock_item (stock (fst (import_inventory_row (fault k0) today o db0)))
              = map stock_item (stock db0) ++ map stock_item added) as Hrow.
    { unfold import_inventory_row.
      destruct (get_cell 0 o), (get_cell 1 o), (get_cell 2 o), (get_cell 3 o);
        try (cbn; split; [reflexivity|]; split; [auto|]; exists []; cbn;
             rewrite !app_nil_r; auto).
      split; [apply add_stock_safe_frame|].
      split; [apply add_stock_safe_keeps_keys | apply add_stock_safe_frame]. }
    destruct (import_inventory_row (fault k0) today o db0) as [db1 r1]. cbn [fst] in Hrow.
    destruct Hrow as (Hs1 & Hk1 & a1 & Hl1 & Hid1 & Hit1).
    destruct r1 as [e1|v1].
    + destruct (IH (S k0) db1 n0) as (Hs & Hk & Hn & a & Hl & Hid & Hit).
      split; [congruence|]. split; [auto|]. split; [cbn; lia|].
      exists (a1 ++ a). rewrite length_app, !map_app, !app_assoc, <- Hid1, <- Hit1.
      cbn. split; [lia|]. auto.
    + destruct (IH (S k0) db1 (S n0)) as (Hs & Hk & Hn & a & Hl & Hid & Hit).
      split; [congruence|]. split; [auto|]. split; [cbn; lia|].
      exists (a1 ++ a). rewrite length_app, !map_app, !app_assoc, <- Hid1, <- Hit1.
      cbn. split; [lia|]. auto.
Qed.

(** X9. Whichever of the per-row calls of [add_stock_safe] fail, and
    wherever each of them fails (every row runs in a session of its own,
    with its own failures), an Inventory import leaves the sales table
    alone, keeps the stock keys unique, and never removes or moves a
    stock row: the ids and items present before stay in place,
    rows are only overwritten or appended, and no more rows are appended
    than the file has normalised rows. *)
Theorem inventory_import_keeps_existing_rows
    (parse_numeric : string -> option Q) (str_of_num : Q -> string)
    (fault : nat -> db_op -> bool) (today : Z) (df : DataFrame) (db : Store) :
  let db' := fst (process_csv_upload_inventory parse_numeric str_of_num fault today df db) in
  sales db' = sales db /\
  (stock_keys_ok (stock db) -> stock_keys_ok (stock db')) /\
  exists added,
    map stock_id (stock db') = map stock_id (stock db) ++ map stock_id added /\
    map stock_item (stock db') = map stock_item (stock db) ++ map stock_item added /\
    forall norm, _normalize_inventory_df parse_numeric str_of_num df = ok norm ->
      (length added <= length (rows norm))%nat /\
      exists n,
        snd (process_csv_upload_inventory parse_numeric str_of_num fault today df db) = ok n /\
        (n <= length (rows norm))%nat.
Proof.
  cbv zeta. unfold process_csv_upload_inventory.
  destruct (_normalize_inventory_df parse_numeric str_of_num df) as [e|norm].
  - cbn. split; [reflexivity|]. split; [auto|]. exists []. cbn.
    rewrite !app_nil_r. split; [reflexivity|]. split; [reflexivity|].
    intros norm0 Hn0. discriminate Hn0.
  - rewrite import_inventory_rows_loop.
    pose proof (import_inventory_loop_frame fault today (rows norm) 0 db 0%nat) as Hloop.
    cbv zeta in Hloop.
    destruct (import_loop _ 0 (rows norm) (db, 0%nat)) as [db' n]. cbn [fst snd] in *.
    destruct Hloop as (Hs & Hk & Hn & a & Hl & Hid & Hit).
    split; [exact Hs|]. split; [exact Hk|]. exists a.
    split; [exact Hid|]. split; [exact Hit|].
    intros norm' [= <-]. split; [exact Hl|]. exists n. split; [reflexivity | lia].
Qed.

(** ** Today's totals *)

Lemma Qsum_app (l1 l2 : list Q) : (Qsum (l1 ++ l2) == Qsum l1 + Qsum l2)%Q.
Proof.
  unfold Qsum. induction l1 as [|x l1 IH]; cbn.
  - rewrite Qplus_0_l. reflexivity.
  - rewrite IH. apply Qplus_assoc.
Qed.

Lemma py_or_sql_sum (l : list Q) : (py_or (sql_sum l) 0 == Qsum l)%Q.
Proof.
  rewrite py_or_zero. destruct l; reflexivity.
Qed.

Lemma todays_sales_sum (today : Z) (db : Store) :
  (get_todays_sales today db
   == Qsum (map sale_total (List.filter (fun s => (sale_date s =? today)%Z) (sales db))))%Q.
Proof. unfold get_todays_sales. apply py_or_sql_sum. Qed.

Lemma todays_expenses_sum (today : Z) (tbl : list Expense) :
  (get_todays_expenses today tbl
   == Qsum (map expense_amount
                (List.filter (fun x => (expense_date x =? today)%Z) tbl)))%Q.
Proof. unfold get_todays_expenses. apply py_or_sql_sum. Qed.

(** X10. A sale that [add_sale] records raises today's sales total by
    the sale's total and leaves the total of every other day as it was;
    a call that fails leaves every day's total as it was. *)
Theorem recorded_sale_raises_todays_sales
    (fault : db_op -> bool) (today : Z)
    (item : option string) (qty unit_price total : option Q)
    (customer : option string) (db : Store) :
  let r := add_sale fault today item qty unit_price total customer db in
  (forall e d, snd r = raise e -> get_todays_sales d (fst r) = get_todays_sales d db) /\
  (forall id, snd r = ok id ->
     exists t, total = Some t /\
       (get_todays_sales today (fst r) == get_todays_sales today db + t)%Q /\
       forall d, d <> today -> get_todays_sales d (fst r) = get_todays_sales d db).
Proof.
  cbv zeta.
  pose proof (add_sale_outcome fault today item qty unit_price total customer db) as H.
  destruct (add_sale fault today item qty unit_price total customer db) as [db' [e|id]];
    cbn [fst snd]; split.
  - intros _ d _. rewrite H. reflexivity.
  - intros id Hid. discriminate Hid.
  - intros e d He. discriminate He.
  - intros id' _.
    destruct H as (i & q & p & t & _ & _ & _ & -> & _ & Hs & _).
    exists t. split; [reflexivity|]. split.
    + rewrite !todays_sales_sum, Hs, List.filter_app, map_app, Qsum_app.
      cbn. rewrite Z.eqb_refl. cbn. rewrite Qplus_0_r. reflexivity.
    + intros d Hd. unfold get_todays_sales. rewrite Hs, List.filter_app. cbn.
      rewrite (proj2 (Z.eqb_neq today d)) by congruence.
      rewrite app_nil_r. reflexivity.
Qed.

(** ** [add_expense] and the Expenses import *)

Lemma add_expense_outcome (fault : expense_op -> bool) (today : Z)
    (category vendor : option string) (amount : option Q) (notes : option string)
    (tbl : list Expense) :
  match add_expense fault today category vendor amount notes tbl with
  | (tbl', inl _) => tbl' = tbl
  | (tbl', inr _) =>
      exists c a, category = Some c /\ amount = Some a /\
        tbl' = tbl ++ [mkExpense (next_id (map expense_id tbl)) c vendor a today notes]
  end.
Proof.
  unfold add_expense. destruct (fault OpInsertExpense); cbn; [reflexivity|].
  destruct category as [c|], amount as [a|]; cbn; try reflexivity.
  destruct (fault OpCommitExpense); cbn; [reflexivity|]. eauto.
Qed.

(** X11. [add_expense] is all or nothing: a call that returns has
    appended one expense with the given fields and today's date, raising
    today's expenses by the amount and lowering today's net profit by it;
    a call that fails (missing category or amount, or a failure of the
    persistence layer) leaves the expenses table as it was. *)
Theorem add_expense_appends_or_changes_nothing
    (fault : expense_op -> bool) (today : Z)
    (category vendor : option string) (amount : option Q) (notes : option string)
    (db : Store) (tbl : list Expense) :
  let r := add_expense fault today category vendor amount notes tbl in
  (forall e, snd r = raise e -> fst r = tbl) /\
  (snd r = ok tt ->
     exists c a, category = Some c /\ amount = Some a /\
       fst r = tbl ++ [mkExpense (next_id (map expense_id tbl)) c vendor a today notes] /\
       (get_todays_expenses today (fst r) == get_todays_expenses today tbl + a)%Q /\
       (get_net_profit today db (fst r) == get_net_profit today db tbl - a)%Q) /\
  ((forall op, fault op = false) -> category <> None -> amount <> None -> snd r = ok tt).
Proof.
  cbv zeta.
  pose proof (add_expense_outcome fault today category vendor amount notes tbl) as H.
  split; [|split].
  - intros e He.
    destruct (add_expense fault today category vendor amount notes tbl) as [tbl' [e'|u]];
      [exact H | discriminate He].
  - intros Hok.
    destruct (add_expense fault today category vendor amount notes tbl) as [tbl' [e'|u]];
      [discriminate Hok|]. cbn [fst snd] in *.
    destruct H as (c & a & -> & -> & ->). exists c, a.
    repeat (split; [reflexivity|]).
    assert (get_todays_expenses today
              (tbl ++ [mkExpense (next_id (map expense_id tbl)) c vendor a today notes])
            == get_todays_expenses today tbl + a)%Q as Hsum.
    { rewrite !todays_expenses_sum, List.filter_app, map_app, Qsum_app.
      cbn. rewrite Z.eqb_refl. cbn. rewrite Qplus_0_r. reflexivity. }
    split; [exact Hsum|]. unfold get_net_profit. rewrite Hsum. ring.
  - intros Hf Hc Ha. unfold add_expense. rewrite !Hf.
    destruct category as [c|]; [|congruence]. destruct amount as [a|]; [|congruence].
    reflexivity.
Qed.

Lemma normalize_expenses_rows_ok
    (parse_numeric : string -> option Q) (str_of_num : Q -> string)
    (df norm : DataFrame) :
  _normalize_expenses_df parse_numeric str_of_num df = ok norm ->
  Forall expenses_row_ok (rows norm).
Proof.
  intros H. rewrite normalize_expenses_stages in H.
  destruct (expenses_stages_cases parse_numeric str_of_num
              (prepare expenses_default expenses_fields expenses_mapping df))
    as [(i & j & k & l & _ & _ & _ & _ & Hok) | [_ [e He]]].
  - rewrite Hok in H. injection H as <-. unfold expenses_out. cbn [rows].
    apply List.Forall_forall. intros o Ho. pose proof Ho as Hkeep.
    apply (map_filter_forall (expenses_row parse_numeric str_of_num i j k l)
             expenses_keep) in Hkeep.
    apply in_map_iff in Ho as (r & <- & _).
    apply expenses_row_shape, Hkeep.
  - rewrite He in H. discriminate H.
Qed.

Lemma import_expenses_row_outcome (efault : expense_op -> bool) (today : Z)
    (o : list cell) (tbl : list Expense) :
  match import_expenses_row efault today o tbl with
  | (tbl', inl _) => tbl' = tbl
  | (tbl', inr _) =>
      exists x, tbl' = tbl ++ [x] /\ expense_recorded_from today o x
  end.
Proof.
  unfold import_expenses_row, expense_recorded_from.
  destruct (get_cell 0 o) as [c| |]; try reflexivity.
  destruct (get_cell 1 o) as [v| |]; try reflexivity.
  destruct (get_cell 2 o) as [|a|]; try reflexivity.
  destruct (get_cell 3 o) as [n| |]; try reflexivity.
  pose proof (add_expense_outcome efault today (Some c) (Some v) (Some a) (Some n) tbl)
    as H.
  destruct (add_expense efault today (Some c) (Some v) (Some a) (Some n) tbl)
    as [tbl' [e|u]]; [exact H|].
  destruct H as (c' & a' & [= <-] & [= <-] & ->).
  eexists. split; [reflexivity|]. exists v, n. cbn. auto 10.
Qed.

Section ExpensesImportFacts.

Variable efault : nat -> expense_op -> bool.
Variable today : Z.

Lemma import_expenses_rows_loop (norm : list (list cell)) (tbl : list Expense) :
  import_expenses_rows efault today norm tbl
  = import_loop (fun k => import_expenses_row (efault k) today) 0 norm (tbl, 0%nat).
Proof. reflexivity. Qed.

Lemma import_expenses_loop (norm : list (list cell)) (k0 : nat) (tbl : list Expense)
    (n0 : nat) :
  exists new,
    fst (import_loop (fun k => import_expenses_row (efault k) today) k0 norm (tbl, n0))
    = tbl ++ new /\
    snd (import_loop (fun k => import_expenses_row (efault k) today) k0 norm (tbl, n0))
    = (n0 + length new)%nat /\
    (length new <= length norm)%nat /\
    Forall (fun x => exists o, In o norm /\ expense_recorded_from today o x) new /\
    ((forall k op, efault k op = false) -> Forall expenses_row_ok norm ->
     Forall2 (expense_recorded_from today) norm new).
Proof.
  revert k0 tbl n0. induction norm as [|o norm IH]; intros k0 tbl n0.
  - exists []. cbn. rewrite app_nil_r, Nat.add_0_r.
    repeat split; auto; intros; constructor.
  - rewrite import_loop_cons.
    pose proof (import_expenses_row_outcome (efault k0) today o tbl) as Hrow.
    destruct (import_expenses_row (efault k0) today o tbl) as [tbl1 [e|u]] eqn:E.
    + subst tbl1. destruct (IH (S k0) tbl n0) as (new & H1 & H2 & H3 & H4 & H5).
      exists new. repeat (split; [assumption || (cbn; lia)|]). split.
      * eapply List.Forall_impl; [|exact H4].
        intros x (o' & Ho' & Hr). exists o'. split; [right; exact Ho' | exact Hr].
      * intros Hf Hok. exfalso.
        apply Forall_cons_iff in Hok as [(s & v & a & n & -> & _ & _) _].
        unfold import_expenses_row in E. cbn in E.
        unfold add_expense in E. rewrite !Hf in E. discriminate E.
    + destruct Hrow as (x & -> & Hrec).
      destruct (IH (S k0) (tbl ++ [x]) (S n0)) as (new & H1 & H2 & H3 & H4 & H5).
      exists (x :: new). rewrite H1, H2, <- app_assoc. cbn.
      split; [reflexivity|]. split; [lia|]. split; [lia|]. split.
      * apply List.Forall_cons; [exists o; split; [left; reflexivity | exact Hrec]|].
        eapply List.Forall_impl; [|exact H4].
        intros x' (o' & Ho' & Hr). exists o'. split; [right; exact Ho' | exact Hr].
      * intros Hf Hok. apply Forall_cons_iff in Hok as [_ Hok].
        constructor; [exact Hrec | exact (H5 Hf Hok)].
Qed.

End ExpensesImportFacts.

Lemma recorded_expense_ok (today : Z) (o : list cell) (x : Expense) :
  expenses_row_ok o -> expense_recorded_from today o x -> expense_ok today x.
Proof.
  intros (s & v & a & n & -> & Hne & Hpos) (v' & n' & H0 & _ & H2 & _ & _ & _ & Hd).
  cbn in H0, H2. injection H0 as E0. injection H2 as E2.
  unfold expense_ok. rewrite E0 in Hne. rewrite E2 in Hpos. auto.
Qed.

(** X12. Whichever of the per-row calls of [add_expense] fail (every
    row runs in a session of its own, with its own failures), an Expenses
    import only appends to the expenses table: the reported count is the
    number of expenses appended, at most the number of normalised rows,
    and every
    appended expense has a non-empty category, a positive amount and
    today's date; with the persistence layer working every normalised
    row is recorded, in file order.  A failure of the normaliser changes
    nothing. *)
Theorem expenses_import_only_appends_valid_expenses
    (parse_numeric : string -> option Q) (str_of_num : Q -> string)
    (efault : nat -> expense_op -> bool) (today : Z) (df : DataFrame)
    (tbl : list Expense) :
  let r := process_csv_upload_expenses parse_numeric str_of_num efault today df tbl in
  (forall e, snd r = raise e ->
     _normalize_expenses_df parse_numeric str_of_num df = raise e /\ fst r = tbl) /\
  (forall n, snd r = ok n ->
     exists norm new,
       _normalize_expenses_df parse_numeric str_of_num df = ok norm /\
       fst r = tbl ++ new /\ length new = n /\ (n <= length (rows norm))%nat /\
       Forall (expense_ok today) new /\
       ((forall k op, efault k op = false) ->
        Forall2 (expense_recorded_from today) (rows norm) new)).
Proof.
  cbv zeta. unfold process_csv_upload_expenses.
  destruct (_normalize_expenses_df parse_numeric str_of_num df) as [e|norm] eqn:Hn.
  - split; [intros e' [= <-]; auto | intros n H; discriminate H].
  - pose proof (normalize_expenses_rows_ok _ _ _ _ Hn) as Hrows.
    rewrite import_expenses_rows_loop.
    destruct (import_expenses_loop efault today (rows norm) 0 tbl 0)
      as (new & H1 & H2 & H3 & H4 & H5).
    destruct (import_loop _ 0 (rows norm) (tbl, 0%nat)) as [tbl' k]. cbn [fst snd] in *.
    split; [intros e H; discriminate H|].
    intros n [= <-]. exists norm, new.
    repeat (split; [assumption || reflexivity || lia|]). split.
    + apply List.Forall_forall. intros x Hx.
      rewrite List.Forall_forall in H4. destruct (H4 x Hx) as (o & Ho & Hrec).
      rewrite List.Forall_forall in Hrows.
      exact (recorded_expense_ok today o x (Hrows o Ho) Hrec).
    + intros Hf. exact (H5 Hf Hrows).
Qed.

(** ** [process_csv_upload] as a whole *)

Lemma stock_rows_sold_refl (tbl : list Stock) : Forall2 stock_row_sold tbl tbl.
Proof.
  induction tbl as [|r tbl IH]; constructor; [|exact IH].
  unfold stock_row_sold. repeat split; apply Qle_refl.
Qed.

Lemma stock_rows_sold_trans (t1 t2 t3 : list Stock) :
  Forall2 stock_row_sold t1 t2 -> Forall2 stock_row_sold t2 t3 ->
  Forall2 stock_row_sold t1 t3.
Proof.
  intros H12. revert t3. induction H12 as [|a b t1 t2 Hab _ IH]; intros t3 H23.
  - inversion H23. constructor.
  - inversion H23 as [|b' c t2' t3' Hbc H23' E1 E2]. subst. constructor; [|apply IH, H23'].
    destruct Hab as (A1 & A2 & A3 & A4 & A5), Hbc as (B1 & B2 & B3 & B4 & B5).
    unfold stock_row_sold. repeat split; try congruence.
    eapply Qle_trans; eassumption.
Qed.

Lemma stock_after_sale_sold (today : Z) (item : string) (q : Q) (tbl : list Stock) :
  (0 < q)%Q -> Forall2 stock_row_sold tbl (stock_after_sale today item q tbl).
Proof.
  intros Hq. unfold stock_after_sale.
  destruct (find (item_is item) tbl) as [st|]; [|apply stock_rows_sold_refl].
  induction tbl as [|r tbl IH]; cbn [map]; constructor; [|exact IH].
  destruct (Z.eqb (stock_id r) (stock_id st)).
  - unfold stock_row_sold. cbn. repeat split. Lqa.lra.
  - unfold stock_row_sold. repeat split. apply Qle_refl.
Qed.

Lemma import_sales_row_sold (fault : db_op -> bool) (today : Z)
    (o : list cell) (db : Store) :
  sales_row_ok o ->
  Forall2 stock_row_sold (stock db) (stock (fst (import_sales_row fault today o db))).
Proof.
  intros (i & q & p & c & -> & _ & Hq). unfold import_sales_row. cbn [get_cell nth].
  pose proof (add_sale_outcome fault today (Some i) (Some q) (Some p)
                (Some (q * p)%Q) (Some c) db) as H.
  destruct (add_sale fault today (Some i) (Some q) (Some p) (Some (q * p)%Q)
              (Some c) db) as [db' [e|id]]; cbn [fst].
  - subst db'. apply stock_rows_sold_refl.
  - destruct H as (i' & q' & p' & t' & [= <-] & [= <-] & _ & _ & _ & _ & ->).
    apply stock_after_sale_sold, Hq.
Qed.

Lemma import_sales_loop_sold (fault : nat -> db_op -> bool) (today : Z)
    (norm : list (list cell)) (k0 : nat) (db : Store) (n0 : nat) :
  Forall sales_row_ok norm ->
  Forall2 stock_row_sold (stock db)
    (stock (fst (import_loop (fun k => import_sales_row (fault k) today) k0 norm
                   (db, n0)))).
Proof.
  revert k0 db n0. induction norm as [|o norm IH]; intros k0 db n0 Hok.
  - apply stock_rows_sold_refl.
  - apply Forall_cons_iff in Hok as [Ho Hok]. rewrite import_loop_cons.
    pose proof (import_sales_row_sold (fault k0) today o db Ho) as Hrow.
    destruct (import_sales_row (fault k0) today o db) as [db1 [e|id]]; cbn [fst] in Hrow;
      (eapply stock_rows_sold_trans; [exact Hrow | apply IH, Hok]).
Qed.

Section UploadFacts.

Variable parse_numeric : string -> option Q.
Variable str_of_num : Q -> string.
Variable fault : nat -> db_op -> bool.
Variable efault : nat -> expense_op -> bool.
Variable today : Z.

Lemma sales_branch_frame (df : DataFrame) (db : Store) :
  let r := process_csv_upload_sales parse_numeric str_of_num fault today df db in
  (forall e, snd r = raise e -> fst r = db) /\
  Forall2 stock_row_sold (stock db) (stock (fst r)).
Proof.
  cbv zeta. unfold process_csv_upload_sales.
  destruct (_normalize_sales_df parse_numeric str_of_num df) as [e|norm] eqn:Hn.
  - cbn. split; [auto | apply stock_rows_sold_refl].
  - rewrite import_sales_rows_loop.
    pose proof (import_sales_loop_sold fault today (rows norm) 0 db 0
                  (normalize_sales_rows_ok _ _ _ _ Hn)) as Hsold.
    destruct (import_loop _ 0 (rows norm) (db, 0%nat)) as [db' k]. cbn [fst snd] in *.
    split; [intros e H; discriminate H | exact Hsold].
Qed.

Lemma inventory_branch_frame (df : DataFrame) (db : Store) :
  let r := process_csv_upload_inventory parse_numeric str_of_num fault today df db in
  (forall e, snd r = raise e -> fst r = db) /\ sales (fst r) = sales db.
Proof.
  cbv zeta. unfold process_csv_upload_inventory.
  destruct (_normalize_inventory_df parse_numeric str_of_num df) as [e|norm]; [cbn; auto|].
  rewrite import_inventory_rows_loop.
  pose proof (import_inventory_loop_frame fault today (rows norm) 0 db 0%nat) as Hloop.
  cbv zeta in Hloop.
  destruct (import_loop _ 0 (rows norm) (db, 0%nat)) as [db' k]. cbn [fst snd] in *.
  split; [intros e H; discriminate H | apply Hloop].
Qed.

Lemma expenses_branch_frame (df : DataFrame) (tbl : list Expense) :
  forall e,
    snd (process_csv_upload_expenses parse_numeric str_of_num efault today df tbl) = raise e ->
    fst (process_csv_upload_expenses parse_numeric str_of_num efault today df tbl) = tbl.
Proof.
  unfold process_csv_upload_expenses.
  destruct (_normalize_expenses_df parse_numeric str_of_num df) as [e|norm]; [cbn; auto|].
  destruct (import_expenses_rows efault today (rows norm) tbl) as [tbl' k].
  intros e H. discriminate H.
Qed.

(** X13. What [process_csv_upload] leaves alone, whichever calls of the
    persistence layer fail.  When the user is told of a processing error
    (the file reads neither as CSV nor as Excel, or the normaliser
    raised) or of an unknown data type, neither the store nor the
    expenses changed.  A Sales upload does change the stock, but only
    downwards: every stock row stays in place with its id, item,
    threshold and unit cost, and no quantity grows; it leaves the expenses
    alone.  An Inventory upload leaves sales and expenses alone, an
    Expenses upload leaves the store alone. *)
Theorem upload_errors_apply_nothing_and_sales_only_lower_stock
    (csv excel : result DataFrame) (data_type : string)
    (db : Store) (tbl : list Expense) :
  let r := process_csv_upload parse_numeric str_of_num fault efault today
             csv excel data_type db tbl in
  let db' := fst (fst r) in
  let tbl' := snd (fst r) in
  (forall e, snd r = ProcessingError e -> db' = db /\ tbl' = tbl) /\
  (snd r = UnknownDataType -> db' = db /\ tbl' = tbl) /\
  (data_type = "Sales"%string ->
     tbl' = tbl /\ Forall2 stock_row_sold (stock db) (stock db')) /\
  (data_type = "Inventory"%string -> tbl' = tbl /\ sales db' = sales db) /\
  (data_type = "Expenses"%string -> db' = db).
Proof.
  cbv zeta. unfold process_csv_upload.
  destruct (read_upload csv excel) as [e0|df].
  { cbn. repeat split; auto; intros; apply stock_rows_sold_refl. }
  destruct (String.eqb data_type "Sales") eqn:Es.
  { apply String.eqb_eq in Es. subst data_type.
    pose proof (sales_branch_frame df db) as (Hfail & Hsold).
    destruct (process_csv_upload_sales parse_numeric str_of_num fault today df db)
      as [db' [e|n]]; cbn [fst snd outcome_of] in *.
    - rewrite (Hfail e eq_refl).
      repeat split; auto; try discriminate; intros; apply stock_rows_sold_refl.
    - repeat split; auto; try discriminate; intros; discriminate. }
  destruct (String.eqb data_type "Inventory") eqn:Ei.
  { apply String.eqb_eq in Ei. subst data_type.
    pose proof (inventory_branch_frame df db) as (Hfail & Hsales).
    destruct (process_csv_upload_inventory parse_numeric str_of_num fault today df db)
      as [db' [e|n]]; cbn [fst snd outcome_of] in *.
    - rewrite (Hfail e eq_refl). repeat split; auto; discriminate.
    - repeat split; auto; try discriminate; intros; discriminate. }
  destruct (String.eqb data_type "Expenses") eqn:Ee.
  { apply String.eqb_eq in Ee. subst data_type.
    pose proof (expenses_branch_frame df tbl) as Hfail.
    destruct (process_csv_upload_expenses parse_numeric str_of_num efault today df tbl)
      as [tbl' [e|n]]; cbn [fst snd outcome_of] in *.
    - rewrite (Hfail e eq_refl). repeat split; auto; discriminate.
    - repeat split; auto; try discriminate; intros; discriminate. }
  apply String.eqb_neq in Es, Ei, Ee. cbn. repeat split; auto; congruence.
Qed.

End UploadFacts.

(** ** Reading the stock table *)

Lemma alerts_loop (str_of_num : Q -> string) (tbl : list Stock) (acc : list string) :
  fold_left
    (fun alerts stock =>
       if is_low stock then alerts ++ [alert_text str_of_num stock] else alerts)
    tbl acc
  = acc ++ map (alert_text str_of_num) (List.filter is_low tbl).
Proof.
  revert acc. induction tbl as [|s tbl IH]; intros acc; cbn.
  - symmetry. apply app_nil_r.
  - rewrite IH. destruct (is_low s); cbn; [rewrite <- app_assoc|]; reflexivity.
Qed.

Lemma entries_for_stock (item : string) (db : Store) :
  entries_for item (get_stock db)
  = map (fun s => (stock_item s, stock_qty s, stock_threshold s, stock_unit_cost s))
        (List.filter (item_is item) (stock db)).
Proof.
  unfold entries_for, get_stock. induction (stock db) as [|s tbl IH]; cbn; [reflexivity|].
  unfold item_is at 1. destruct (String.eqb (stock_item s) item); cbn; rewrite IH;
    reflexivity.
Qed.

Lemma update_stock_same_store (fault : db_op -> bool) (today : Z)
    (item : option string) (qty threshold unit_cost : option Q) (db : Store) :
  fst (update_stock fault today item qty threshold unit_cost db)
  = fst (add_stock_safe fault today item qty threshold unit_cost db) /\
  (forall e,
      snd (update_stock fault today item qty threshold unit_cost db) = raise e <->
      snd (add_stock_safe fault today item qty threshold unit_cost db) = raise e).
Proof.
  unfold update_stock, add_stock_safe. session_unfold.
  destruct (fault OpQueryStock); cbn; [outcomes_agree|].
  destruct item as [i|]; cbn.
  - destruct (find (item_is i) (stock db)) as [st|]; cbn.
    + destruct qty as [q|], threshold as [t|], unit_cost as [c|]; cbn;
        destruct (fault OpUpdateStock); cbn; try outcomes_agree;
        destruct (fault OpCommit); cbn; outcomes_agree.
    + destruct (fault OpInsertStock); cbn; [outcomes_agree|].
      destruct qty as [q|], threshold as [t|], unit_cost as [c|]; cbn;
        try outcomes_agree.
      destruct (existsb (item_is i) (stock db)); cbn; [outcomes_agree|].
      destruct (fault OpCommit); cbn; outcomes_agree.
  - destruct (fault OpInsertStock); cbn; outcomes_agree.
Qed.

Lemma update_stock_returns (fault : db_op -> bool) (today : Z)
    (item : string) (q t c : Q) (db : Store) :
  (forall op, fault op = false) ->
  stock_keys_ok (stock db) ->
  exists db1,
    update_stock fault today (Some item) (Some q) (Some t) (Some c) db = (db1, ok tt) /\
    sales db1 = sales db /\
    stock_keys_ok (stock db1) /\
    (exists id, List.filter (item_is item) (stock db1) = [mkStock id item q t c today]) /\
    forall other, other <> item ->
      List.filter (item_is other) (stock db1) = List.filter (item_is other) (stock db).
Proof.
  intros Hf Hkeys.
  destruct (update_stock_same_store fault today (Some item) (Some q) (Some t) (Some c) db)
    as [Hsame Hfail].
  destruct (upsert_row_effect fault today item q t c db Hf Hkeys)
    as (db2 & id & created & Hrun & Hs & Hk & Hone & Hother).
  rewrite Hrun in Hsame, Hfail. cbn [fst snd] in *.
  destruct (update_stock fault today (Some item) (Some q) (Some t) (Some c) db)
    as [db1 [e|[]]] eqn:E; cbn [fst snd] in *.
  - exfalso. destruct (Hfail e) as [H _]. specialize (H eq_refl). discriminate H.
  - subst db1. exists db2. split; [reflexivity|]. eauto 10.
Qed.

(** X14. What [update_stock] writes, [get_stock] reads back: with the
    persistence layer working and unique stock keys, after
    [update_stock(item, qty, threshold, unit_cost)] the list returned by
    [get_stock] has exactly one entry for the item, the tuple just
    written, and the entries of every other item are as before. *)
Theorem get_stock_reads_back_update_stock
    (fault : db_op -> bool) (today : Z) (item : string) (q t c : Q) (db : Store) :
  (forall op, fault op = false) ->
  stock_keys_ok (stock db) ->
  exists db1,
    update_stock fault today (Some item) (Some q) (Some t) (Some c) db = (db1, ok tt) /\
    entries_for item (get_stock db1) = [(item, q, t, c)] /\
    forall other, other <> item ->
      entries_for other (get_stock db1) = entries_for other (get_stock db).
Proof.
  intros Hf Hkeys.
  destruct (update_stock_returns fault today item q t c db Hf Hkeys)
    as (db1 & Hrun & _ & _ & [id Hone] & Hother).
  exists db1. split; [exact Hrun|]. rewrite entries_for_stock, Hone. split; [reflexivity|].
  intros other Hne. rewrite !entries_for_stock, Hother by exact Hne. reflexivity.
Qed.

Lemma get_stock_reads_back_update_stock_witness :
  (forall op, no_fault op = false) /\
  stock_keys_ok (stock sugar_store) /\
  exists db1,
    update_stock no_fault 19001 (Some "Rice"%string) (Some 50%Q) (Some 5%Q) (Some 60%Q)
      sugar_store = (db1, ok tt) /\
    get_stock db1 = [("Sugar"%string, 10%Q, 5%Q, 40%Q); ("Rice"%string, 50%Q, 5%Q, 60%Q)].
Proof.
  split; [reflexivity|]. split; [exact sugar_store_keys_ok|].
  destruct (get_stock_reads_back_update_stock no_fault 19001 "Rice" 50 5 60 sugar_store
              (fun _ => eq_refl) sugar_store_keys_ok) as (db1 & Hrun & _).
  exists db1. split; [exact Hrun|].
  vm_compute in Hrun. injection Hrun as <-. reflexivity.
Defined.

(** The stock adjustment of a sale on a table with unique keys: the row of
    the item is changed in place. *)
Lemma sale_row_effect (today : Z) (q : Q) (pre post : list Stock) (st : Stock) :
  stock_keys_ok (pre ++ st :: post) ->
  stock_after_sale today (stock_item st) q (pre ++ st :: post)
  = pre ++ mkStock (stock_id st) (stock_item st) (stock_qty st - q)%Q
             (stock_threshold st) (stock_unit_cost st) today :: post.
Proof.
  intros Hkeys. unfold stock_after_sale. rewrite (unique_row_found _ _ _ Hkeys).
  apply (update_by_id_unique
           (fun r => mkStock (stock_id r) (stock_item r) (stock_qty r - q)%Q
                       (stock_threshold r) (stock_unit_cost r) today)).
  exact Hkeys.
Qed.

Lemma filter_single_split (item : string) (tbl : list Stock) (st : Stock) :
  List.filter (item_is item) tbl = [st] ->
  stock_item st = item /\ exists pre post, tbl = pre ++ st :: post.
Proof.
  intros H. assert (In st (List.filter (item_is item) tbl)) as Hin
      by (rewrite H; left; reflexivity).
  apply filter_In in Hin as [Hin Hi]. unfold item_is in Hi. apply String.eqb_eq in Hi.
  split; [exact Hi|]. apply in_split in Hin as (pre & post & ->). eauto.
Qed.

(** X15. Restocking and then selling, as the repository's own test does
    for one example: with the persistence layer working and unique stock
    keys, after [update_stock(item, q0, threshold, unit_cost)] followed by
    [add_sale(item, q, ...)], [get_stock] lists the item exactly once,
    with quantity [q0 - q] and the threshold and unit cost set by the
    restock.  No bound relates [q] and [q0]: the quantity may go below
    zero. *)
Theorem sale_after_restock_is_read_back
    (fault : db_op -> bool) (today : Z) (item : string) (q0 t c q p total : Q)
    (customer : option string) (db : Store) :
  (forall op, fault op = false) ->
  stock_keys_ok (stock db) ->
  exists db1 db2 id,
    update_stock fault today (Some item) (Some q0) (Some t) (Some c) db = (db1, ok tt) /\
    add_sale fault today (Some item) (Some q) (Some p) (Some total) customer db1
    = (db2, ok id) /\
    entries_for item (get_stock db2) = [(item, (q0 - q)%Q, t, c)].
Proof.
  intros Hf Hkeys.
  destruct (update_stock_returns fault today item q0 t c db Hf Hkeys)
    as (db1 & Hrun & _ & Hk1 & [sid Hone] & _).
  destruct (add_sale_returns fault today item q p total customer db1 Hf)
    as (db2 & id & Hsale).
  exists db1, db2, id. split; [exact Hrun|]. split; [exact Hsale|].
  pose proof (add_sale_outcome fault today (Some item) (Some q) (Some p) (Some total)
                customer db1) as Hout.
  rewrite Hsale in Hout. destruct Hout as (i & q' & p' & t' & Hi & Hq & _ & _ & _ & _ & Hst).
  injection Hi as <-. injection Hq as <-.
  destruct (filter_single_split _ _ _ Hone) as [_ (pre & post & Hsplit)].
  rewrite Hsplit in Hk1, Hst.
  pose proof (sale_row_effect today q pre post _ Hk1) as Heff. cbn in Heff.
  rewrite Heff in Hst.
  assert (stock_keys_ok (stock db2)) as Hk2.
  { rewrite Hst. destruct Hk1 as [Hids Hitems]. split.
    - rewrite map_app in *. exact Hids.
    - rewrite map_app in *. exact Hitems. }
  rewrite Hst in Hk2.
  pose proof (filter_item_unique pre post (mkStock sid item (q0 - q)%Q t c today) Hk2)
    as Hu.
  cbn [stock_item] in Hu. rewrite entries_for_stock, Hst, Hu. reflexivity.
Qed.

Lemma sale_after_restock_is_read_back_witness :
  (forall op, no_fault op = false) /\
  stock_keys_ok (stock sugar_store) /\
  exists db1 db2 id,
    update_stock no_fault 19001 (Some "Sugar"%string) (Some 10%Q) (Some 5%Q) (Some 40%Q)
      sugar_store = (db1, ok tt) /\
    add_sale no_fault 19001 (Some "Sugar"%string) (Some 12%Q) (Some 50%Q) (Some 600%Q)
      None db1 = (db2, ok id) /\
    entries_for "Sugar" (get_stock db2) = [("Sugar"%string, (10 - 12)%Q, 5%Q, 40%Q)].
Proof.
  split; [reflexivity|]. split; [exact sugar_store_keys_ok|].
  exact (sale_after_restock_is_read_back no_fault 19001 "Sugar" 10 5 40 12 50 600 None
           sugar_store (fun _ => eq_refl) sugar_store_keys_ok).
Defined.

(** X16. How a sale changes the low-stock alerts: with the persistence
    layer working and unique stock keys, selling [q] of an item that has
    a stock row leaves the alerts of all other rows as they were and in
    place; the item's own row gives an alert, printed with the reduced
    quantity, exactly when the reduced quantity is at or below the row's
    threshold (equality included). *)
Theorem sale_updates_low_stock_alerts
    (str_of_num : Q -> string) (fault : db_op -> bool) (today : Z)
    (q p total : Q) (customer : option string)
    (db : Store) (pre post : list Stock) (st : Stock) :
  (forall op, fault op = false) ->
  stock_keys_ok (stock db) ->
  stock db = pre ++ st :: post ->
  let alerts := map (alert_text str_of_num) in
  let sold := mkStock (stock_id st) (stock_item st) (stock_qty st - q)%Q
                (stock_threshold st) (stock_unit_cost st) today in
  get_low_stock_alerts str_of_num db
  = alerts (List.filter is_low pre)
    ++ (if Qle_bool (stock_qty st) (stock_threshold st)
        then [alert_text str_of_num st] else [])
    ++ alerts (List.filter is_low post) /\
  exists db' id,
    add_sale fault today (Some (stock_item st)) (Some q) (Some p) (Some total) customer db
    = (db', ok id) /\
    get_low_stock_alerts str_of_num db'
    = alerts (List.filter is_low pre)
      ++ (if Qle_bool (stock_qty st - q) (stock_threshold st)
          then [alert_text str_of_num sold] else [])
      ++ alerts (List.filter is_low post).
Proof.
  intros Hf Hkeys Hsplit alerts sold. split.
  - unfold get_low_stock_alerts. rewrite alerts_loop, Hsplit. cbn [app].
    rewrite List.filter_app. cbn [List.filter]. unfold is_low at 2.
    destruct (Qle_bool (stock_qty st) (stock_threshold st));
      rewrite map_app; reflexivity.
  - destruct (add_sale_returns fault today (stock_item st) q p total customer db Hf)
      as (db' & id & Hsale).
    exists db', id. split; [exact Hsale|].
    pose proof (add_sale_outcome fault today (Some (stock_item st)) (Some q) (Some p)
                  (Some total) customer db) as Hout.
    rewrite Hsale in Hout.
    destruct Hout as (i & q' & p' & t' & Hi & Hq & _ & _ & _ & _ & Hst).
    injection Hi as <-. injection Hq as <-.
    rewrite Hsplit in Hkeys, Hst. rewrite (sale_row_effect today q pre post st Hkeys) in Hst.
    unfold get_low_stock_alerts. rewrite alerts_loop, Hst. cbn [app].
    rewrite List.filter_app. cbn [List.filter]. unfold is_low at 2. cbn [stock_qty stock_threshold].
    destruct (Qle_bool (stock_qty st - q) (stock_threshold st));
      rewrite map_app; reflexivity.
Qed.

Lemma sale_updates_low_stock_alerts_witness :
  (forall op, no_fault op = false) /\
  stock_keys_ok (stock sugar_store) /\
  get_low_stock_alerts show_float sugar_store = [] /\
  exists db' id,
    add_sale no_fault 19001 (Some "Sugar"%string) (Some 5%Q) (Some 50%Q) (Some 250%Q)
      None sugar_store = (db', ok id) /\
    get_low_stock_alerts show_float db' = ["Sugar: 5.0 left; threshold 5.0"%string].
Proof.
  split; [reflexivity|]. split; [exact sugar_store_keys_ok|].
  exact (sale_updates_low_stock_alerts show_float no_fault 19001 5 50 250 None
           sugar_store [] [] (mkStock 1 "Sugar" 10 5 40 19000)
           (fun _ => eq_refl) sugar_store_keys_ok eq_refl).
Defined.

(** ** The forecast *)





(** ** Grouped queries *)

Section GroupingFacts.

Context {K : Type} `{EqDecision K}.

Lemma bump_keys (k : K) (v : Q) (acc : list (K * Q)) (k' : K) :
  In k' (map fst (bump k v acc)) <-> k' = k \/ In k' (map fst acc).
Proof.
  induction acc as [|[k0 s] acc IH]; cbn.
  - split; [intros [<-|[]]; left; reflexivity | intros [->|[]]; left; reflexivity].
  - destruct (decide (k0 = k)) as [->|Hne]; cbn.
    + intuition auto.
    + rewrite IH. tauto.
Qed.

Lemma bump_NoDup (k : K) (v : Q) (acc : list (K * Q)) :
  List.NoDup (map fst acc) -> List.NoDup (map fst (bump k v acc)).
Proof.
  induction acc as [|[k0 s] acc IH]; cbn; intros Hnd.
  - constructor; [intros []|constructor].
  - apply List.NoDup_cons_iff in Hnd as [Hnotin Hnd].
    destruct (decide (k0 = k)) as [->|Hne]; cbn.
    + constructor; assumption.
    + constructor; [|apply IH; exact Hnd].
      rewrite bump_keys. intros [->|Hin]; [apply Hne; reflexivity | apply Hnotin, Hin].
Qed.

Lemma bump_In (k : K) (v : Q) (acc : list (K * Q)) (k' : K) (s' : Q) :
  List.NoDup (map fst acc) ->
  In (k', s') (bump k v acc) ->
  (k' <> k /\ In (k', s') acc) \/
  (k' = k /\ ~ In k (map fst acc) /\ s' = v) \/
  (k' = k /\ exists s, In (k, s) acc /\ s' = (s + v)%Q).
Proof.
  induction acc as [|[k0 s] acc IH]; cbn; intros Hnd Hin.
  - destruct Hin as [E|[]]. injection E as <- <-. right; left. tauto.
  - apply List.NoDup_cons_iff in Hnd as [Hnotin Hnd].
    destruct (decide (k0 = k)) as [->|Hne].
    + destruct Hin as [E|Hin].
      * injection E as <- <-. right; right. split; [reflexivity|].
        exists s. split; [left; reflexivity|reflexivity].
      * left. split; [|right; exact Hin].
        intros ->. apply Hnotin. apply (in_map fst) in Hin. exact Hin.
    + destruct Hin as [E|Hin].
      * injection E as <- <-. left. split; [exact Hne | left; reflexivity].
      * destruct (IH Hnd Hin) as [[Hk Hacc]|[(-> & Hnew & ->)|(-> & s0 & Hs0 & ->)]].
        -- left. split; [exact Hk | right; exact Hacc].
        -- right; left. split; [reflexivity|]. split; [|reflexivity].
           intros [E|Hin']; [apply Hne, E | apply Hnew, Hin'].
        -- right; right. split; [reflexivity|]. exists s0.
           split; [right; exact Hs0 | reflexivity].
Qed.

Lemma bump_sum (k : K) (v : Q) (acc : list (K * Q)) :
  (Qsum (map snd (bump k v acc)) == Qsum (map snd acc) + v)%Q.
Proof.
  unfold Qsum. induction acc as [|[k0 s] acc IH]; cbn.
  - ring.
  - destruct (decide (k0 = k)); cbn.
    + ring.
    + rewrite IH. ring.
Qed.

Lemma group_sum_snoc (rows : list (K * Q)) (r : K * Q) :
  group_sum (rows ++ [r]) = bump (fst r) (snd r) (group_sum rows).
Proof. unfold group_sum. rewrite fold_left_app. reflexivity. Qed.

Lemma key_sum_absent (rows : list (K * Q)) (k : K) :
  ~ In k (map fst rows) -> List.filter (fun r => bool_decide (fst r = k)) rows = [].
Proof.
  induction rows as [|r rows IH]; cbn; intros Hn; [reflexivity|].
  rewrite bool_decide_eq_false_2 by (intros E; apply Hn; left; exact E).
  apply IH. intros Hin. apply Hn. right. exact Hin.
Qed.

Lemma group_sum_spec (rows : list (K * Q)) :
  List.NoDup (map fst (group_sum rows)) /\
  (forall k, In k (map fst (group_sum rows)) <-> In k (map fst rows)) /\
  (forall k s, In (k, s) (group_sum rows) ->
     (s == Qsum (map snd (List.filter (fun r => bool_decide (fst r = k)) rows)))%Q) /\
  (Qsum (map snd (group_sum rows)) == Qsum (map snd rows))%Q.
Proof.
  induction rows as [|[k v] rows IH] using rev_ind.
  - cbn. split; [constructor|]. split; [tauto|]. split; [intros k s []|reflexivity].
  - destruct IH as (Hnd & Hkeys & Hsums & Htot).
    rewrite group_sum_snoc. cbn [fst snd]. split; [apply bump_NoDup, Hnd|].
    split; [|split].
    + intros k'. rewrite bump_keys, Hkeys, map_app, in_app_iff. cbn. intuition.
    + intros k' s' Hin. rewrite List.filter_app, map_app, Qsum_app. cbn [List.filter fst].
      destruct (bump_In k v _ k' s' Hnd Hin)
        as [[Hk Hacc]|[(-> & Hnew & ->)|(-> & s0 & Hs0 & ->)]].
      * rewrite bool_decide_eq_false_2 by congruence.
        rewrite (Hsums _ _ Hacc). cbn. ring.
      * rewrite bool_decide_eq_true_2 by reflexivity.
        rewrite key_sum_absent by (rewrite <- Hkeys; exact Hnew). cbn. ring.
      * rewrite bool_decide_eq_true_2 by reflexivity.
        rewrite (Hsums _ _ Hs0). cbn. ring.
    + rewrite bump_sum, Htot, map_app, Qsum_app. cbn. ring.
Qed.

End GroupingFacts.

Lemma group_rows_values {A K : Type} `{EqDecision K}
    (key : A -> K) (val : A -> Q) (eqb : K -> K -> bool) (l : list A) (k : K) :
  (forall a b, eqb a b = true <-> a = b) ->
  map snd (List.filter (fun r => bool_decide (fst r = k))
             (map (fun x => (key x, val x)) l))
  = map val (List.filter (fun x => eqb (key x) k) l).
Proof.
  intros Heqb. induction l as [|x l IH]; cbn; [reflexivity|].
  destruct (eqb (key x) k) eqn:E.
  - apply Heqb in E. rewrite bool_decide_eq_true_2 by exact E. cbn. rewrite IH.
    reflexivity.
  - rewrite bool_decide_eq_false_2; [exact IH|].
    intros E'. apply Heqb in E'. congruence.
Qed.

Lemma group_rows_keys {A K : Type} (key : A -> K) (val : A -> Q) (l : list A) :
  map fst (map (fun x => (key x, val x)) l) = map key l.
Proof. rewrite map_map. reflexivity. Qed.

Lemma group_rows_total {A K : Type} (key : A -> K) (val : A -> Q) (l : list A) :
  map snd (map (fun x => (key x, val x)) l) = map val l.
Proof. rewrite map_map. reflexivity. Qed.

Lemma Qsum_Permutation (l1 l2 : list Q) :
  Permutation l1 l2 -> (Qsum l1 == Qsum l2)%Q.
Proof.
  unfold Qsum. induction 1; cbn.
  - reflexivity.
  - rewrite IHPermutation. reflexivity.
  - ring.
  - rewrite IHPermutation1. exact IHPermutation2.
Qed.

Lemma by_date_transitive : Transitive by_date.
Proof. intros a b c. unfold by_date. lia. Qed.

Lemma by_date_total : Total by_date.
Proof. intros a b. unfold by_date. lia. Qed.

Lemma by_qty_desc_transitive : Transitive by_qty_desc.
Proof.
  intros a b c. unfold by_qty_desc. rewrite !Is_true_true, !Qle_bool_iff.
  intros H1 H2. eapply Qle_trans; eassumption.
Qed.

Lemma by_qty_desc_total : Total by_qty_desc.
Proof.
  intros a b. unfold by_qty_desc. rewrite !Is_true_true, !Qle_bool_iff.
  destruct (Qlt_le_dec (snd a) (snd b)) as [Hlt|Hle].
  - right. apply Qlt_le_weak, Hlt.
  - left. exact Hle.
Qed.

Lemma StronglySorted_weaken {A} (R R' : A -> A -> Prop) (l : list A) :
  (forall a b, R a b -> R' a b) ->
  Sorted.StronglySorted R l -> Sorted.StronglySorted R' l.
Proof.
  intros HR. induction 1 as [|x l Hs IH Hall]; constructor; [exact IH|].
  eapply List.Forall_impl; [|exact Hall]. intros b. apply HR.
Qed.

Lemma sorted_dates_strict (l : list (Z * Q)) :
  Sorted.StronglySorted by_date l ->
  List.NoDup (map fst l) ->
  Sorted.StronglySorted Z.lt (map fst l).
Proof.
  induction 1 as [|x l Hs IH Hall]; cbn; intros Hnd; constructor.
  - apply IH. apply List.NoDup_cons_iff in Hnd as [_ Hnd]. exact Hnd.
  - apply List.NoDup_cons_iff in Hnd as [Hnotin _].
    apply List.Forall_forall. intros d Hd. apply in_map_iff in Hd as (y & <- & Hy).
    rewrite List.Forall_forall in Hall. specialize (Hall y Hy). unfold by_date in Hall.
    assert (fst x <> fst y) as Hne.
    { intros E. apply Hnotin. rewrite E. apply in_map, Hy. }
    lia.
Qed.

(** Groups sorted by date: one row per date, dates strictly ascending,
    each with the sum of its rows. *)
Lemma sorted_groups_by_date (src : list (Z * Q)) :
  let trend := sorting.merge_sort by_date (group_sum src) in
  Sorted.StronglySorted Z.lt (map fst trend) /\
  (forall d, In d (map fst trend) <-> In d (map fst src)) /\
  (forall d t, In (d, t) trend ->
     (t == Qsum (map snd (List.filter (fun r => bool_decide (fst r = d)) src)))%Q) /\
  (Qsum (map snd trend) == Qsum (map snd src))%Q.
Proof.
  intros trend.
  destruct (group_sum_spec src) as (Hnd & Hkeys & Hsums & Htot).
  pose proof (sorting.merge_sort_Permutation by_date (group_sum src)) as Hperm.
  fold trend in Hperm.
  split; [|split; [|split]].
  - apply sorted_dates_strict.
    + apply sorting.StronglySorted_merge_sort;
        [exact by_date_transitive | exact by_date_total].
    + eapply Permutation_NoDup; [|exact Hnd].
      apply Permutation_map. symmetry. exact Hperm.
  - intros d. rewrite <- Hkeys. split; apply Permutation_in, Permutation_map;
      [exact Hperm | symmetry; exact Hperm].
  - intros d t Hin. apply Hsums. eapply Permutation_in; [exact Hperm | exact Hin].
  - rewrite <- Htot. apply Qsum_Permutation, Permutation_map, Hperm.
Qed.

(** X18. [get_monthly_trend] lists every date that has a row exactly
    once, dates strictly ascending, each with the sum of that date's
    rows, so that the listed totals add up to the total of the table.
    The rows are the sales for [data_type = "sales"] and the expenses for
    every other value of [data_type], whatever it is. *)
Theorem monthly_trend_lists_each_date_once_in_order
    (data_type : string) (db : Store) (tbl : list Expense) :
  let trend := get_monthly_trend data_type db tbl in
  Sorted.StronglySorted Z.lt (map fst trend) /\
  (data_type = "sales"%string ->
     (forall d, In d (map fst trend) <-> In d (map sale_date (sales db))) /\
     (forall d t, In (d, t) trend -> (t == day_total (sales db) d)%Q) /\
     (Qsum (map snd trend) == Qsum (map sale_total (sales db)))%Q) /\
  (data_type <> "sales"%string ->
     (forall d, In d (map fst trend) <-> In d (map expense_date tbl)) /\
     (forall d t, In (d, t) trend -> (t == day_expenses tbl d)%Q) /\
     (Qsum (map snd trend) == Qsum (map expense_amount tbl))%Q).
Proof.
  cbv zeta. unfold get_monthly_trend.
  destruct (String.eqb data_type "sales") eqn:E.
  - apply String.eqb_eq in E.
    destruct (sorted_groups_by_date
                (map (fun s => (sale_date s, sale_total s)) (sales db)))
      as (Hsorted & Hkeys & Hsums & Htot).
    split; [exact Hsorted|]. split; [|intros Hne; contradiction].
    intros _. split; [|split].
    + intros d. rewrite Hkeys, group_rows_keys. reflexivity.
    + intros d t Hin. rewrite (Hsums d t Hin). unfold day_total.
      rewrite (group_rows_values sale_date sale_total Z.eqb); [reflexivity|].
      apply Z.eqb_eq.
    + rewrite Htot, group_rows_total. reflexivity.
  - apply String.eqb_neq in E.
    destruct (sorted_groups_by_date
                (map (fun x => (expense_date x, expense_amount x)) tbl))
      as (Hsorted & Hkeys & Hsums & Htot).
    split; [exact Hsorted|]. split; [intros Heq; contradiction|].
    intros _. split; [|split].
    + intros d. rewrite Hkeys, group_rows_keys. reflexivity.
    + intros d t Hin. rewrite (Hsums d t Hin). unfold day_expenses.
      rewrite (group_rows_values expense_date expense_amount Z.eqb); [reflexivity|].
      apply Z.eqb_eq.
    + rewrite Htot, group_rows_total. reflexivity.
Qed.

(** X19. [get_expense_breakdown] lists every category that has an
    expense exactly once, with the sum of the amounts of that category;
    the listed amounts add up to the total of all expenses. *)
Theorem expense_breakdown_sums_each_category (tbl : list Expense) :
  let breakdown := get_expense_breakdown tbl in
  List.NoDup (map fst breakdown) /\
  (forall c, In c (map fst breakdown) <-> In c (map expense_category tbl)) /\
  (forall c a, In (c, a) breakdown -> (a == category_amount tbl c)%Q) /\
  (Qsum (map snd breakdown) == Qsum (map expense_amount tbl))%Q.
Proof.
  cbv zeta. unfold get_expense_breakdown.
  destruct (group_sum_spec
              (map (fun x => (expense_category x, expense_amount x)) tbl))
    as (Hnd & Hkeys & Hsums & Htot).
  split; [exact Hnd|]. split; [|split].
  - intros c. rewrite Hkeys, group_rows_keys. reflexivity.
  - intros c a Hin. rewrite (Hsums c a Hin). unfold category_amount.
    rewrite (group_rows_values expense_category expense_amount String.eqb);
      [reflexivity|].
    apply String.eqb_eq.
  - rewrite Htot, group_rows_total. reflexivity.
Qed.

(** X20. [get_top_items] returns at most five rows, no item twice, each
    with the summed quantity of the item's sales, in descending order of
    that sum.  An item that was sold and is not listed is left out only
    because five items are listed whose sums are all at least as large as
    its own. *)
Theorem top_items_are_the_best_sellers (db : Store) :
  let top := get_top_items db in
  (length top <= 5)%nat /\
  List.NoDup (map fst top) /\
  (forall i n, In (i, n) top ->
     In i (map sale_item (sales db)) /\ (n == item_qty (sales db) i)%Q) /\
  Sorted.StronglySorted (fun a b => (snd b <= snd a)%Q) top /\
  (forall i, In i (map sale_item (sales db)) -> ~ In i (map fst top) ->
     length top = 5%nat /\
     forall j m, In (j, m) top -> (item_qty (sales db) i <= m)%Q).
Proof.
  cbv zeta. unfold get_top_items.
  set (src := map (fun s => (sale_item s, sale_qty s)) (sales db)).
  set (sorted := sorting.merge_sort by_qty_desc (group_sum src)).
  destruct (group_sum_spec src) as (Hnd & Hkeys & Hsums & _).
  pose proof (sorting.merge_sort_Permutation by_qty_desc (group_sum src)) as Hperm.
  fold sorted in Hperm.
  assert (Sorted.StronglySorted by_qty_desc sorted) as Hsorted.
  { apply sorting.StronglySorted_merge_sort;
      [exact by_qty_desc_transitive | exact by_qty_desc_total]. }
  assert (List.NoDup (map fst sorted)) as Hnd'.
  { eapply Permutation_NoDup; [|exact Hnd]. apply Permutation_map. symmetry.
    exact Hperm. }
  assert (forall i n, In (i, n) sorted ->
            In i (map sale_item (sales db)) /\ (n == item_qty (sales db) i)%Q) as Hrow.
  { intros i n Hin. apply (Permutation_in _ Hperm) in Hin. split.
    - unfold src in Hkeys. rewrite <- (group_rows_keys sale_item sale_qty), <- Hkeys.
      apply (in_map fst) in Hin. exact Hin.
    - rewrite (Hsums i n Hin). unfold item_qty, src.
      rewrite (group_rows_values sale_item sale_qty String.eqb); [reflexivity|].
      apply String.eqb_eq. }
  pose proof (take_drop 5 sorted) as Hsplit.
  assert (forall x, In x (take 5 sorted) -> In x sorted) as Hsub.
  { intros x Hx. rewrite <- Hsplit. apply in_or_app. left. exact Hx. }
  split; [rewrite length_take; lia|]. split; [|split; [|split]].
  - rewrite <- Hsplit, map_app in Hnd'. apply NoDup_app_remove_r in Hnd'. exact Hnd'.
  - intros i n Hin. apply Hrow, Hsub, Hin.
  - rewrite <- Hsplit in Hsorted. apply sorting.StronglySorted_app_1_l in Hsorted.
    eapply StronglySorted_weaken; [|exact Hsorted].
    intros a b. unfold by_qty_desc. rewrite Is_true_true, Qle_bool_iff. tauto.
  - intros i Hsold Hout.
    assert (In i (map fst sorted)) as Hin.
    { eapply Permutation_in; [apply Permutation_map; symmetry; exact Hperm|].
      apply Hkeys. unfold src. rewrite group_rows_keys. exact Hsold. }
    rewrite <- Hsplit, map_app, in_app_iff in Hin. destruct Hin as [Hin|Hin];
      [contradiction|].
    apply in_map_iff in Hin as ([i' n] & Hi & Hin). cbn in Hi. subst i'.
    split.
    + rewrite length_take. destruct (drop 5 sorted) eqn:Ed; [destruct Hin|].
      assert (length (drop 5 sorted) <> 0)%nat as Hlen by (rewrite Ed; cbn; lia).
      rewrite length_drop in Hlen. lia.
    + intros j m Hj.
      assert (by_qty_desc (j, m) (i, n)) as Hord.
      { rewrite <- Hsplit in Hsorted.
        apply (sorting.StronglySorted_app_1_elem_of _ _ _ _ _ Hsorted);
          apply list_elem_of_In; assumption. }
      unfold by_qty_desc in Hord. rewrite Is_true_true, Qle_bool_iff in Hord.
      cbn in Hord. destruct (Hrow i n) as [_ Hn].
      { rewrite <- Hsplit. apply in_or_app. right. exact Hin. }
      rewrite <- Hn. exact Hord.
Qed.

Example top_items_of_six :
  get_top_items six_items_store
  = [("Sugar"%string, 9%Q); ("Tea"%string, 5%Q); ("Oil"%string, 4%Q);
     ("Salt"%string, 3%Q); ("Soap"%string, 2%Q)].
Proof. vm_compute. reflexivity. Qed.

(** ** Loading the sample data *)

Section SampleStepFacts.

Variable fault : db_op -> bool.
Variable today : Z.
Variable strptime : string -> option Z.

Hypothesis no_faults : forall op, fault op = false.

Lemma sample_present_app data tbl more :
  sample_present today strptime data tbl -> sample_present today strptime data (tbl ++ more).
Proof.
  destruct data as [[[[[i q] p] t] c] d]. intros (r & Hin & Hr).
  exists r. split; [apply in_or_app; left; exact Hin | exact Hr].
Qed.

Lemma load_sale_run data (c w : Store) :
  exists added,
    load_sale fault false today strptime data (mkSession c w)
    = (mkSession c (mkStore (sales w ++ added) (stock w)), ok tt) /\
    sample_present today strptime data (sales w ++ added) /\
    (sample_present today strptime data (sales w) -> added = []).
Proof.
  destruct data as [[[[[i q] p] t] cu] d]. unfold load_sale, query_sale.
  session_unfold. cbn. rewrite ?no_faults.
  destruct (find (sale_is i cu (parse_date today strptime d)) (sales w)) as [r|] eqn:Hfind;
    cbn.
  - exists []. rewrite app_nil_r. destruct w; cbn. split; [reflexivity|].
    apply find_some in Hfind as [Hin Hr]. split; [|reflexivity].
    exists r. split; assumption.
  - eexists [_]. split; [reflexivity|]. split.
    + eexists. split; [apply in_or_app; right; left; reflexivity|].
      unfold sale_is. cbn. rewrite !String.eqb_refl, Z.eqb_refl. reflexivity.
    + intros (r & Hin & Hr). exfalso.
      pose proof (find_none _ _ Hfind r Hin) as Hn. congruence.
Qed.

Lemma load_stock_as_upsert data (c w : Store) :
  let '(item, qty, threshold, unit_cost, last_updated) := data in
  load_stock fault data (mkSession c w)
  = (mkSession c
       (fst (add_stock_safe fault last_updated (Some item) (Some qty) (Some threshold)
               (Some unit_cost) w)),
     ok tt).
Proof.
  destruct data as [[[[i q] t] cost] d]. unfold load_stock, add_stock_safe.
  session_unfold. cbn. rewrite ?no_faults. cbn.
  destruct (find (item_is i) (stock w)) as [st|] eqn:Hfind; cbn; rewrite ?no_faults; cbn.
  - reflexivity.
  - rewrite (existsb_item_false _ _ Hfind). cbn. rewrite ?no_faults. reflexivity.
Qed.

Lemma load_stock_run data (c w : Store) :
  stock_keys_ok (stock w) ->
  exists w',
    load_stock fault data (mkSession c w) = (mkSession c w', ok tt) /\
    sales w' = sales w /\
    stock_keys_ok (stock w') /\
    stock_loaded data (stock w') /\
    (forall other, other <> fst (fst (fst (fst data))) ->
       List.filter (item_is other) (stock w') = List.filter (item_is other) (stock w)) /\
    (stock_loaded data (stock w) -> w' = w).
Proof.
  intros Hkeys. pose proof (load_stock_as_upsert data c w) as Hrun.
  destruct data as [[[[i q] t] cost] d].
  destruct (upsert_row_effect fault d i q t cost w no_faults Hkeys)
    as (w' & id & created & Hup & Hs & Hk & Hone & Hother).
  rewrite Hup in Hrun. cbn [fst] in *.
  exists w'. split; [exact Hrun|]. split; [exact Hs|]. split; [exact Hk|].
  split; [exists id; exact Hone|]. split; [exact Hother|].
  intros [id0 Hloaded].
  destruct (filter_single_split _ _ _ Hloaded) as [_ (pre & post & Hsplit)].
  pose proof (upsert_existing_row fault d q t cost pre post
                (mkStock id0 i q t cost d) w no_faults Hsplit Hkeys) as Hex.
  cbn [stock_item stock_id] in Hex. rewrite Hex in Hup. injection Hup as <- _ _.
  destruct w as [ws wk]. cbn in *. rewrite Hsplit. reflexivity.
Qed.

End SampleStepFacts.

Lemma stock_loaded_filter data (tbl tbl' : list Stock) :
  List.filter (item_is (fst (fst (fst (fst data))))) tbl'
  = List.filter (item_is (fst (fst (fst (fst data))))) tbl ->
  stock_loaded data tbl -> stock_loaded data tbl'.
Proof.
  destruct data as [[[[i q] t] cost] d]. cbn. intros E [id H]. exists id.
  rewrite E. exact H.
Qed.

Section SampleLoopFacts.

Variable fault : nat -> db_op -> bool.
Variable today : Z.
Variable strptime : string -> option Z.

Hypothesis no_faults : forall k op, fault k op = false.

Lemma load_sales_run (samples : list (string * Q * Q * Q * string * string))
    (k0 : nat) (c w : Store) :
  exists added,
    for_each (fun k => load_sale (fault k) false today strptime) k0 samples
      (mkSession c w)
    = (mkSession c (mkStore (sales w ++ added) (stock w)), ok tt) /\
    (forall data, In data samples -> sample_present today strptime data (sales w ++ added)) /\
    ((forall data, In data samples -> sample_present today strptime data (sales w)) ->
     added = []).
Proof.
  revert k0 w. induction samples as [|data samples IH]; intros k0 w.
  - exists []. rewrite app_nil_r. destruct w; cbn. split; [reflexivity|].
    split; [intros data []|reflexivity].
  - destruct (load_sale_run (fault k0) today strptime (no_faults k0) data c w)
      as (a1 & Hrun1 & Hp1 & Hfix1).
    destruct (IH (S k0) (mkStore (sales w ++ a1) (stock w))) as (a2 & Hrun2 & Hp2 & Hfix2).
    cbn [sales stock] in *.
    exists (a1 ++ a2). split; [|split].
    + cbn [for_each]. unfold mbind at 1. rewrite Hrun1, Hrun2, app_assoc. reflexivity.
    + intros x [<-|Hx].
      * rewrite app_assoc. apply sample_present_app, Hp1.
      * rewrite app_assoc. apply Hp2, Hx.
    + intros Hall. rewrite (Hfix1 (Hall data (or_introl eq_refl))) in *.
      rewrite app_nil_r in Hfix2. cbn. apply Hfix2.
      intros x Hx. apply Hall. right. exact Hx.
Qed.

Lemma load_stocks_run (data : list (string * Q * Q * Q * Z)) (k0 : nat) (c w : Store) :
  List.NoDup (map (fun x => fst (fst (fst (fst x)))) data) ->
  stock_keys_ok (stock w) ->
  exists w',
    for_each (fun k => load_stock (fault k)) k0 data (mkSession c w)
    = (mkSession c w', ok tt) /\
    sales w' = sales w /\
    stock_keys_ok (stock w') /\
    (forall x, In x data -> stock_loaded x (stock w')) /\
    (forall other, ~ In other (map (fun x => fst (fst (fst (fst x)))) data) ->
       List.filter (item_is other) (stock w') = List.filter (item_is other) (stock w)) /\
    ((forall x, In x data -> stock_loaded x (stock w)) -> w' = w).
Proof.
  revert k0 w. induction data as [|x data IH]; intros k0 w Hnd Hkeys.
  - exists w. cbn. repeat split; try assumption; try reflexivity.
    + apply Hkeys.
    + apply Hkeys.
    + intros x [].
  - cbn [map] in Hnd. apply List.NoDup_cons_iff in Hnd as [Hnotin Hnd].
    destruct (load_stock_run (fault k0) (no_faults k0) x c w Hkeys)
      as (w1 & Hrun1 & Hs1 & Hk1 & Hl1 & Ho1 & Hfix1).
    destruct (IH (S k0) w1 Hnd Hk1) as (w2 & Hrun2 & Hs2 & Hk2 & Hl2 & Ho2 & Hfix2).
    exists w2. split; [|split; [|split; [|split; [|split]]]].
    + cbn [for_each]. unfold mbind at 1. rewrite Hrun1. exact Hrun2.
    + congruence.
    + exact Hk2.
    + intros y [<-|Hy]; [|apply Hl2, Hy].
      eapply stock_loaded_filter; [|exact Hl1]. apply Ho2, Hnotin.
    + intros other Hother. cbn [map] in Hother.
      rewrite Ho2 by (intros Hin; apply Hother; right; exact Hin).
      apply Ho1. intros E. apply Hother. left. symmetry. exact E.
    + intros Hall. assert (w1 = w) as -> by (apply Hfix1, Hall; left; reflexivity).
      apply Hfix2. intros y Hy. apply Hall. right. exact Hy.
Qed.

(** One call with the persistence layer working. *)
Lemma load_sample_data_run (db : Store) :
  stock_keys_ok (stock db) ->
  exists db1,
    load_sample_data fault (fun _ => false) today strptime db = (db1, ok tt) /\
    stock_keys_ok (stock db1) /\
    (exists added,
       sales db1 = sales db ++ added /\
       ((forall data, In data sample_sales ->
           sample_present today strptime data (sales db)) -> added = [])) /\
    (forall data, In data sample_sales ->
       sample_present today strptime data (sales db1)) /\
    (forall data, In data (stock_data today strptime) ->
       stock_loaded data (stock db1)) /\
    (forall other, ~ In other ["Sugar"; "Rice"; "Tea"]%string ->
       List.filter (item_is other) (stock db1) = List.filter (item_is other) (stock db)) /\
    ((forall data, In data sample_sales ->
        sample_present today strptime data (sales db)) ->
     (forall data, In data (stock_data today strptime) ->
        stock_loaded data (stock db)) ->
     db1 = db).
Proof.
  intros Hkeys.
  assert (List.NoDup (map (fun x : string * Q * Q * Q * Z => fst (fst (fst (fst x))))
                        (stock_data today strptime))) as Hnd.
  { cbn. repeat constructor; cbn; intros H; repeat destruct H as [H|H];
      try discriminate H; exact H. }
  destruct (load_sales_run sample_sales 0 db db) as (added & Hrun1 & Hp1 & Hfix1).
  destruct (load_stocks_run (stock_data today strptime) (length sample_sales) db
              (mkStore (sales db ++ added) (stock db)) Hnd Hkeys)
    as (db1 & Hrun2 & Hs2 & Hk2 & Hl2 & Ho2 & Hfix2).
  cbn [sales stock] in *.
  exists db1. split; [|split; [|split; [|split; [|split; [|split]]]]].
  - unfold load_sample_data, run_session, open_session.
    unfold mbind at 1. rewrite Hrun1. unfold mbind at 1. rewrite Hrun2.
    unfold commit, close. rewrite no_faults. reflexivity.
  - exact Hk2.
  - exists added. split; [exact Hs2 | exact Hfix1].
  - intros data Hdata. rewrite Hs2. apply Hp1, Hdata.
  - exact Hl2.
  - intros other Hother. apply Ho2. exact Hother.
  - intros Hsales Hstock. rewrite (Hfix1 Hsales) in *. rewrite app_nil_r in *.
    destruct db as [ds dk]. cbn [sales stock] in *. apply Hfix2, Hstock.
Qed.

End SampleLoopFacts.

Lemma sample_present_same_dates (today today' : Z) (strptime : string -> option Z)
    data (tbl : list Sale) :
  parse_date today' strptime (snd data) = parse_date today strptime (snd data) ->
  sample_present today strptime data tbl -> sample_present today' strptime data tbl.
Proof.
  destruct data as [[[[[i q] p] t] c] d]. cbn [snd]. intros E (r & Hin & Hr).
  exists r. split; [exact Hin|]. rewrite E. exact Hr.
Qed.

(** X21. Loading the sample data twice is loading it once, provided the
    two dates written in the sample are read the same on both days (they
    are when [DATE_FORMAT] parses them, or when both calls are made on
    the same day): with the persistence layer working and unique stock
    keys, [load_sample_data] succeeds, and a second call on the result,
    on the same or on another day, succeeds and changes nothing.  After
    the first call every sample sale is in the sales table (the earlier
    sales are kept), each of the three sample items has exactly one stock
    row, carrying the sample values, and the stock rows of all other
    items are as before. *)
Theorem load_sample_data_is_idempotent
    (fault fault' : nat -> db_op -> bool) (today today' : Z)
    (strptime : string -> option Z) (db : Store) :
  (forall k op, fault k op = false) ->
  (forall k op, fault' k op = false) ->
  (forall d, In d ["2025-01-15"; "2025-01-16"]%string ->
     parse_date today' strptime d = parse_date today strptime d) ->
  stock_keys_ok (stock db) ->
  exists db1,
    load_sample_data fault (fun _ => false) today strptime db = (db1, ok tt) /\
    load_sample_data fault' (fun _ => false) today' strptime db1 = (db1, ok tt) /\
    (exists added, sales db1 = sales db ++ added) /\
    (forall data, In data sample_sales ->
       sample_present today strptime data (sales db1)) /\
    (forall data, In data (stock_data today strptime) ->
       stock_loaded data (stock db1)) /\
    (forall other, ~ In other ["Sugar"; "Rice"; "Tea"]%string ->
       List.filter (item_is other) (stock db1) = List.filter (item_is other) (stock db)).
Proof.
  intros Hf Hf' Hdates Hkeys.
  destruct (load_sample_data_run fault today strptime Hf db Hkeys)
    as (db1 & Hrun & Hk1 & [added [Hs _]] & Hp & Hl & Ho & _).
  exists db1. split; [exact Hrun|]. split.
  - destruct (load_sample_data_run fault' today' strptime Hf' db1 Hk1)
      as (db2 & Hrun' & _ & _ & _ & _ & _ & Hfix).
    assert (db2 = db1) as ->; [|exact Hrun'].
    apply Hfix.
    + intros data Hdata. apply (sample_present_same_dates today today'); [|apply Hp, Hdata].
      apply Hdates. cbn in Hdata.
      destruct Hdata as [<-|[<-|[<-|[]]]]; cbn; auto.
    + assert (stock_data today' strptime = stock_data today strptime) as ->; [|exact Hl].
      unfold stock_data. rewrite (Hdates "2025-01-15"%string) by (left; reflexivity).
      reflexivity.
  - split; [exists added; exact Hs|]. auto.
Qed.

Lemma load_sample_data_is_idempotent_witness :
  (forall (k : nat) op, no_fault op = false) /\
  (forall d, In d ["2025-01-15"; "2025-01-16"]%string ->
     parse_date 20201 strptime_sample d = parse_date 20200 strptime_sample d) /\
  stock_keys_ok (stock sugar_store) /\
  exists db1,
    load_sample_data (fun _ => no_fault) (fun _ => false) 20200 strptime_sample
      sugar_store = (db1, ok tt) /\
    load_sample_data (fun _ => no_fault) (fun _ => false) 20201 strptime_sample db1
    = (db1, ok tt) /\
    length (sales db1) = 3%nat /\
    get_stock db1
    = [("Sugar"%string, 100%Q, 10%Q, 40%Q); ("Rice"%string, 50%Q, 5%Q, 60%Q);
       ("Tea"%string, 200%Q, 20%Q, 8%Q)].
Proof.
  assert (forall d, In d ["2025-01-15"; "2025-01-16"]%string ->
            parse_date 20201 strptime_sample d = parse_date 20200 strptime_sample d)
    as Hdates.
  { intros d [<-|[<-|[]]]; reflexivity. }
  split; [reflexivity|]. split; [exact Hdates|]. split; [exact sugar_store_keys_ok|].
  destruct (load_sample_data_is_idempotent (fun _ => no_fault) (fun _ => no_fault)
              20200 20201 strptime_sample sugar_store
              (fun _ _ => eq_refl) (fun _ _ => eq_refl) Hdates sugar_store_keys_ok)
    as (db1 & Hrun & Hagain & _).
  exists db1. split; [exact Hrun|]. split; [exact Hagain|].
  vm_compute in Hrun. injection Hrun as <-. split; reflexivity.
Defined.

(** Without that proviso the second call does add: when the sample dates
    do not parse they are read as the day of the call, and a call on the
    next day finds no sale of that day and adds the three sales again. *)
Example load_sample_data_repeats_when_dates_do_not_parse :
  let db1 := fst (load_sample_data (fun _ => no_fault) (fun _ => false) 20200
                    (fun _ => None) (mkStore [] [])) in
  let db2 := fst (load_sample_data (fun _ => no_fault) (fun _ => false) 20201
                    (fun _ => None) db1) in
  length (sales db1) = 3%nat /\ length (sales db2) = 6%nat.
Proof. vm_compute. split; reflexivity. Qed.

Lemma keeps_committed_bind {A B} (m : M A) (k : A -> M B) :
  keeps_committed m -> (forall a, keeps_committed (k a)) ->
  keeps_committed (mbind m k).
Proof.
  intros Hm Hk s. unfold mbind. specialize (Hm s).
  destruct (m s) as [s1 [e|a]]; cbn in *; [exact Hm|].
  rewrite (Hk a s1). exact Hm.
Qed.

Lemma keeps_committed_ret {A} (a : A) : keeps_committed (mret a).
Proof. intros s. reflexivity. Qed.

Lemma load_sale_keeps_committed (fault : db_op -> bool) (sale_query_fault : bool)
    (today : Z) (strptime : string -> option Z) data :
  keeps_committed (load_sale fault sale_query_fault today strptime data).
Proof.
  destruct data as [[[[[i q] p] t] cu] d]. unfold load_sale.
  apply keeps_committed_bind.
  - intros s. unfold query_sale. destruct sale_query_fault; reflexivity.
  - intros [r|]; [apply keeps_committed_ret|].
    apply keeps_committed_bind; [|intros; apply keeps_committed_ret].
    intros s. unfold insert_sale. destruct (fault OpInsertSale); reflexivity.
Qed.

Lemma load_stock_keeps_committed (fault : db_op -> bool) data :
  keeps_committed (load_stock fault data).
Proof.
  destruct data as [[[[i q] t] cost] d]. unfold load_stock.
  apply keeps_committed_bind.
  - intros s. unfold query_stock. destruct (fault OpQueryStock); reflexivity.
  - intros [st|].
    + intros s. unfold overwrite_stock, update_stock_row.
      destruct (fault OpUpdateStock); reflexivity.
    + apply keeps_committed_bind; [|intros; apply keeps_committed_ret].
      intros s. unfold insert_stock. destruct (fault OpInsertStock); [reflexivity|].
      destruct (existsb (item_is i) (stock (working s))); reflexivity.
Qed.

Lemma for_each_keeps_committed {A} (body : nat -> A -> M unit) (k0 : nat) (l : list A) :
  (forall k x, keeps_committed (body k x)) -> keeps_committed (for_each body k0 l).
Proof.
  intros Hbody. revert k0. induction l as [|x l IH]; intros k0; cbn [for_each].
  - apply keeps_committed_ret.
  - apply keeps_committed_bind; [apply Hbody | intros _; apply IH].
Qed.

(** A failure late in the transaction: the look-ups and inserts of the
    sales loop and of the first stock row go through, the insert of the
    second stock row fails, and nothing is left of the earlier steps. *)
Example load_sample_data_fails_at_second_stock_row :
  load_sample_data
    (fun k op => match op with OpInsertStock => Nat.eqb k 4 | _ => false end)
    (fun _ => false) 20200 strptime_sample (mkStore [] [])
  = (mkStore [] [], raise OperationalError).
Proof. vm_compute. reflexivity. Qed.

(** X22. [load_sample_data] is all or nothing: when the call raises,
    whichever statement of the transaction failed (any look-up, insert
    or update of any iteration of the two loops, or the commit), the
    database is as it was before the call, with none of the sample sales
    or stock rows written; a call that returns has passed its commit. *)
Theorem load_sample_data_is_atomic
    (fault : nat -> db_op -> bool) (sale_query_fault : nat -> bool) (today : Z)
    (strptime : string -> option Z) (db : Store) :
  match load_sample_data fault sale_query_fault today strptime db with
  | (db', inl _) => db' = db
  | (_, inr _) =>
      fault (length sample_sales + length (stock_data today strptime))%nat OpCommit
      = false
  end.
Proof.
  unfold load_sample_data, run_session.
  set (sales_loop :=
         for_each (fun k => load_sale (fault k) (sale_query_fault k) today strptime)
           0 sample_sales).
  set (stock_loop :=
         for_each (fun k => load_stock (fault k)) (length sample_sales)
           (stock_data today strptime)).
  assert (keeps_committed sales_loop) as Hk1
      by (apply for_each_keeps_committed; intros; apply load_sale_keeps_committed).
  assert (keeps_committed stock_loop) as Hk2
      by (apply for_each_keeps_committed; intros; apply load_stock_keeps_committed).
  unfold mbind at 1. specialize (Hk1 (open_session db)).
  destruct (sales_loop (open_session db)) as [s1 [e|[]]] eqn:E1; cbn in Hk1.
  - unfold close, rollback. cbn. exact Hk1.
  - unfold mbind at 1. specialize (Hk2 s1).
    destruct (stock_loop s1) as [s2 [e|[]]] eqn:E2; cbn in Hk2.
    + unfold close, rollback. cbn. congruence.
    + unfold commit. destruct (fault _ OpCommit) eqn:Ec.
      * unfold close, rollback. cbn. congruence.
      * reflexivity.
Qed.

(** ** The entry forms and the stock table *)

Lemma Qle_bool_false (x y : Q) : Qle_bool x y = false <-> (y < x)%Q.
Proof.
  split.
  - intros E. apply Qnot_le_lt. rewrite <- Qle_bool_iff. congruence.
  - intros H. destruct (Qle_bool x y) eqn:E; [|reflexivity].
    apply Qle_bool_iff in E. exfalso. exact (Qlt_not_le _ _ H E).
Qed.

Lemma status_cases (q t : Q) :
  (status q t = "🔴 Low"%string <-> (q <= t)%Q) /\
  (status q t = "🟡 Medium"%string <-> (t < q)%Q /\ (q <= t * 2)%Q) /\
  (status q t = "🟢 Good"%string <-> (t < q)%Q /\ (t * 2 < q)%Q).
Proof.
  unfold status.
  destruct (Qle_bool q t) eqn:E1; [|destruct (Qle_bool q (t * 2)) eqn:E2].
  - apply Qle_bool_iff in E1.
    split; [tauto|]. split; (split; [discriminate|]); intros [H _]; Lqa.lra.
  - apply Qle_bool_iff in E2. apply Qle_bool_false in E1.
    split; [split; [discriminate | intros H; Lqa.lra]|].
    split; [tauto|]. split; [discriminate | intros [_ H]; Lqa.lra].
  - apply Qle_bool_false in E1, E2.
    split; [split; [discriminate | intros H; Lqa.lra]|].
    split; [|tauto]. split; [discriminate | intros [_ H]; Lqa.lra].
Qed.

Lemma stock_statuses_rows (db : Store) :
  stock_statuses db = map (fun s => status (stock_qty s) (stock_threshold s)) (stock db).
Proof. unfold stock_statuses, get_stock. rewrite map_map. reflexivity. Qed.

(** X23. The Status column of the stock table and the low-stock alerts
    agree: a row is shown as Low exactly when its quantity is at or below
    its threshold, which is when [get_low_stock_alerts] reports it, so
    the table has as many Low rows as there are alerts.  A row is Medium
    exactly when its quantity is above the threshold and at most twice
    the threshold, and Good when it is above both; hence no row with a
    threshold of zero or less is ever Medium. *)
Theorem stock_status_agrees_with_alerts (str_of_num : Q -> string) (db : Store) :
  length (List.filter (String.eqb "🔴 Low") (stock_statuses db))
  = length (get_low_stock_alerts str_of_num db) /\
  Forall2
    (fun s shown =>
       (shown = "🔴 Low"%string <-> (stock_qty s <= stock_threshold s)%Q) /\
       (shown = "🟡 Medium"%string <->
          (stock_threshold s < stock_qty s)%Q /\
          (stock_qty s <= stock_threshold s * 2)%Q) /\
       (shown = "🟢 Good"%string <->
          (stock_threshold s < stock_qty s)%Q /\
          (stock_threshold s * 2 < stock_qty s)%Q) /\
       ((stock_threshold s <= 0)%Q -> shown <> "🟡 Medium"%string))
    (stock db) (stock_statuses db).
Proof.
  rewrite stock_statuses_rows. split.
  - unfold get_low_stock_alerts. rewrite alerts_loop. cbn [app].
    rewrite filter_map_comm, !length_map. f_equal. apply filter_ext_eq.
    intros s. unfold status, is_low.
    destruct (Qle_bool (stock_qty s) (stock_threshold s)); [reflexivity|].
    destruct (Qle_bool (stock_qty s) (stock_threshold s * 2)); reflexivity.
  - induction (stock db) as [|s tbl IH]; cbn [map]; constructor; [|exact IH].
    destruct (status_cases (stock_qty s) (stock_threshold s)) as (HL & HM & HG).
    split; [exact HL|]. split; [exact HM|]. split; [exact HG|].
    intros Ht Hm. apply HM in Hm. destruct Hm. Lqa.lra.
Qed.

Lemma guard_true (submitted : bool) (item : string) (a b : bool) :
  submitted && nonempty item && a && b = true ->
  submitted = true /\ item <> EmptyString /\ a = true /\ b = true.
Proof.
  intros H. apply andb_prop in H as [H Hb]. apply andb_prop in H as [H Ha].
  apply andb_prop in H as [Hs Hi]. repeat split; try assumption.
  unfold nonempty in Hi. apply negb_true_iff, String.eqb_neq in Hi. exact Hi.
Qed.

Lemma Qpositive_spec (x : Q) : Qpositive x = true <-> (0 < x)%Q.
Proof. unfold Qpositive. rewrite negb_true_iff. apply Qle_bool_false. Qed.

(** X24. The sales form records only valid sales: whatever is typed and
    wherever the persistence layer fails, submitting the form either
    leaves the store as it was (nothing submitted, a blank item, a
    quantity or unit price that is not positive, or a failed [add_sale]),
    or appends exactly one sale, with a non-empty item, a positive
    quantity and unit price, the total [qty * unit_price], the customer as
    typed (a blank customer is stored as the empty string) and today's
    date, and adjusts the stock as [add_sale] does. *)
Theorem sales_form_records_only_valid_sales
    (fault : db_op -> bool) (today : Z) (submitted : bool) (item : string)
    (qty unit_price : Q) (customer : string) (db : Store) :
  match show_sales_submit fault today submitted item qty unit_price customer db with
  | (db', None) => db' = db
  | (db', Some (inl _)) => db' = db
  | (db', Some (inr id)) =>
      submitted = true /\ item <> EmptyString /\ (0 < qty)%Q /\ (0 < unit_price)%Q /\
      sales db'
      = sales db ++ [mkSale id item qty unit_price (qty * unit_price)%Q
                       (Some customer) today] /\
      stock db' = stock_after_sale today item qty (stock db)
  end.
Proof.
  unfold show_sales_submit.
  destruct (submitted && nonempty item && Qpositive qty && Qpositive unit_price) eqn:G;
    [|reflexivity].
  apply guard_true in G as (Hs & Hi & Hq & Hp).
  apply Qpositive_spec in Hq, Hp. cbv zeta.
  pose proof (add_sale_outcome fault today (Some item) (Some qty) (Some unit_price)
                (Some (qty * unit_price)%Q) (Some customer) db) as Hout.
  destruct (add_sale fault today (Some item) (Some qty) (Some unit_price)
              (Some (qty * unit_price)%Q) (Some customer) db) as [db' [e|id]];
    cbn [fst snd]; [exact Hout|].
  destruct Hout as (i & q & p & t & Ei & Eq & Ep & Et & Eid & Hsales & Hstock).
  injection Ei as <-. injection Eq as <-. injection Ep as <-. injection Et as <-.
  subst id. auto 10.
Qed.

Lemma guard_false (submitted : bool) (item : string) (a b : bool) :
  submitted && nonempty item && a && b = false ->
  submitted = false \/ item = EmptyString \/ a = false \/ b = false.
Proof.
  destruct submitted; [|auto]. destruct a; [|auto]. destruct b; [|auto].
  cbn. rewrite !andb_true_r. unfold nonempty. rewrite negb_false_iff.
  intros H. apply String.eqb_eq in H. auto.
Qed.

(** X25. The inventory form, with the persistence layer working and
    unique stock keys: input that is not submitted, has a blank item or
    has a negative quantity or threshold changes nothing; any other input
    succeeds, after which [get_stock] lists the item exactly once, with
    the quantity, threshold and unit cost as typed, and lists every other
    item as before.  The form thus never writes a negative quantity or
    threshold. *)
Theorem inventory_form_sets_the_item
    (fault : db_op -> bool) (today : Z) (submitted : bool) (item : string)
    (qty threshold unit_cost : Q) (db : Store) :
  (forall op, fault op = false) ->
  stock_keys_ok (stock db) ->
  match show_inventory_submit fault today submitted item qty threshold unit_cost db with
  | (db', None) =>
      db' = db /\
      (submitted = false \/ item = EmptyString \/ (qty < 0)%Q \/ (threshold < 0)%Q)
  | (db', Some r) =>
      submitted = true /\ item <> EmptyString /\ (0 <= qty)%Q /\ (0 <= threshold)%Q /\
      (exists id created, r = ok (id, created)) /\
      entries_for item (get_stock db') = [(item, qty, threshold, unit_cost)] /\
      forall other, other <> item ->
        entries_for other (get_stock db') = entries_for other (get_stock db)
  end.
Proof.
  intros Hf Hkeys. unfold show_inventory_submit.
  destruct (submitted && nonempty item && Qle_bool 0 qty && Qle_bool 0 threshold) eqn:G.
  - apply guard_true in G as (Hs & Hi & Hq & Ht).
    apply Qle_bool_iff in Hq, Ht. cbv zeta.
    destruct (upsert_row_effect fault today item qty threshold unit_cost db Hf Hkeys)
      as (db2 & id & created & Hrun & _ & _ & Hone & Hother).
    rewrite Hrun. cbn [fst snd].
    repeat (split; [assumption|]). split; [exists id, created; reflexivity|].
    rewrite entries_for_stock, Hone. split; [reflexivity|].
    intros other Hne. rewrite !entries_for_stock, Hother by exact Hne. reflexivity.
  - split; [reflexivity|].
    apply guard_false in G as [H|[H|[H|H]]]; auto; apply Qle_bool_false in H; auto.
Qed.

Lemma inventory_form_sets_the_item_witness :
  (forall op, no_fault op = false) /\
  stock_keys_ok (stock sugar_store) /\
  match show_inventory_submit no_fault 19001 true "Sugar" 3 5 40 sugar_store with
  | (db', None) =>
      db' = sugar_store /\
      (true = false \/ "Sugar"%string = EmptyString \/ (3 < 0)%Q \/ (5 < 0)%Q)
  | (db', Some r) =>
      true = true /\ "Sugar"%string <> EmptyString /\ (0 <= 3)%Q /\ (0 <= 5)%Q /\
      (exists id created, r = ok (id, created)) /\
      entries_for "Sugar" (get_stock db') = [("Sugar"%string, 3%Q, 5%Q, 40%Q)] /\
      forall other, other <> "Sugar"%string ->
        entries_for other (get_stock db') = entries_for other (get_stock sugar_store)
  end.
Proof.
  split; [reflexivity|]. split; [exact sugar_store_keys_ok|].
  exact (inventory_form_sets_the_item no_fault 19001 true "Sugar" 3 5 40 sugar_store
           (fun _ => eq_refl) sugar_store_keys_ok).
Defined.
